(** * nct7904: banked register access, capability detection and decoding

    A shallow embedding of drivers/hwmon/nct7904.c.  The driver talks to the
    chip through the SMBus byte primitives of the i2c core; these, the
    allocator and the hwmon registration call form the platform interface
    below.  Every driver function is a computation over a world made of the
    driver's private data, the platform state and a chronological trace of
    what the driver did to the platform (mutex operations, bus transactions,
    registration). *)

From Stdlib Require Import ZArith Lia List Bool String.
From stdpp Require Import base list gmap.
Import ListNotations.

Local Open Scope Z_scope.

(** ** C integer conversions *)

Module Int.

Definition to_u8 (z : Z) : Z := z mod 256.
Definition to_u32 (z : Z) : Z := z mod 4294967296.
Definition to_s32 (z : Z) : Z := (z + 2147483648) mod 4294967296 - 2147483648.

Definition UINT_MAX : Z := 4294967295.

End Int.

(** ** Register map and limits (the #define block) *)

Definition BANK_SEL_REG : Z := 0xFF.
Definition BANK_0 : Z := 0x00.
Definition BANK_1 : Z := 0x01.
Definition BANK_2 : Z := 0x02.
Definition BANK_3 : Z := 0x03.
Definition BANK_4 : Z := 0x04.
Definition BANK_MAX : Z := 0x04.

Definition FANIN_MAX : Z := 12.
Definition VSEN_MAX : Z := 21.
Definition FANCTL_MAX : Z := 4.
Definition TCPU_MAX : Z := 8.
Definition TEMP_MAX : Z := 4.

Definition VT_ADC_CTRL0_REG : Z := 0x20.
Definition VT_ADC_CTRL1_REG : Z := 0x21.
Definition VT_ADC_CTRL2_REG : Z := 0x22.
Definition FANIN_CTRL0_REG : Z := 0x24.
Definition FANIN_CTRL1_REG : Z := 0x25.
Definition DTS_T_CTRL0_REG : Z := 0x26.
Definition DTS_T_CTRL1_REG : Z := 0x27.
Definition VT_ADC_MD_REG : Z := 0x2E.

Definition VSEN1_HV_REG : Z := 0x40.
Definition TEMP_CH1_HV_REG : Z := 0x42.
Definition LTD_HV_REG : Z := 0x62.
Definition FANIN1_HV_REG : Z := 0x80.
Definition T_CPU1_HV_REG : Z := 0xA0.

Definition PRTS_REG : Z := 0x03.
Definition PFE_REG : Z := 0x00.
Definition TSI_CTRL_REG : Z := 0x50.
Definition FANCTL1_FMR_REG : Z := 0x00.
Definition FANCTL1_OUT_REG : Z := 0x10.

(** errno values of the kernel (include/uapi/asm-generic/errno*.h). *)
Definition EIO : Z := 5.
Definition ENOMEM : Z := 12.
Definition EINVAL : Z := 22.
Definition EOPNOTSUPP : Z := 95.

(** File modes returned by the visibility callbacks (octal 0444, 0644). *)
Definition mode_0444 : Z := 292.
Definition mode_0644 : Z := 420.

(** BIT(n) of linux/bits.h: [1UL << n], which C defines for a bit number
    inside the word; the shift is written without the word's limit and is
    meant for such bit numbers only. *)
Definition BIT (n : Z) : Z := Z.shiftl 1 n.

(** sign_extend32(value, index) of linux/bitops.h: bit [index] is the sign
    bit of the 32-bit [value]. *)
Definition sign_extend32 (value index : Z) : Z :=
  let shift := 31 - index in
  Z.shiftr (Int.to_s32 (Z.shiftl (Int.to_u32 value) shift)) shift.

(** ** Driver data: struct nct7904_data

    The [client] pointer is the platform state of the world and the mutex
    is visible through the trace, so neither is a field here. *)

Record nct7904_data : Type := mk_data {
  bank_sel : Z;
  fanin_mask : Z;
  vsen_mask : Z;
  tcpu_mask : Z;
  fan_mode : list Z;
  enable_dts : Z;
  has_dts : Z
}.

Definition with_bank_sel (v : Z) (d : nct7904_data) : nct7904_data :=
  mk_data v (fanin_mask d) (vsen_mask d) (tcpu_mask d) (fan_mode d)
          (enable_dts d) (has_dts d).
Definition with_fanin_mask (v : Z) (d : nct7904_data) : nct7904_data :=
  mk_data (bank_sel d) v (vsen_mask d) (tcpu_mask d) (fan_mode d)
          (enable_dts d) (has_dts d).
Definition with_vsen_mask (v : Z) (d : nct7904_data) : nct7904_data :=
  mk_data (bank_sel d) (fanin_mask d) v (tcpu_mask d) (fan_mode d)
          (enable_dts d) (has_dts d).
Definition with_tcpu_mask (v : Z) (d : nct7904_data) : nct7904_data :=
  mk_data (bank_sel d) (fanin_mask d) (vsen_mask d) v (fan_mode d)
          (enable_dts d) (has_dts d).
Definition with_fan_mode (v : list Z) (d : nct7904_data) : nct7904_data :=
  mk_data (bank_sel d) (fanin_mask d) (vsen_mask d) (tcpu_mask d) v
          (enable_dts d) (has_dts d).
Definition with_enable_dts (v : Z) (d : nct7904_data) : nct7904_data :=
  mk_data (bank_sel d) (fanin_mask d) (vsen_mask d) (tcpu_mask d) (fan_mode d)
          v (has_dts d).
Definition with_has_dts (v : Z) (d : nct7904_data) : nct7904_data :=
  mk_data (bank_sel d) (fanin_mask d) (vsen_mask d) (tcpu_mask d) (fan_mode d)
          (enable_dts d) v.

(** What devm_kzalloc hands back: every field zero. *)
Definition zeroed_data : nct7904_data :=
  mk_data 0 0 0 0 (replicate (Z.to_nat FANCTL_MAX) 0) 0 0.

(** ** Trace of platform interactions *)

Inductive event : Type :=
| EvLock
| EvUnlock
| EvRead (command ret : Z)
| EvWrite (command value ret : Z)
| EvRegister (d : nct7904_data) (ret : Z).

Definition is_lock (e : event) : bool :=
  match e with EvLock => true | _ => false end.
Definition is_register (e : event) : bool :=
  match e with EvRegister _ _ => true | _ => false end.
Definition is_bank_select (e : event) : bool :=
  match e with EvWrite c _ _ => c =? BANK_SEL_REG | _ => false end.

(** The error code of a failed bus transaction. *)
Definition failure_code (e : event) : option Z :=
  match e with
  | EvRead _ r => if r <? 0 then Some r else None
  | EvWrite _ _ r => if r <? 0 then Some r else None
  | _ => None
  end.

Definition count_events (p : event -> bool) (tr : list event) : nat :=
  length (List.filter p tr).

Definition published (tr : list event) : bool :=
  existsb is_register tr.

(** Failed transactions of a trace, each with the number of mutex
    acquisitions made so far, counting from [n]: the k-th accessor call of a
    function is the one that takes the mutex for the k-th time. *)
Fixpoint failed_steps (n : nat) (tr : list event) : list (nat * Z) :=
  match tr with
  | [] => []
  | e :: tr' =>
      if is_lock e then failed_steps (S n) tr'
      else match failure_code e with
           | Some r => (n, r) :: failed_steps n tr'
           | None => failed_steps n tr'
           end
  end.

(** ** Sensor types and attributes (linux/hwmon.h)

    Only the enumerators the driver names are kept apart; every other
    enumerator of the same C enum is the catch-all constructor. *)

Inductive hwmon_in_attributes : Type :=
| hwmon_in_input
| hwmon_in_other.

Inductive hwmon_fan_attributes : Type :=
| hwmon_fan_input
| hwmon_fan_other.

Inductive hwmon_temp_attributes : Type :=
| hwmon_temp_input
| hwmon_temp_other.

Inductive hwmon_pwm_attributes : Type :=
| hwmon_pwm_input
| hwmon_pwm_enable
| hwmon_pwm_other.

(** A (sensor type, attribute) pair as the hwmon core passes it. *)
Inductive hwmon_request : Type :=
| hwmon_in (attr : hwmon_in_attributes)
| hwmon_fan (attr : hwmon_fan_attributes)
| hwmon_pwm (attr : hwmon_pwm_attributes)
| hwmon_temp (attr : hwmon_temp_attributes)
| hwmon_other_type.

(** Result of a read or write callback: [Val v] is a return of 0 with
    [*val = v] (for a write, the status 0 itself), [Errno e] a return of the
    negative code [e]. *)
Inductive rv : Type :=
| Val (v : Z)
| Errno (e : Z).

(** ** Platform interface

    The contracts are those documented for the i2c core: a byte read returns
    a negative errno or the byte, a byte write returns a negative errno or
    zero; registration is seen through PTR_ERR_OR_ZERO. *)

Class Platform (B : Type) : Type := {
  i2c_smbus_read_byte_data : B -> Z -> Z * B;
  i2c_smbus_write_byte_data : B -> Z -> Z -> Z * B;
  devm_kzalloc : B -> bool * B;
  devm_hwmon_device_register_with_info : B -> nct7904_data -> Z * B;
  read_byte_contract :
    forall b c, let r := fst (i2c_smbus_read_byte_data b c) in
                r < 0 \/ 0 <= r <= 255;
  write_byte_contract :
    forall b c v, fst (i2c_smbus_write_byte_data b c v) <= 0;
  register_contract :
    forall b d, fst (devm_hwmon_device_register_with_info b d) <= 0
}.

(** ** Worlds and computations *)

Inductive fault : Type :=
| DivideByZero
| OutOfBounds.

Section Computations.

Context {B : Type}.

Record world : Type := mk_world {
  w_data : nct7904_data;
  w_bus : B;
  w_trace : list event
}.

Inductive outcome (A : Type) : Type :=
| Done (a : A) (w : world)
| Fault (f : fault).
Global Arguments Done {A} a w.
Global Arguments Fault {A} f.

Definition M (A : Type) : Type := world -> outcome A.

Definition mret {A} (a : A) : M A := fun w => Done a w.

Definition mbind {A C} (m : M A) (k : A -> M C) : M C :=
  fun w => match m w with
           | Done a w' => k a w'
           | Fault f => Fault f
           end.

Definition raise {A} (f : fault) : M A := fun _ => Fault f.

(** Observations of an outcome: the value returned, the final world, and
    the events added to the trace of the starting world [w]. *)
Definition returned {A} (o : outcome A) : option A :=
  match o with Done a _ => Some a | Fault _ => None end.

Definition final {A} (o : outcome A) : option world :=
  match o with Done _ w' => Some w' | Fault _ => None end.

Definition events_since {A} (w : world) (o : outcome A) : list event :=
  match o with
  | Done _ w' => drop (length (w_trace w)) (w_trace w')
  | Fault _ => []
  end.

End Computations.

Arguments world B : clear implicits.
Arguments outcome B A : clear implicits.
Arguments M B A : clear implicits.

Notation "x <- m ;; k" := (mbind m (fun x => k))
  (at level 100, m at next level, right associativity).
Notation "m ;;; k" := (mbind m (fun _ => k))
  (at level 100, right associativity).

Section Driver.

Context {B : Type} `{Platform B}.

Local Abbreviation M := (M B).
Local Abbreviation world := (world B).

Definition get_data : M nct7904_data := fun w => Done (w_data w) w.

Definition modify_data (f : nct7904_data -> nct7904_data) : M unit :=
  fun w => Done tt (mk_world (f (w_data w)) (w_bus w) (w_trace w)).

Definition emit (e : event) : M unit :=
  fun w => Done tt (mk_world (w_data w) (w_bus w) (w_trace w ++ [e])).

(** mutex_lock / mutex_unlock on data->bank_lock. *)
Definition mutex_lock : M unit := emit EvLock.
Definition mutex_unlock : M unit := emit EvUnlock.

(** The two bus primitives; [command] and [value] are u8 parameters, so the
    caller's unsigned int is truncated at the call. *)
Definition smbus_read (command : Z) : M Z :=
  fun w =>
    let c := Int.to_u8 command in
    let rb := i2c_smbus_read_byte_data (w_bus w) c in
    Done (fst rb)
      (mk_world (w_data w) (snd rb) (w_trace w ++ [EvRead c (fst rb)])).

Definition smbus_write (command value : Z) : M Z :=
  fun w =>
    let c := Int.to_u8 command in
    let v := Int.to_u8 value in
    let rb := i2c_smbus_write_byte_data (w_bus w) c v in
    Done (fst rb)
      (mk_world (w_data w) (snd rb) (w_trace w ++ [EvWrite c v (fst rb)])).

(** C division of unsigned operands: a zero divisor traps. *)
Definition udiv (a b : Z) : M Z :=
  if b =? 0 then raise DivideByZero else mret (a / b).

(** Read of a C array at a signed index. *)
Definition array_get (l : list Z) (i : Z) : option Z :=
  if i <? 0 then None else l !! Z.to_nat i.

Definition array_read (l : list Z) (i : Z) : M Z :=
  match array_get l i with
  | Some v => mret v
  | None => raise OutOfBounds
  end.

(** ** Access functions *)

(** [data->bank_sel == bank] compares an int with an unsigned int, so the
    cached value is converted to unsigned first. *)
Definition nct7904_bank_lock (bank : Z) : M Z :=
  mutex_lock ;;;
  d <- get_data ;;
  if Int.to_u32 (bank_sel d) =? bank then mret 0
  else
    ret <- smbus_write BANK_SEL_REG bank ;;
    (if ret =? 0
     then modify_data (with_bank_sel (Int.to_s32 bank))
     else modify_data (with_bank_sel (-1))) ;;;
    mret ret.

Definition nct7904_bank_release : M unit := mutex_unlock.

Definition nct7904_read_reg (bank reg : Z) : M Z :=
  ret <- nct7904_bank_lock bank ;;
  ret <- (if ret =? 0 then smbus_read reg else mret ret) ;;
  nct7904_bank_release ;;;
  mret ret.

Definition nct7904_read_reg16 (bank reg : Z) : M Z :=
  ret <- nct7904_bank_lock bank ;;
  ret <- (if ret =? 0 then
            ret <- smbus_read reg ;;
            if 0 <=? ret then
              let hi := ret in
              ret <- smbus_read (reg + 1) ;;
              if 0 <=? ret
              then mret (Z.lor ret (Z.shiftl hi 8))
              else mret ret
            else mret ret
          else mret ret) ;;
  nct7904_bank_release ;;;
  mret ret.

Definition nct7904_write_reg (bank reg val : Z) : M Z :=
  ret <- nct7904_bank_lock bank ;;
  ret <- (if ret =? 0 then smbus_write reg val else mret ret) ;;
  nct7904_bank_release ;;;
  mret ret.

(** ** Fan inputs *)

Definition fan_count (raw : Z) : Z :=
  Z.lor (Z.shiftr (Z.land raw 0xff00) 3) (Z.land raw 0x1f).

Definition nct7904_read_fan (attr : hwmon_fan_attributes) (channel : Z)
  : M rv :=
  match attr with
  | hwmon_fan_input =>
      ret <- nct7904_read_reg16 BANK_0 (FANIN1_HV_REG + channel * 2) ;;
      if ret <? 0 then mret (Errno ret)
      else
        let cnt := fan_count ret in
        rpm <- (if cnt =? 0x1fff then mret 0 else udiv 1350000 cnt) ;;
        mret (Val rpm)
  | _ => mret (Errno (- EOPNOTSUPP))
  end.

(** [1 << channel] is an int shift, which C defines for channels 0..30:
    the callback is meant on these, which include the eight fan channels
    the driver declares. *)
Definition nct7904_fan_is_visible (data : nct7904_data)
  (attr : hwmon_fan_attributes) (channel : Z) : Z :=
  match attr with
  | hwmon_fan_input =>
      if negb (Z.land (fanin_mask data) (Z.shiftl 1 channel) =? 0)
      then mode_0444 else 0
  | _ => 0
  end.

(** ** Voltage inputs *)

Definition nct7904_chan_to_index : list Z :=
  [ 0;
    0; 1; 2; 3; 4; 5; 6; 7; 8; 9; 10; 11; 12; 13; 14; 15;
    18; 19; 20; 16 ].

Definition volt_magnitude (raw : Z) : Z :=
  Z.lor (Z.shiftr (Z.land raw 0xff00) 5) (Z.land raw 0x7).

Definition nct7904_read_in (attr : hwmon_in_attributes) (channel : Z)
  : M rv :=
  index <- array_read nct7904_chan_to_index channel ;;
  match attr with
  | hwmon_in_input =>
      ret <- nct7904_read_reg16 BANK_0 (VSEN1_HV_REG + index * 2) ;;
      if ret <? 0 then mret (Errno ret)
      else
        let volt := volt_magnitude ret in
        let volt := if index <? 14 then volt * 2 else volt * 6 in
        mret (Val volt)
  | _ => mret (Errno (- EOPNOTSUPP))
  end.

(** The table is read before anything is tested, so an index outside it
    has no defined result ([None]). *)
Definition nct7904_in_is_visible (data : nct7904_data)
  (attr : hwmon_in_attributes) (channel : Z) : option Z :=
  match array_get nct7904_chan_to_index channel with
  | None => None
  | Some index =>
      Some (match attr with
            | hwmon_in_input =>
                if (0 <? channel) &&
                   negb (Z.land (vsen_mask data) (BIT index) =? 0)
                then mode_0444 else 0
            | _ => 0
            end)
  end.

(** ** Temperature inputs *)

Definition nct7904_read_temp (attr : hwmon_temp_attributes) (channel : Z)
  : M rv :=
  match attr with
  | hwmon_temp_input =>
      ret <- (if channel =? 4 then nct7904_read_reg16 BANK_0 LTD_HV_REG
              else if channel <? 5
                   then nct7904_read_reg16 BANK_0
                          (TEMP_CH1_HV_REG + channel * 4)
                   else nct7904_read_reg16 BANK_0
                          (T_CPU1_HV_REG + (channel - 5) * 2)) ;;
      if ret <? 0 then mret (Errno ret)
      else
        let temp := volt_magnitude ret in
        mret (Val (sign_extend32 temp 10 * 125))
  | _ => mret (Errno (- EOPNOTSUPP))
  end.

(** [BIT(channel)] and [BIT(channel - 5)] are shifts of an unsigned long:
    the callback is meant on channels whose bit number is inside the
    word, which include the nine temperature channels the driver
    declares. *)
Definition nct7904_temp_is_visible (data : nct7904_data)
  (attr : hwmon_temp_attributes) (channel : Z) : Z :=
  match attr with
  | hwmon_temp_input =>
      if channel <? 5 then
        if negb (Z.land (tcpu_mask data) (BIT channel) =? 0)
        then mode_0444 else 0
      else
        if negb (Z.land (has_dts data) (BIT (channel - 5)) =? 0)
        then mode_0444 else 0
  | _ => 0
  end.

(** ** PWM outputs *)

Definition nct7904_read_pwm (attr : hwmon_pwm_attributes) (channel : Z)
  : M rv :=
  match attr with
  | hwmon_pwm_input =>
      ret <- nct7904_read_reg BANK_3 (FANCTL1_OUT_REG + channel) ;;
      if ret <? 0 then mret (Errno ret) else mret (Val ret)
  | hwmon_pwm_enable =>
      ret <- nct7904_read_reg BANK_3 (FANCTL1_FMR_REG + channel) ;;
      if ret <? 0 then mret (Errno ret)
      else mret (Val (if negb (ret =? 0) then 2 else 1))
  | _ => mret (Errno (- EOPNOTSUPP))
  end.

(** A status returned by [nct7904_write_reg], as a callback result. *)
Definition status (ret : Z) : rv := if ret =? 0 then Val 0 else Errno ret.

(** In the enable case [data->fan_mode[channel]] is evaluated only once
    [val == 2] holds (the tests short-circuit), and again in the conditional
    operand of the call. *)
Definition nct7904_write_pwm (attr : hwmon_pwm_attributes) (channel val : Z)
  : M rv :=
  match attr with
  | hwmon_pwm_input =>
      if (val <? 0) || (255 <? val) then mret (Errno (- EINVAL))
      else
        ret <- nct7904_write_reg BANK_3 (FANCTL1_OUT_REG + channel) val ;;
        mret (status ret)
  | hwmon_pwm_enable =>
      data <- get_data ;;
      invalid <- (if (val <? 1) || (2 <? val) then mret true
                  else if val =? 2 then
                         mode <- array_read (fan_mode data) channel ;;
                         mret (mode =? 0)
                       else mret false) ;;
      if (invalid : bool) then mret (Errno (- EINVAL))
      else
        v <- (if val =? 2 then array_read (fan_mode data) channel
              else mret 0) ;;
        ret <- nct7904_write_reg BANK_3 (FANCTL1_FMR_REG + channel) v ;;
        mret (status ret)
  | _ => mret (Errno (- EOPNOTSUPP))
  end.

Definition nct7904_pwm_is_visible (data : nct7904_data)
  (attr : hwmon_pwm_attributes) (channel : Z) : Z :=
  match attr with
  | hwmon_pwm_input
  | hwmon_pwm_enable => mode_0644
  | _ => 0
  end.

(** ** Dispatch *)

Definition nct7904_read (req : hwmon_request) (channel : Z) : M rv :=
  match req with
  | hwmon_in attr => nct7904_read_in attr channel
  | hwmon_fan attr => nct7904_read_fan attr channel
  | hwmon_pwm attr => nct7904_read_pwm attr channel
  | hwmon_temp attr => nct7904_read_temp attr channel
  | _ => mret (Errno (- EOPNOTSUPP))
  end.

Definition nct7904_write (req : hwmon_request) (channel val : Z) : M rv :=
  match req with
  | hwmon_pwm attr => nct7904_write_pwm attr channel val
  | _ => mret (Errno (- EOPNOTSUPP))
  end.

Definition nct7904_is_visible (data : nct7904_data) (req : hwmon_request)
  (channel : Z) : option Z :=
  match req with
  | hwmon_in attr => nct7904_in_is_visible data attr channel
  | hwmon_fan attr => Some (nct7904_fan_is_visible data attr channel)
  | hwmon_pwm attr => Some (nct7904_pwm_is_visible data attr channel)
  | hwmon_temp attr => Some (nct7904_temp_is_visible data attr channel)
  | _ => Some 0
  end.

(** ** Attachment: nct7904_probe *)

Definition kzalloc : M bool :=
  fun w =>
    let okb := devm_kzalloc (w_bus w) in
    Done (fst okb)
      (mk_world (if fst okb then zeroed_data else w_data w) (snd okb)
         (w_trace w)).

Definition hwmon_device_register : M Z :=
  fun w =>
    let rb := devm_hwmon_device_register_with_info (w_bus w) (w_data w) in
    Done (fst rb)
      (mk_world (w_data w) (snd rb)
         (w_trace w ++ [EvRegister (w_data w) (fst rb)])).

(** [data->tcpu_mask |= v] when [c] holds. *)
Definition tcpu_mask_or_if (c : bool) (v : Z) : M unit :=
  if c then modify_data (fun d => with_tcpu_mask (Z.lor (tcpu_mask d) v) d)
  else mret tt.

(** One iteration of the multi-function loop; [val] and [bit] are u8. *)
Definition multi_function_step (ret i mask : Z) : Z :=
  let val := Int.to_u8 (Z.shiftr (Z.land ret (Z.shiftl 0x03 i)) (i * 2)) in
  let bit := Int.to_u8 (Z.shiftl 1 i) in
  if val =? 0 then Z.land mask (Int.to_u32 (Z.lnot bit)) else mask.

(** [for (; i < 4; i++)] with [n] iterations left. *)
Fixpoint multi_function_loop (n : nat) (i ret mask : Z) : Z :=
  match n with
  | O => mask
  | S n' => multi_function_loop n' (i + 1) ret (multi_function_step ret i mask)
  end.

(** [for (; i < FANCTL_MAX; i++)] with [n] iterations left; [k] is the code
    after the loop, skipped by the early return. *)
Fixpoint fan_mode_loop (n : nat) (i : Z) (k : M Z) : M Z :=
  match n with
  | O => k
  | S n' =>
      ret <- nct7904_read_reg BANK_3 (FANCTL1_FMR_REG + i) ;;
      if ret <? 0 then mret ret
      else
        modify_data (fun d =>
          with_fan_mode (<[Z.to_nat i := Int.to_u8 ret]> (fan_mode d)) d) ;;;
        fan_mode_loop n' (i + 1) k
  end.

(** The external-diode part: presence bits are read only when DTS is on. *)
Definition probe_dts (k : M Z) : M Z :=
  d <- get_data ;;
  if negb (enable_dts d =? 0) then
    ret <- nct7904_read_reg BANK_0 DTS_T_CTRL0_REG ;;
    if ret <? 0 then mret ret
    else
      modify_data (with_has_dts (Z.land ret 0xF)) ;;;
      d <- get_data ;;
      if negb (Z.land (enable_dts d) 0x2 =? 0) then
        ret <- nct7904_read_reg BANK_0 DTS_T_CTRL1_REG ;;
        if ret <? 0 then mret ret
        else
          modify_data (fun d =>
            with_has_dts
              (Int.to_u8 (Z.lor (has_dts d) (Z.shiftl (Z.land ret 0xF) 4))) d) ;;;
          k
      else k
  else k.

Definition nct7904_probe : M Z :=
  ok <- kzalloc ;;
  if negb ok then mret (- ENOMEM)
  else
  modify_data (with_bank_sel (-1)) ;;;
  (* FANIN attributes *)
  ret <- nct7904_read_reg16 BANK_0 FANIN_CTRL0_REG ;;
  if ret <? 0 then mret ret
  else
  modify_data
    (with_fanin_mask (Z.lor (Z.shiftr ret 8) (Z.shiftl (Z.land ret 0xff) 8))) ;;;
  (* VSEN attributes *)
  let mask := 0 in
  ret <- nct7904_read_reg16 BANK_0 VT_ADC_CTRL0_REG ;;
  let mask := if 0 <=? ret
              then Z.lor (Z.shiftr ret 8) (Z.shiftl (Z.land ret 0xff) 8)
              else mask in
  ret <- nct7904_read_reg BANK_0 VT_ADC_CTRL2_REG ;;
  let mask := if 0 <=? ret then Z.lor mask (Z.shiftl ret 16) else mask in
  modify_data (with_vsen_mask mask) ;;;
  (* CPU_TEMP attributes *)
  ret <- nct7904_read_reg BANK_0 VT_ADC_CTRL0_REG ;;
  if ret <? 0 then mret ret
  else
  tcpu_mask_or_if (Z.land ret 0x6 =? 0x6) 1 ;;;
  tcpu_mask_or_if (Z.land ret 0x18 =? 0x18) 2 ;;;
  tcpu_mask_or_if (Z.land ret 0x20 =? 0x20) 4 ;;;
  tcpu_mask_or_if (Z.land ret 0x80 =? 0x80) 8 ;;;
  (* LTD *)
  ret <- nct7904_read_reg BANK_0 VT_ADC_CTRL2_REG ;;
  if ret <? 0 then mret ret
  else
  tcpu_mask_or_if (Z.land ret 0x02 =? 0x02) 0x10 ;;;
  (* Multi-Function detecting for Volt and TR/TD *)
  ret <- nct7904_read_reg BANK_0 VT_ADC_MD_REG ;;
  if ret <? 0 then mret ret
  else
  modify_data
    (fun d => with_tcpu_mask (multi_function_loop 4 0 ret (tcpu_mask d)) d) ;;;
  (* PECI *)
  ret <- nct7904_read_reg BANK_2 PFE_REG ;;
  if ret <? 0 then mret ret
  else
  let rest :=
    probe_dts
      (fan_mode_loop (Z.to_nat FANCTL_MAX) 0 hwmon_device_register) in
  if negb (Z.land ret 0x80 =? 0) then
    modify_data (with_enable_dts 1) ;;;
    rest
  else
    ret <- nct7904_read_reg BANK_2 TSI_CTRL_REG ;;
    if ret <? 0 then mret ret
    else
      (if negb (Z.land ret 0x80 =? 0)
       then modify_data (with_enable_dts 0x3) else mret tt) ;;;
      rest.

(** The part of [nct7904_probe] from the CPU_TEMP block on, under a name of
    its own for the proofs; [nct7904_probe] ends with exactly this code. *)
Definition probe_tail : M Z :=
  ret <- nct7904_read_reg BANK_0 VT_ADC_CTRL0_REG ;;
  if ret <? 0 then mret ret
  else
  tcpu_mask_or_if (Z.land ret 0x6 =? 0x6) 1 ;;;
  tcpu_mask_or_if (Z.land ret 0x18 =? 0x18) 2 ;;;
  tcpu_mask_or_if (Z.land ret 0x20 =? 0x20) 4 ;;;
  tcpu_mask_or_if (Z.land ret 0x80 =? 0x80) 8 ;;;
  ret <- nct7904_read_reg BANK_0 VT_ADC_CTRL2_REG ;;
  if ret <? 0 then mret ret
  else
  tcpu_mask_or_if (Z.land ret 0x02 =? 0x02) 0x10 ;;;
  ret <- nct7904_read_reg BANK_0 VT_ADC_MD_REG ;;
  if ret <? 0 then mret ret
  else
  modify_data
    (fun d => with_tcpu_mask (multi_function_loop 4 0 ret (tcpu_mask d)) d) ;;;
  ret <- nct7904_read_reg BANK_2 PFE_REG ;;
  if ret <? 0 then mret ret
  else
  let rest :=
    probe_dts
      (fan_mode_loop (Z.to_nat FANCTL_MAX) 0 hwmon_device_register) in
  if negb (Z.land ret 0x80 =? 0) then
    modify_data (with_enable_dts 1) ;;;
    rest
  else
    ret <- nct7904_read_reg BANK_2 TSI_CTRL_REG ;;
    if ret <? 0 then mret ret
    else
      (if negb (Z.land ret 0x80 =? 0)
       then modify_data (with_enable_dts 0x3) else mret tt) ;;;
      rest.

End Driver.

(** ** A simulated chip

    A register file per bank behind the bank-select register, with a script
    of injected transport errors: each bus transaction consumes one script
    entry, a negative entry makes that transaction fail with that code and
    leaves the chip untouched.  It instantiates the platform interface for
    the concrete runs below. *)

Module Sim.

Record chip : Type := mk_chip {
  regs : gmap (Z * Z) Z;
  cur_bank : Z;
  script : list Z;
  alloc_ok : bool;
  register_ok : bool
}.

Definition next_error (c : chip) : option Z :=
  match script c with
  | e :: _ => if e <? 0 then Some e else None
  | [] => None
  end.

Definition advance (c : chip) : chip :=
  mk_chip (regs c) (cur_bank c) (tail (script c)) (alloc_ok c) (register_ok c).

Definition read_byte (c : chip) (command : Z) : Z * chip :=
  match next_error c with
  | Some e => (e, advance c)
  | None =>
      (Int.to_u8 (default 0 (regs c !! (cur_bank c, command))), advance c)
  end.

Definition write_byte (c : chip) (command value : Z) : Z * chip :=
  match next_error c with
  | Some e => (e, advance c)
  | None =>
      let c' := advance c in
      (0, if command =? BANK_SEL_REG
          then mk_chip (regs c') value (script c') (alloc_ok c')
                       (register_ok c')
          else mk_chip (<[(cur_bank c', command) := value]> (regs c'))
                       (cur_bank c') (script c') (alloc_ok c')
                       (register_ok c'))
  end.

Definition alloc (c : chip) : bool * chip := (alloc_ok c, c).

Definition register (c : chip) (d : nct7904_data) : Z * chip :=
  (if register_ok c then 0 else - ENOMEM, c).

#[global] Instance platform : Platform chip.
Proof.
  refine {| i2c_smbus_read_byte_data := read_byte;
            i2c_smbus_write_byte_data := write_byte;
            devm_kzalloc := alloc;
            devm_hwmon_device_register_with_info := register |}.
  - intros b c. unfold read_byte, next_error.
    destruct (script b) as [|e s]; simpl.
    + right. pose proof (Z.mod_pos_bound (default 0 (regs b !! (cur_bank b, c))) 256).
      unfold Int.to_u8. lia.
    + destruct (Z.ltb_spec e 0); simpl.
      * left. assumption.
      * right. pose proof (Z.mod_pos_bound (default 0 (regs b !! (cur_bank b, c))) 256).
        unfold Int.to_u8. lia.
  - intros b c v. unfold write_byte, next_error.
    destruct (script b) as [|e s]; simpl; [lia|].
    destruct (Z.ltb_spec e 0); simpl; lia.
  - intros b d. unfold register. destruct (register_ok b); simpl;
      unfold ENOMEM; lia.
Defined.

(** A chip with the given register contents [((bank, reg), byte)], an error
    script, and an allocator and a hwmon core that succeed. *)
Definition chip_of (contents : list ((Z * Z) * Z)) (errors : list Z) : chip :=
  mk_chip (list_to_map contents) 0 errors true true.

(** The world a driver call starts from: [bank] is the cached bank. *)
Definition boot (bank : Z) (modes : list Z) (c : chip) : world chip :=
  mk_world (mk_data bank 0 0 0 modes 0 0) c [].

End Sim.


(** ** The three accessors under one name, to quantify over them *)

Inductive access : Type :=
| ReadReg (reg : Z)
| ReadReg16 (reg : Z)
| WriteReg (reg val : Z).

Definition run_access {B : Type} `{Platform B} (bank : Z) (a : access)
  : M B Z :=
  match a with
  | ReadReg reg => nct7904_read_reg bank reg
  | ReadReg16 reg => nct7904_read_reg16 bank reg
  | WriteReg reg val => nct7904_write_reg bank reg val
  end.

(** A data write never aims at the bank-select register. *)
Definition data_access (a : access) : Prop :=
  match a with
  | WriteReg reg _ => Int.to_u8 reg <> BANK_SEL_REG
  | _ => True
  end.

(** ** The spec's wording of three operations, for comparison with the code *)

(** Composite word as the spec words it: the byte at [reg] is the low byte. *)
Definition spec_read_word (byte_at_reg byte_at_reg_plus_1 : Z) : Z :=
  Z.lor byte_at_reg (Z.shiftl byte_at_reg_plus_1 8).

(** Channel map as the spec words it: 1..17 to 0..16, then 18, 19, 20, 21
    to 18, 19, 20, 16. *)
Definition spec_chan_to_index (channel : Z) : option Z :=
  if (1 <=? channel) && (channel <=? 17) then Some (channel - 1)
  else if channel =? 18 then Some 18
  else if channel =? 19 then Some 19
  else if channel =? 20 then Some 20
  else if channel =? 21 then Some 16
  else None.

(** Veto step as the spec words it: tentative bit [i] of the first four is
    cleared exactly when bits [2i, 2i+1] of the select byte are both zero. *)
Definition spec_multi_function_veto (sel mask : Z) : Z :=
  fold_left
    (fun m i =>
       if Z.land (Z.shiftr sel (2 * i)) 0x03 =? 0
       then Z.land m (Z.lnot (Z.shiftl 1 i)) else m)
    [0; 1; 2; 3] mask.

(** ** Predicates used to state the properties *)

Section Predicates.

Context {B : Type} `{Platform B}.

(** What every accessor call leaves behind: one critical section appended to
    the trace, holding at most one failed transaction, whose code is then
    the value returned; of the driver data only the bank cache may change. *)
Definition accessor_post (w : world B) (ret : Z) (w' : world B) : Prop :=
  exists seg,
    w_trace w' = w_trace w ++ EvLock :: seg /\
    count_events is_lock seg = 0%nat /\
    published seg = false /\
    (forall n, failed_steps n seg = if ret <? 0 then [(n, ret)] else []) /\
    w_data w' = with_bank_sel (bank_sel (w_data w')) (w_data w).

(** How the part of probe after the voltage-enable reads ends: at most one
    transaction fails, its code is then the value returned and nothing is
    registered; with no failure the device is registered. *)
Definition tail_outcome (tr : list event) (ret : Z) : Prop :=
  forall n, match failed_steps n tr with
            | [] => published tr = true
            | [(_, r)] => ret = r /\ published tr = false
            | _ => False
            end.

Definition strict (m : M B Z) : Prop :=
  forall w, exists ret w' tr,
    m w = Done ret w' /\ w_trace w' = w_trace w ++ tr /\ tail_outcome tr ret.

End Predicates.

(** ** The voltage presence mask against the trace of probe *)

(** The reads made in critical section [k] of a trace, each as the register
    and the result; [n] is the number of mutex acquisitions made so far, as
    in [failed_steps]. *)
Fixpoint step_reads (k n : nat) (tr : list event) : list (Z * Z) :=
  match tr with
  | [] => []
  | e :: tr' =>
      if is_lock e then step_reads k (S n) tr'
      else match e with
           | EvRead c r =>
               if (n =? k)%nat then (c, r) :: step_reads k n tr'
               else step_reads k n tr'
           | _ => step_reads k n tr'
           end
  end.

(** What the reads of one critical section supply to a mask: the word at
    [reg] and [reg + 1] with the byte of [reg] in bits 0..7 and the byte of
    [reg + 1] in bits 8..15, when both bytes were read; the byte at [reg]
    in bits 16..23, when it was read.  A section in which a read failed
    supplies nothing. *)
Definition word_supplied (reg : Z) (reads : list (Z * Z)) : Z :=
  match reads with
  | [(c0, a); (c1, b)] =>
      if (c0 =? reg) && (c1 =? reg + 1) && (0 <=? a) && (0 <=? b)
      then Z.lor a (Z.shiftl b 8) else 0
  | _ => 0
  end.

Definition byte_supplied (reg : Z) (reads : list (Z * Z)) : Z :=
  match reads with
  | [(c0, a)] => if (c0 =? reg) && (0 <=? a) then Z.shiftl a 16 else 0
  | _ => 0
  end.

(** The voltage presence mask that the trace of a probe supplies: the word
    of the voltage-enable registers 0x20 and 0x21 read in step 2 and the
    byte of register 0x22 read in step 3. *)
Definition supplied_vsen_mask (tr : list event) : Z :=
  Z.lor (word_supplied VT_ADC_CTRL0_REG (step_reads 2 0 tr))
        (byte_supplied VT_ADC_CTRL2_REG (step_reads 3 0 tr)).

(** A computation that returns and leaves the voltage presence mask alone,
    also in whatever it registers. *)
Definition keeps_vsen_mask {B : Type} (m : M B Z) : Prop :=
  forall w, exists ret w' tr,
    m w = Done ret w' /\ w_trace w' = w_trace w ++ tr /\
    vsen_mask (w_data w') = vsen_mask (w_data w) /\
    forall d c, In (EvRegister d c) tr -> vsen_mask d = vsen_mask (w_data w).

(** ** Concrete chips for the runs below *)

(** A chip whose register 0x80 of bank 0 holds 1 and whose register 0x81
    holds 0, read with no bank cached. *)
Definition word_demo : world Sim.chip :=
  Sim.boot (-1) [0; 0; 0; 0] (Sim.chip_of [((0, 0x80), 1); ((0, 0x81), 0)] []).

(** Two chips with nothing cached: on the first every transaction succeeds,
    on the second the first transaction (the bank select) fails with -EIO. *)
Definition bank_demo_ok : world Sim.chip :=
  Sim.boot (-1) [0; 0; 0; 0] (Sim.chip_of [((3, 0x10), 77)] []).

Definition bank_demo_fail : world Sim.chip :=
  Sim.boot (-1) [0; 0; 0; 0] (Sim.chip_of [((3, 0x10), 77)] [- EIO]).

Definition bank_demo_after_fail : world Sim.chip :=
  mk_world (mk_data (-1) 0 0 0 [0; 0; 0; 0] 0 0)
    (Sim.chip_of [((3, 0x10), 77)] [])
    [EvLock; EvWrite BANK_SEL_REG 3 (- EIO); EvUnlock].

(** A chip wired for four thermal-relay channels and the local diode, with
    every 2-bit field of the multi-function select register set to 3 and
    all sixteen low voltage inputs enabled, before attachment; [errors] is
    the script of injected transport errors. *)
Definition attach_demo (errors : list Z) : world Sim.chip :=
  Sim.boot 0 []
    (Sim.chip_of
       [ ((0, FANIN_CTRL0_REG), 0xFF); ((0, FANIN_CTRL1_REG), 0x0F);
         ((0, VT_ADC_CTRL0_REG), 0xFF); ((0, VT_ADC_CTRL1_REG), 0xFF);
         ((0, VT_ADC_CTRL2_REG), 0x02); ((0, VT_ADC_MD_REG), 0xFF) ]
       errors).

Definition thermal_demo : world Sim.chip := attach_demo [].

(** One injected error: the fourth transaction of probe is the first byte
    read of the voltage-enable word (step 2), the seventh is the CPU-relay
    control read (step 4). *)
Definition attach_demo_voltage_error : world Sim.chip :=
  attach_demo [0; 0; 0; - EIO].

Definition attach_demo_relay_error : world Sim.chip :=
  attach_demo [0; 0; 0; 0; 0; 0; - EIO].

(** A chip whose first fan count register pair holds the count 1350
    (0x2A06), whose second holds the sentinel (0xFF1F) and whose third is
    zero; voltage index 0 (channel 1) and index 14 (channel 15) both hold
    the magnitude 100 (0x0C04). *)
Definition decode_demo : world Sim.chip :=
  Sim.boot 0 [0; 0; 0; 0]
    (Sim.chip_of
       [ ((0, 0x80), 0x2A); ((0, 0x81), 0x06);
         ((0, 0x82), 0xFF); ((0, 0x83), 0x1F);
         ((0, 0x40), 0x0C); ((0, 0x41), 0x04);
         ((0, 0x5C), 0x0C); ((0, 0x5D), 0x04) ] []).

Definition decode_demo_after (events : list event) : world Sim.chip :=
  mk_world (w_data decode_demo) (w_bus decode_demo) events.

(** A chip attached with the fan-mode snapshot 0x21 for channel 0 and 0 for
    channel 1, whose mode registers were since set to 0 (manual). *)
Definition pwm_demo : world Sim.chip :=
  Sim.boot (-1) [0x21; 0; 0x05; 0] (Sim.chip_of [((3, 0x10), 128)] []).

(** ** Device identification: nct7904_detect *)

Definition VENDOR_ID_REG : Z := 0x7A.
Definition NUVOTON_ID : Z := 0x50.
Definition CHIP_ID_REG : Z := 0x7B.
Definition NCT7904_ID : Z := 0xC5.
Definition DEVICE_ID_REG : Z := 0x7C.
Definition ENODEV : Z := 19.

Section Detect.

Context {B : Type} `{Platform B}.

(** [functionality] is the answer of i2c_check_functionality for the two
    SMBus capabilities asked for.  The reads go straight to the bus: no
    mutex, no bank selection.  The chain of [||] stops at the first test
    that holds.  The second component is what is copied into [info->type],
    [None] when it is left alone. *)
Definition nct7904_detect (functionality : bool) : M B (Z * option string) :=
  if negb functionality then mret (- ENODEV, None)
  else
    vendor <- smbus_read VENDOR_ID_REG ;;
    if negb (vendor =? NUVOTON_ID) then mret (- ENODEV, None)
    else
      chip <- smbus_read CHIP_ID_REG ;;
      if negb (chip =? NCT7904_ID) then mret (- ENODEV, None)
      else
        dev <- smbus_read DEVICE_ID_REG ;;
        if negb (Z.land dev 0xf0 =? 0x50) then mret (- ENODEV, None)
        else
          sel <- smbus_read BANK_SEL_REG ;;
          if negb (Z.land sel 0xf8 =? 0x00) then mret (- ENODEV, None)
          else mret (0, Some "nct7904"%string).

End Detect.

(** ** Channel configuration: nct7904_info

    One entry per channel, holding the attributes declared for it. *)

Definition nct7904_info_in : list (list hwmon_in_attributes) :=
  [ [hwmon_in_input]; (* dummy, skipped in is_visible *)
    [hwmon_in_input]; [hwmon_in_input]; [hwmon_in_input]; [hwmon_in_input];
    [hwmon_in_input]; [hwmon_in_input]; [hwmon_in_input]; [hwmon_in_input];
    [hwmon_in_input]; [hwmon_in_input]; [hwmon_in_input]; [hwmon_in_input];
    [hwmon_in_input]; [hwmon_in_input]; [hwmon_in_input]; [hwmon_in_input];
    [hwmon_in_input]; [hwmon_in_input]; [hwmon_in_input]; [hwmon_in_input] ].

Definition nct7904_info_fan : list (list hwmon_fan_attributes) :=
  [ [hwmon_fan_input]; [hwmon_fan_input]; [hwmon_fan_input]; [hwmon_fan_input];
    [hwmon_fan_input]; [hwmon_fan_input]; [hwmon_fan_input]; [hwmon_fan_input] ].

Definition nct7904_info_pwm : list (list hwmon_pwm_attributes) :=
  [ [hwmon_pwm_input; hwmon_pwm_enable]; [hwmon_pwm_input; hwmon_pwm_enable];
    [hwmon_pwm_input; hwmon_pwm_enable]; [hwmon_pwm_input; hwmon_pwm_enable] ].

Definition nct7904_info_temp : list (list hwmon_temp_attributes) :=
  [ [hwmon_temp_input]; [hwmon_temp_input]; [hwmon_temp_input];
    [hwmon_temp_input]; [hwmon_temp_input]; [hwmon_temp_input];
    [hwmon_temp_input]; [hwmon_temp_input]; [hwmon_temp_input] ].

(** The channels of a sensor type that the configuration declares; the
    hwmon core calls the driver for these only. *)
Definition declared_channels (req : hwmon_request) : Z :=
  match req with
  | hwmon_in _ => Z.of_nat (length nct7904_info_in)
  | hwmon_fan _ => Z.of_nat (length nct7904_info_fan)
  | hwmon_pwm _ => Z.of_nat (length nct7904_info_pwm)
  | hwmon_temp _ => Z.of_nat (length nct7904_info_temp)
  | hwmon_other_type => 0
  end.

Definition declared (req : hwmon_request) (channel : Z) : Prop :=
  0 <= channel < declared_channels req.

(** ** Further predicates *)

Definition is_unlock (e : event) : bool :=
  match e with EvUnlock => true | _ => false end.

Definition is_transaction (e : event) : bool :=
  match e with EvRead _ _ | EvWrite _ _ _ => true | _ => false end.

Definition is_read (e : event) : bool :=
  match e with EvRead _ _ => true | _ => false end.

(** No transaction follows a failed one. *)
Fixpoint stops_at_failure (tr : list event) : bool :=
  match tr with
  | [] => true
  | e :: tr' =>
      match failure_code e with
      | Some _ => forallb (fun e' => negb (is_transaction e')) tr'
      | None => stops_at_failure tr'
      end
  end.

(** The events an accessor call on [bank] may produce: the mutex
    operations, the selection of [bank], and the data transactions of the
    accessor at its own register. *)
Definition in_footprint (bank : Z) (a : access) (e : event) : bool :=
  match e with
  | EvLock | EvUnlock => true
  | EvWrite c v _ =>
      ((c =? BANK_SEL_REG) && (v =? Int.to_u8 bank)) ||
      match a with
      | WriteReg reg val => (c =? Int.to_u8 reg) && (v =? Int.to_u8 val)
      | _ => false
      end
  | EvRead c _ =>
      match a with
      | ReadReg reg => c =? Int.to_u8 reg
      | ReadReg16 reg => (c =? Int.to_u8 reg) || (c =? Int.to_u8 (reg + 1))
      | WriteReg _ _ => false
      end
  | EvRegister _ _ => false
  end.

(** A write to a register other than the bank-select register. *)
Definition is_data_write (e : event) : bool :=
  match e with EvWrite c _ _ => negb (c =? BANK_SEL_REG) | _ => false end.

(** An event that leaves the chip's data registers and the hwmon core
    alone. *)
Definition harmless (e : event) : bool :=
  negb (is_data_write e) && negb (is_register e).

(** A continuation that adds nothing to the trace. *)
Definition quiet {B A C : Type} (k : A -> M B C) : Prop :=
  forall a w1, (exists c, k a w1 = Done c w1) \/ (exists f, k a w1 = Fault f).

(** The largest value an accessor can return. *)
Definition access_bound (a : access) : Z :=
  match a with
  | ReadReg _ => 255
  | ReadReg16 _ => 65535
  | WriteReg _ _ => 0
  end.

(** Every data that a trace registers satisfies [Q]. *)
Definition register_post (Q : nct7904_data -> Prop) (tr : list event) : Prop :=
  forall d r, In (EvRegister d r) tr -> Q d.

(** Started on data satisfying [P], the computation returns and whatever
    it registers satisfies [Q]. *)
Definition attaches {B : Type} (Q P : nct7904_data -> Prop) (m : M B Z)
  : Prop :=
  forall w, P (w_data w) ->
    exists ret w' tr,
      m w = Done ret w' /\ w_trace w' = w_trace w ++ tr /\ register_post Q tr.

(** A predicate on the data that does not look at the bank cache. *)
Definition bank_blind (P : nct7904_data -> Prop) : Prop :=
  forall d v, P d -> P (with_bank_sel v d).

(** The fan mask as probe computes it from the word it has read. *)
Definition swab16 (ret : Z) : Z :=
  Z.lor (Z.shiftr ret 8) (Z.shiftl (Z.land ret 0xff) 8).

(** What attachment leaves in the driver data, whatever the chip answers. *)
Record attached_data (d : nct7904_data) : Prop := {
  ad_fan_mode_length : length (fan_mode d) = Z.to_nat FANCTL_MAX;
  ad_fan_mode_bytes : Forall (fun m => 0 <= m <= 255) (fan_mode d);
  ad_fanin_mask : 0 <= fanin_mask d < 2 ^ 16;
  ad_vsen_mask : 0 <= vsen_mask d < 2 ^ 24;
  ad_tcpu_mask : 0 <= tcpu_mask d < 2 ^ 5;
  ad_enable_dts : enable_dts d = 0 \/ enable_dts d = 1 \/ enable_dts d = 3;
  ad_has_dts : 0 <= has_dts d < 2 ^ 8;
  ad_dts_disabled : enable_dts d = 0 -> has_dts d = 0;
  ad_dts_peci : enable_dts d = 1 -> has_dts d < 2 ^ 4
}.

(** The register pair a temperature channel is read from. *)
Definition temp_register (channel : Z) : Z :=
  if channel =? 4 then LTD_HV_REG
  else if channel <? 5 then TEMP_CH1_HV_REG + channel * 4
  else T_CPU1_HV_REG + (channel - 5) * 2.

(** The data partway through probe: consistent so far, with the fan mask
    [F] and the digital-sensor mode [e], the presence bits of the digital
    sensors not yet read. *)
Definition probe_stage (F e : Z) (d : nct7904_data) : Prop :=
  attached_data d /\ fanin_mask d = F /\ enable_dts d = e /\ has_dts d = 0.

Definition probe_done (F : Z) (d : nct7904_data) : Prop :=
  attached_data d /\ fanin_mask d = F.

(** The two's-complement value of an 11-bit field. *)
Definition signed11 (m : Z) : Z := if m <? 1024 then m else m - 2048.

Module SimFacts.

(** The driver's bank cache agrees with the simulated chip: it is unknown
    or holds the bank the chip has selected. *)
Definition coherent (w : world Sim.chip) : Prop :=
  bank_sel (w_data w) = -1 \/
  (bank_sel (w_data w) = Sim.cur_bank (w_bus w) /\
   0 <= Sim.cur_bank (w_bus w) <= 255).

(** The byte the simulated chip holds at [reg] of [bank]. *)
Definition reg_byte (c : Sim.chip) (bank reg : Z) : Z :=
  Int.to_u8 (default 0 (Sim.regs c !! (bank, reg))).

(** The chip answers every coming transaction. *)
Definition error_free (w : world Sim.chip) : Prop := Sim.script (w_bus w) = [].

(** What a successful accessor call must return on chip [c], and the
    register file it must leave. *)
Definition expected (c : Sim.chip) (bank : Z) (a : access) : Z :=
  match a with
  | ReadReg reg => reg_byte c bank (Int.to_u8 reg)
  | ReadReg16 reg =>
      Z.lor (reg_byte c bank (Int.to_u8 (reg + 1)))
            (Z.shiftl (reg_byte c bank (Int.to_u8 reg)) 8)
  | WriteReg _ _ => 0
  end.

Definition regs_after (c : Sim.chip) (bank : Z) (a : access)
  : gmap (Z * Z) Z :=
  match a with
  | WriteReg reg val => <[(bank, Int.to_u8 reg) := Int.to_u8 val]> (Sim.regs c)
  | _ => Sim.regs c
  end.

End SimFacts.

(** A chip whose second thermal channel (registers 0x46, 0x47) holds the
    11-bit field 0x7FF, which stands for -1. *)
Definition temp_demo : world Sim.chip :=
  Sim.boot 0 [0; 0; 0; 0]
    (Sim.chip_of [ ((0, 0x46), 0xFF); ((0, 0x47), 0x07) ] []).

(** The data that a probe of [thermal_demo] registers. *)
Definition thermal_demo_registered : nct7904_data :=
  mk_data 3 0x0FFF 0x02FFFF 0x13 [0; 0; 0; 0] 0 0.

(** The registers nct7904_detect reads, in order. *)
Definition detect_reads : list Z :=
  [VENDOR_ID_REG; CHIP_ID_REG; DEVICE_ID_REG; BANK_SEL_REG].

(** The registers read by the transactions of a trace, in order. *)
Definition read_commands (tr : list event) : list Z :=
  omap (fun e => match e with EvRead c _ => Some c | _ => None end) tr.

(** A chip that answers like an NCT7904D: vendor 0x50, chip 0xC5, device
    0x52, bank 0 selected. *)
Definition id_demo (errors : list Z) : world Sim.chip :=
  Sim.boot (-1) []
    (Sim.chip_of
       [ ((0, VENDOR_ID_REG), 0x50); ((0, CHIP_ID_REG), 0xC5);
         ((0, DEVICE_ID_REG), 0x52); ((0, BANK_SEL_REG), 0x00) ] errors).

(** How attachment ends: with a negative code and nothing registered, or
    with the registration of the final driver data as the last event,
    whose result is the value returned. *)
Definition ending {B : Type} (tr : list event) (ret : Z) (w' : world B)
  : Prop :=
  (ret < 0 /\ published tr = false) \/
  (exists pre, tr = pre ++ [EvRegister (w_data w') ret] /\
               published pre = false /\ ret <= 0).

Definition finishes {B : Type} (m : M B Z) : Prop :=
  forall w, exists ret w' tr,
    m w = Done ret w' /\ w_trace w' = w_trace w ++ tr /\ ending tr ret w'.

(** The values a successful read can report, per sensor type and
    attribute. *)
Definition value_in_range (req : hwmon_request) (v : Z) : Prop :=
  match req with
  | hwmon_in _ => 0 <= v <= 12282
  | hwmon_fan _ => 0 <= v <= 1350000
  | hwmon_pwm hwmon_pwm_enable => v = 1 \/ v = 2
  | hwmon_pwm _ => 0 <= v <= 255
  | hwmon_temp _ => -128000 <= v <= 127875
  | hwmon_other_type => False
  end.

(** * Properties *)

Module IntFacts.
Import Int.

Lemma to_u8_small z : 0 <= z <= 255 -> to_u8 z = z.
Proof. intros Hz. unfold to_u8. apply Z.mod_small. lia. Qed.

Lemma to_u8_range z : 0 <= to_u8 z <= 255.
Proof. unfold to_u8. pose proof (Z.mod_pos_bound z 256). lia. Qed.

Lemma to_u32_small z : 0 <= z < 4294967296 -> to_u32 z = z.
Proof. intros Hz. unfold to_u32. apply Z.mod_small. lia. Qed.

Lemma to_u32_s32 z : 0 <= z < 4294967296 -> to_u32 (to_s32 z) = z.
Proof.
  intros Hz. unfold to_u32, to_s32.
  destruct (Z_lt_ge_dec z 2147483648) as [Hlt|Hge].
  - rewrite (Z.mod_small (z + 2147483648)) by lia.
    replace (z + 2147483648 - 2147483648) with z by lia.
    apply Z.mod_small. lia.
  - replace (z + 2147483648) with ((z - 2147483648) + 1 * 4294967296) by lia.
    rewrite Z.mod_add by lia.
    rewrite (Z.mod_small (z - 2147483648)) by lia.
    replace (z - 2147483648 - 2147483648) with (z + (-1) * 4294967296) by lia.
    rewrite Z.mod_add by lia.
    apply Z.mod_small. lia.
Qed.

Lemma to_u32_minus_one : to_u32 (-1) = UINT_MAX.
Proof. reflexivity. Qed.

End IntFacts.

(** ** Traces *)

Section TraceFacts.

Context {B : Type}.

Lemma events_since_done {A} (w w' : world B) (a : A) (tr : list event) :
  w_trace w' = w_trace w ++ tr -> events_since w (Done a w') = tr.
Proof.
  intros Htr. simpl. rewrite Htr. apply drop_app_length.
Qed.

Lemma count_events_app (p : event -> bool) (tr1 tr2 : list event) :
  count_events p (tr1 ++ tr2) = (count_events p tr1 + count_events p tr2)%nat.
Proof.
  unfold count_events. rewrite List.filter_app. apply length_app.
Qed.

Lemma failed_steps_app (tr1 tr2 : list event) (n : nat) :
  failed_steps n (tr1 ++ tr2) =
  failed_steps n tr1 ++ failed_steps (n + count_events is_lock tr1) tr2.
Proof.
  revert n. induction tr1 as [|e tr1 IH]; intros n.
  - simpl. f_equal. unfold count_events. simpl. lia.
  - change ((e :: tr1) ++ tr2) with (e :: (tr1 ++ tr2)).
    unfold count_events. simpl.
    destruct (is_lock e) eqn:He.
    + rewrite IH. simpl. unfold count_events.
      f_equal. f_equal. lia.
    + rewrite IH. unfold count_events.
      destruct (failure_code e); reflexivity.
Qed.

Lemma published_app (tr1 tr2 : list event) :
  published (tr1 ++ tr2) = published tr1 || published tr2.
Proof. unfold published. apply existsb_app. Qed.

Lemma published_no_register (tr : list event) (d : nct7904_data) (c : Z) :
  published tr = false -> ~ In (EvRegister d c) tr.
Proof.
  intros Hpub Hin. unfold published in Hpub.
  assert (Hex : existsb is_register tr = true).
  { apply existsb_exists. exists (EvRegister d c). split; [exact Hin|].
    reflexivity. }
  congruence.
Qed.

Lemma count_lock_cons (tr : list event) :
  count_events is_lock (EvLock :: tr) = S (count_events is_lock tr).
Proof. reflexivity. Qed.

Lemma step_reads_app (k n : nat) (tr1 tr2 : list event) :
  step_reads k n (tr1 ++ tr2) =
  step_reads k n tr1 ++ step_reads k (n + count_events is_lock tr1) tr2.
Proof.
  revert n. induction tr1 as [|e tr1 IH]; intros n.
  - cbn [app step_reads]. unfold count_events. cbn [List.filter length].
    rewrite Nat.add_0_r. reflexivity.
  - change ((e :: tr1) ++ tr2) with (e :: (tr1 ++ tr2)).
    cbn [step_reads]. destruct (is_lock e) eqn:He.
    + rewrite IH. unfold count_events. cbn [List.filter]. rewrite He.
      cbn [length]. rewrite Nat.add_succ_r. reflexivity.
    + assert (Hc : count_events is_lock (e :: tr1) =
                   count_events is_lock tr1).
      { unfold count_events. cbn [List.filter]. rewrite He. reflexivity. }
      rewrite Hc.
      destruct e; try apply IH.
      destruct (n =? k)%nat; [|apply IH].
      rewrite IH. reflexivity.
Qed.

Lemma step_reads_past (k n : nat) (tr : list event) :
  (k < n)%nat -> step_reads k n tr = [].
Proof.
  revert n. induction tr as [|e tr IH]; intros n Hn; [reflexivity|].
  cbn [step_reads]. destruct (is_lock e); [apply IH; lia|].
  destruct e; try (apply IH; exact Hn).
  destruct (Nat.eqb_spec n k); [lia|]. apply IH. exact Hn.
Qed.

Lemma step_reads_early (k n : nat) (tr : list event) :
  (n + count_events is_lock tr < k)%nat -> step_reads k n tr = [].
Proof.
  revert n. induction tr as [|e tr IH]; intros n Hn; [reflexivity|].
  cbn [step_reads]. unfold count_events in Hn. cbn [List.filter] in Hn.
  destruct (is_lock e) eqn:He.
  - cbn [length] in Hn. apply IH. unfold count_events. lia.
  - assert (Hn' : (n + count_events is_lock tr < k)%nat) by exact Hn.
    destruct e; try (apply IH; exact Hn').
    destruct (Nat.eqb_spec n k); [lia|]. apply IH. exact Hn'.
Qed.

End TraceFacts.

(** ** The accessors *)

(** Proof steps shared by the lemmas on computations. *)

Ltac run_monad :=
  unfold nct7904_read_reg, nct7904_read_reg16, nct7904_write_reg,
    nct7904_bank_lock, nct7904_bank_release, mutex_lock, mutex_unlock,
    smbus_read, smbus_write, emit, get_data, modify_data, mbind, mret;
  cbv beta iota zeta; cbn [w_data w_bus w_trace].

Ltac bus_results :=
  repeat match goal with
    | |- context [i2c_smbus_read_byte_data ?b ?c] =>
        let Hc := fresh "Hread" in
        pose proof (read_byte_contract b c) as Hc; cbv zeta in Hc;
        destruct (i2c_smbus_read_byte_data b c) as [? ?];
        cbn [fst snd] in *
    | |- context [i2c_smbus_write_byte_data ?b ?c ?v] =>
        let Hc := fresh "Hwrite" in
        pose proof (write_byte_contract b c v) as Hc;
        destruct (i2c_smbus_write_byte_data b c v) as [? ?];
        cbn [fst snd] in *
    end.

Ltac z_cases :=
  repeat match goal with
    | |- context [?a <? ?b] => destruct (Z.ltb_spec a b)
    | |- context [?a <=? ?b] => destruct (Z.leb_spec a b)
    | |- context [?a =? ?b] => destruct (Z.eqb_spec a b)
    end.

Section AccessFacts.

Context {B : Type} `{Platform B}.

Local Abbreviation world := (world B).

(** Bank selection, written out. *)
Lemma bank_lock_eq (w : world) (bank : Z) :
  nct7904_bank_lock bank w =
  if Int.to_u32 (bank_sel (w_data w)) =? bank
  then Done 0 (mk_world (w_data w) (w_bus w) (w_trace w ++ [EvLock]))
  else
    let rb := i2c_smbus_write_byte_data (w_bus w) BANK_SEL_REG
                (Int.to_u8 bank) in
    Done (fst rb)
      (mk_world
         (with_bank_sel (if fst rb =? 0 then Int.to_s32 bank else -1)
            (w_data w))
         (snd rb)
         (w_trace w ++ [EvLock; EvWrite BANK_SEL_REG (Int.to_u8 bank) (fst rb)])).
Proof.
  run_monad.
  destruct (Int.to_u32 (bank_sel (w_data w)) =? bank); [reflexivity|].
  change (Int.to_u8 BANK_SEL_REG) with BANK_SEL_REG.
  destruct (_ =? 0); cbv beta iota; cbn [w_data w_bus w_trace];
    rewrite <- app_assoc; reflexivity.
Qed.

Lemma with_bank_sel_self (d : nct7904_data) :
  d = with_bank_sel (bank_sel d) d.
Proof. destruct d; reflexivity. Qed.

Lemma word_nonneg (a b : Z) : 0 <= a -> 0 <= b -> 0 <= Z.lor b (Z.shiftl a 8).
Proof.
  intros Ha Hb. apply Z.lor_nonneg. split; [assumption|].
  apply Z.shiftl_nonneg. assumption.
Qed.

Lemma run_access_post (w : world) (bank : Z) (a : access) :
  exists ret w', run_access bank a w = Done ret w' /\ accessor_post w ret w'.
Proof.
  destruct a as [reg|reg|reg val]; cbn [run_access]; run_monad.
  all: destruct (Int.to_u32 (bank_sel (w_data w)) =? bank);
    cbv beta iota; cbn [w_data w_bus w_trace]; bus_results.
  all: repeat match goal with
         | |- context [if ?a =? ?b then _ else _] =>
             destruct (Z.eqb_spec a b); cbv beta iota;
             cbn [w_data w_bus w_trace]; bus_results
         | |- context [if ?a <=? ?b then _ else _] =>
             destruct (Z.leb_spec a b); cbv beta iota;
             cbn [w_data w_bus w_trace]; bus_results
         end.
  all: eexists; eexists; (split; [reflexivity|]);
    unfold accessor_post; cbn [w_data w_bus w_trace];
    eexists; repeat rewrite <- app_assoc; cbn [app];
    (split; [reflexivity|]);
    (split; [reflexivity|]);
    (split; [reflexivity|]);
    (split; [|first [apply with_bank_sel_self | reflexivity]]);
    intros lk; cbn [failed_steps is_lock failure_code].
  all: try match goal with
         | |- context [Z.lor ?b (Z.shiftl ?a 8)] =>
             pose proof (word_nonneg a b)
         end.
  all: z_cases; try reflexivity; try lia.
Qed.

End AccessFacts.

(** ** Bit-level facts used by the decoders *)

Section BitFacts.

Lemma byte_high_bits (b n : Z) : 0 <= b <= 255 -> 8 <= n -> Z.testbit b n = false.
Proof.
  intros Hb Hn.
  destruct (Z.eq_dec b 0) as [->|Hnz]; [apply Z.bits_0|].
  apply Z.bits_above_log2; [lia|].
  assert (Z.log2 b < 8); [|lia].
  apply Z.log2_lt_pow2; [lia|]. change (2 ^ 8) with 256. lia.
Qed.

Lemma word_land_zero (hi lo : Z) :
  0 <= lo <= 255 -> Z.land lo (Z.shiftl hi 8) = 0.
Proof.
  intros Hlo. apply Z.bits_inj'. intros n Hn.
  rewrite Z.land_spec, Z.bits_0.
  destruct (Z_lt_ge_dec n 8) as [Hlt|Hge].
  - rewrite (Z.shiftl_spec_low hi 8 n) by lia. apply andb_false_r.
  - rewrite (byte_high_bits lo n) by lia. reflexivity.
Qed.

Lemma word_as_sum (hi lo : Z) :
  0 <= lo <= 255 -> Z.lor lo (Z.shiftl hi 8) = lo + 256 * hi.
Proof.
  intros Hlo.
  rewrite <- Z.add_nocarry_lor by (apply word_land_zero; assumption).
  rewrite Z.shiftl_mul_pow2 by lia. change (2 ^ 8) with 256. lia.
Qed.

Lemma word_low_byte (hi lo : Z) :
  0 <= lo <= 255 -> (Z.lor lo (Z.shiftl hi 8)) mod 256 = lo.
Proof.
  intros Hlo. rewrite word_as_sum by assumption.
  replace (lo + 256 * hi) with (lo + hi * 256) by lia.
  rewrite Z.mod_add by lia. apply Z.mod_small. lia.
Qed.

Lemma word_high_byte (hi lo : Z) :
  0 <= lo <= 255 -> (Z.lor lo (Z.shiftl hi 8)) / 256 = hi.
Proof.
  intros Hlo. rewrite word_as_sum by assumption.
  replace (lo + 256 * hi) with (lo + hi * 256) by lia.
  rewrite Z.div_add by lia. rewrite (Z.div_small lo 256) by lia. lia.
Qed.

End BitFacts.

(** ** Composite word read *)

Section WordRead.

Context {B : Type} `{Platform B}.

(** C1, as the code has it: a call of nct7904_read_reg16 always returns;
    when it does not return an error it has taken the mutex once, selected
    the bank if it was not the cached one, read [reg] and then [reg + 1]
    and released the mutex, and the byte read at the lower address [reg] is
    the HIGH byte of the result, the byte read at [reg + 1] the low byte
    (big-endian, as the comment above the function says). *)
Theorem read_reg16_big_endian (w : world B) (bank reg : Z) :
  0 <= reg < 255 ->
  let o := nct7904_read_reg16 bank reg w in
  exists ret, returned o = Some ret /\
    (ret < 0 \/
     exists hi lo,
       events_since w o =
         EvLock ::
         (if Int.to_u32 (bank_sel (w_data w)) =? bank then []
          else [EvWrite BANK_SEL_REG (Int.to_u8 bank) 0]) ++
         [EvRead reg hi; EvRead (reg + 1) lo; EvUnlock] /\
       0 <= hi <= 255 /\ 0 <= lo <= 255 /\
       ret = Z.lor lo (Z.shiftl hi 8) /\
       ret / 256 = hi /\ ret mod 256 = lo).
Proof.
  intros Hreg o. subst o.
  assert (Hr0 : Int.to_u8 reg = reg) by (apply IntFacts.to_u8_small; lia).
  assert (Hr1 : Int.to_u8 (reg + 1) = reg + 1)
    by (apply IntFacts.to_u8_small; lia).
  run_monad. rewrite Hr0, Hr1.
  change (Int.to_u8 BANK_SEL_REG) with BANK_SEL_REG.
  destruct (Int.to_u32 (bank_sel (w_data w)) =? bank);
    cbv beta iota; cbn [w_data w_bus w_trace]; bus_results.
  all: repeat match goal with
         | |- context [if ?a =? ?b then _ else _] =>
             destruct (Z.eqb_spec a b); cbv beta iota;
             cbn [w_data w_bus w_trace]; bus_results
         | |- context [if ?a <=? ?b then _ else _] =>
             destruct (Z.leb_spec a b); cbv beta iota;
             cbn [w_data w_bus w_trace]; bus_results
         end.
  all: eexists; (split; [reflexivity|]).
  all: try (left; lia).
  all: right; do 2 eexists;
    (split; [apply events_since_done; cbn [w_trace];
             repeat rewrite <- app_assoc; cbn [app]; subst; reflexivity|]);
    (split; [lia|]); (split; [lia|]); (split; [reflexivity|]);
    (split; [apply word_high_byte; lia | apply word_low_byte; lia]).
Qed.

End WordRead.

Lemma read_reg16_big_endian_witness :
  returned (nct7904_read_reg16 BANK_0 0x80 word_demo) = Some 256 /\
  exists ret, returned (nct7904_read_reg16 BANK_0 0x80 word_demo) = Some ret /\
    (ret < 0 \/
     exists hi lo,
       events_since word_demo (nct7904_read_reg16 BANK_0 0x80 word_demo) =
         EvLock ::
         (if Int.to_u32 (bank_sel (w_data word_demo)) =? BANK_0 then []
          else [EvWrite BANK_SEL_REG (Int.to_u8 BANK_0) 0]) ++
         [EvRead 0x80 hi; EvRead (0x80 + 1) lo; EvUnlock] /\
       0 <= hi <= 255 /\ 0 <= lo <= 255 /\
       ret = Z.lor lo (Z.shiftl hi 8) /\
       ret / 256 = hi /\ ret mod 256 = lo).
Proof.
  split; [vm_compute; reflexivity|].
  apply (read_reg16_big_endian word_demo BANK_0 0x80). lia.
Defined.

(** C1 as the spec words it fails: with byte(0x80) = 1 and byte(0x81) = 0
    the two reads are made in that order and the result is 0x100, not
    [1 | (0 << 8)] = 1. *)
Lemma read_reg16_not_low_byte_first :
  events_since word_demo (nct7904_read_reg16 BANK_0 0x80 word_demo) =
    [EvLock; EvWrite BANK_SEL_REG 0 0; EvRead 0x80 1; EvRead 0x81 0; EvUnlock] /\
  returned (nct7904_read_reg16 BANK_0 0x80 word_demo) = Some 0x100 /\
  returned (nct7904_read_reg16 BANK_0 0x80 word_demo)
    <> Some (spec_read_word 1 0).
Proof.
  split; [vm_compute; reflexivity|].
  split; [vm_compute; reflexivity|].
  vm_compute. discriminate.
Qed.

(** ** Bank selection and its cache *)

Section BankCache.

Context {B : Type} `{Platform B}.

Lemma events_since_bind {A C} (m : M B A) (k : A -> M B C) (w w1 : world B)
    (a : A) (tr : list event) :
  m w = Done a w1 ->
  w_trace w1 = w_trace w ++ tr ->
  (exists c w2 tr2, k a w1 = Done c w2 /\ w_trace w2 = w_trace w1 ++ tr2) ->
  events_since w (mbind m k w) = tr ++ events_since w1 (k a w1).
Proof.
  intros Hm Htr (c & w2 & tr2 & Hk & Htr2).
  unfold mbind. rewrite Hm, Hk.
  rewrite (events_since_done w1 w2 c tr2 Htr2).
  apply events_since_done. rewrite Htr2, Htr, app_assoc. reflexivity.
Qed.

(** Bank-select traffic of one accessor call, and what it does to the
    cache. *)
Lemma run_access_select (w : world B) (bank : Z) (a : access) :
  exists ret w' tr,
    run_access bank a w = Done ret w' /\
    w_trace w' = w_trace w ++ tr /\
    let r := fst (i2c_smbus_write_byte_data (w_bus w) BANK_SEL_REG
                    (Int.to_u8 bank)) in
    if Int.to_u32 (bank_sel (w_data w)) =? bank
    then (data_access a -> count_events is_bank_select tr = 0%nat) /\
         w_data w' = w_data w
    else (exists tl,
            tr = EvLock :: EvWrite BANK_SEL_REG (Int.to_u8 bank) r :: tl) /\
         (data_access a -> count_events is_bank_select tr = 1%nat) /\
         (r <> 0 -> ret = r) /\
         w_data w' =
           with_bank_sel (if r =? 0 then Int.to_s32 bank else -1) (w_data w).
Proof.
  destruct a as [reg|reg|reg val]; cbn [run_access data_access] in *;
    run_monad; change (Int.to_u8 BANK_SEL_REG) with BANK_SEL_REG.
  all: destruct (Int.to_u32 (bank_sel (w_data w)) =? bank);
    cbv beta iota zeta; cbn [w_data w_bus w_trace];
    repeat match goal with
      | |- context [if ?a =? ?b then _ else _] =>
          destruct (Z.eqb_spec a b); cbv beta iota;
          cbn [w_data w_bus w_trace]
      | |- context [if ?a <=? ?b then _ else _] =>
          destruct (Z.leb_spec a b); cbv beta iota;
          cbn [w_data w_bus w_trace]
      end.
  all: do 3 eexists; (split; [reflexivity|]);
    repeat rewrite <- app_assoc; cbn [app];
    (split; [reflexivity|]).
  all: unfold count_events; cbn [List.filter is_bank_select length];
    rewrite ?Z.eqb_refl;
    repeat match goal with
      | |- context [Int.to_u8 ?x =? BANK_SEL_REG] =>
          destruct (Z.eqb_spec (Int.to_u8 x) BANK_SEL_REG)
      end;
    cbn [List.filter is_bank_select length].
  all: repeat split; try reflexivity; try (eexists; reflexivity);
    try (intros; congruence); try (intros; contradiction).
Qed.

(** C5: bank selection writes the bank-select register only when the cached
    bank differs from the requested one, and then exactly once; success
    caches the requested bank, failure caches the unknown value -1.  Hence
    two consecutive accessor calls on a bank that was not selected issue
    one bank-select transaction between them when it succeeds (none when
    the bank was already cached), and whatever bank is requested after a
    failed selection is selected again.  A bank is any unsigned value but
    UINT_MAX, which is what the unknown value -1 compares equal to. *)
Theorem bank_select_cache (w : world B) (bank : Z) :
  0 <= bank < Int.UINT_MAX ->
  let r := fst (i2c_smbus_write_byte_data (w_bus w) BANK_SEL_REG
                  (Int.to_u8 bank)) in
  let o := nct7904_bank_lock bank w in
  (exists ret w', o = Done ret w' /\
     if Int.to_u32 (bank_sel (w_data w)) =? bank
     then ret = 0 /\ events_since w o = [EvLock] /\ w_data w' = w_data w
     else ret = r /\
          events_since w o =
            [EvLock; EvWrite BANK_SEL_REG (Int.to_u8 bank) r] /\
          bank_sel (w_data w') = (if r =? 0 then Int.to_s32 bank else -1) /\
          Int.to_u32 (bank_sel (w_data w')) =
            (if r =? 0 then bank else Int.UINT_MAX)) /\
  (forall a1 a2, data_access a1 -> data_access a2 ->
     let o2 := (run_access bank a1 ;;; run_access bank a2) w in
     (Int.to_u32 (bank_sel (w_data w)) = bank ->
      count_events is_bank_select (events_since w o2) = 0%nat) /\
     (Int.to_u32 (bank_sel (w_data w)) <> bank -> r = 0 ->
      count_events is_bank_select (events_since w o2) = 1%nat)) /\
  (forall a1 w1 bank' a2,
     Int.to_u32 (bank_sel (w_data w)) <> bank -> r <> 0 ->
     final (run_access bank a1 w) = Some w1 ->
     0 <= bank' < Int.UINT_MAX ->
     exists r' tl,
       events_since w1 (run_access bank' a2 w1) =
         EvLock :: EvWrite BANK_SEL_REG (Int.to_u8 bank') r' :: tl).
Proof.
  intros Hbank r o.
  assert (Hround : Int.to_u32 (Int.to_s32 bank) = bank)
    by (apply IntFacts.to_u32_s32; unfold Int.UINT_MAX in Hbank; lia).
  split; [|split].
  - subst o. rewrite bank_lock_eq. cbv zeta. fold r.
    destruct (Int.to_u32 (bank_sel (w_data w)) =? bank).
    + do 2 eexists. split; [reflexivity|].
      split; [reflexivity|]. split; [|reflexivity].
      apply events_since_done. reflexivity.
    + do 2 eexists. split; [reflexivity|].
      split; [reflexivity|]. split; [apply events_since_done; reflexivity|].
      cbn [w_data with_bank_sel bank_sel].
      split; [reflexivity|].
      destruct (r =? 0); [exact Hround | reflexivity].
  - intros a1 a2 Ha1 Ha2 o2. subst o2.
    destruct (run_access_select w bank a1)
      as (ret1 & w1 & tr1 & Hrun1 & Htr1 & Hsel1).
    destruct (run_access_select w1 bank a2)
      as (ret2 & w2 & tr2 & Hrun2 & Htr2 & Hsel2).
    cbv zeta in Hsel1, Hsel2. fold r in Hsel1.
    assert (Hev : events_since w
                    ((run_access bank a1 ;;; run_access bank a2) w)
                  = tr1 ++ tr2).
    { rewrite (events_since_bind _ _ w w1 ret1 tr1 Hrun1 Htr1)
        by (exists ret2, w2, tr2; split; assumption).
      rewrite Hrun2, (events_since_done w1 w2 ret2 tr2 Htr2). reflexivity. }
    rewrite Hev, count_events_app.
    split.
    + intros Hc. apply Z.eqb_eq in Hc. rewrite Hc in Hsel1.
      destruct Hsel1 as [Hcnt1 Hd1].
      rewrite Hd1 in Hsel2. rewrite Hc in Hsel2.
      destruct Hsel2 as [Hcnt2 _].
      rewrite (Hcnt1 Ha1), (Hcnt2 Ha2). reflexivity.
    + intros Hc Hr. apply Z.eqb_neq in Hc. rewrite Hc in Hsel1.
      destruct Hsel1 as (_ & Hcnt1 & _ & Hd1).
      rewrite Hr in Hd1. cbn [Z.eqb] in Hd1.
      rewrite Hd1 in Hsel2. cbn [bank_sel with_bank_sel] in Hsel2.
      rewrite Hround, Z.eqb_refl in Hsel2.
      destruct Hsel2 as [Hcnt2 _].
      rewrite (Hcnt1 Ha1), (Hcnt2 Ha2). reflexivity.
  - intros a1 w1 bank' a2 Hc Hr Hfin Hbank'.
    destruct (run_access_select w bank a1)
      as (ret1 & w1' & tr1 & Hrun1 & Htr1 & Hsel1).
    rewrite Hrun1 in Hfin. cbn [final] in Hfin.
    injection Hfin as <-.
    cbv zeta in Hsel1. fold r in Hsel1.
    apply Z.eqb_neq in Hc. rewrite Hc in Hsel1.
    destruct Hsel1 as (_ & _ & _ & Hd1).
    apply Z.eqb_neq in Hr. rewrite Hr in Hd1.
    destruct (run_access_select w1' bank' a2)
      as (ret2 & w2 & tr2 & Hrun2 & Htr2 & Hsel2).
    cbv zeta in Hsel2. rewrite Hd1 in Hsel2.
    cbn [bank_sel with_bank_sel] in Hsel2.
    assert (Hunk : (Int.to_u32 (-1) =? bank') = false).
    { apply Z.eqb_neq. rewrite IntFacts.to_u32_minus_one. lia. }
    rewrite Hunk in Hsel2.
    destruct Hsel2 as ((tl & Htl) & _).
    rewrite Hrun2, (events_since_done w1' w2 ret2 tr2 Htr2), Htl.
    eexists. exists tl. reflexivity.
Qed.

End BankCache.

Lemma bank_select_cache_witness :
  count_events is_bank_select
    (events_since bank_demo_ok
       ((run_access BANK_3 (ReadReg 0x10) ;;;
         run_access BANK_3 (WriteReg 0x10 5)) bank_demo_ok)) = 1%nat /\
  exists r' tl,
    events_since bank_demo_after_fail
      (run_access BANK_0 (ReadReg16 0x80) bank_demo_after_fail) =
    EvLock :: EvWrite BANK_SEL_REG (Int.to_u8 BANK_0) r' :: tl.
Proof.
  split.
  - refine (proj2 (proj1 (proj2
              (bank_select_cache bank_demo_ok BANK_3 _))
              (ReadReg 0x10) (WriteReg 0x10 5) I _) _ _).
    + vm_compute. split; [discriminate|reflexivity].
    + vm_compute. discriminate.
    + vm_compute. discriminate.
    + vm_compute. reflexivity.
  - refine (proj2 (proj2
              (bank_select_cache bank_demo_fail BANK_3 _))
              (ReadReg 0x10) bank_demo_after_fail BANK_0 (ReadReg16 0x80)
              _ _ _ _).
    + vm_compute. split; [discriminate|reflexivity].
    + vm_compute. discriminate.
    + vm_compute. discriminate.
    + vm_compute. reflexivity.
    + vm_compute. split; [discriminate|reflexivity].
Defined.

(** ** Channel map *)

(** C3, as the code has it: the table has 21 entries, for channels 0..20.
    Channels 1..16 go to indices 0..15, channels 17, 18, 19, 20 go to
    18, 19, 20, 16; channel 0 (the dummy) reads index 0 and every other
    channel, 21 included, is outside the table.  No two of the channels
    1..20 share an index. *)
Theorem chan_to_index_map :
  (forall channel,
     array_get nct7904_chan_to_index channel =
     if (1 <=? channel) && (channel <=? 16) then Some (channel - 1)
     else if channel =? 17 then Some 18
     else if channel =? 18 then Some 19
     else if channel =? 19 then Some 20
     else if channel =? 20 then Some 16
     else if channel =? 0 then Some 0
     else None) /\
  length nct7904_chan_to_index = 21%nat /\
  NoDup (drop 1 nct7904_chan_to_index).
Proof.
  split; [|split; [reflexivity|]].
  - intros channel. unfold array_get.
    destruct (Z.ltb_spec channel 0) as [Hneg|Hpos].
    + z_cases; try lia; reflexivity.
    + destruct (Z_lt_ge_dec channel 21) as [Hlt|Hge].
      * rewrite <- (Z2Nat.id channel) by assumption.
        assert (Hn : (Z.to_nat channel < 21)%nat) by lia.
        rewrite Nat2Z.id. revert Hn.
        generalize (Z.to_nat channel). intros n Hn.
        do 21 (destruct n as [|n]; [reflexivity|]). lia.
      * rewrite lookup_ge_None_2 by (cbn [length nct7904_chan_to_index]; lia).
        z_cases; try lia; reflexivity.
  - cbn [drop nct7904_chan_to_index]. apply NoDup_ListNoDup.
    repeat (constructor; [cbn [In]; intuition discriminate|]).
    constructor.
Qed.

(** C3 as the spec words it fails at channel 17, which the table sends to
    index 18 and not to 16, and at channel 21, which the table does not
    have. *)
Lemma chan_to_index_17_is_not_16 :
  spec_chan_to_index 17 = Some 16 /\
  array_get nct7904_chan_to_index 17 = Some 18 /\
  array_get nct7904_chan_to_index 17 <> spec_chan_to_index 17 /\
  spec_chan_to_index 21 = Some 16 /\
  array_get nct7904_chan_to_index 21 = None.
Proof.
  repeat split; try reflexivity. vm_compute. discriminate.
Qed.

(** ** Multi-function veto of the CPU-temperature bits *)

Section BitBounds.

Lemma const_high_bits (c n k : Z) :
  0 <= c < 2 ^ n -> 0 <= n <= k -> Z.testbit c k = false.
Proof.
  intros Hc Hk.
  destruct (Z.eq_dec c 0) as [->|Hnz]; [apply Z.bits_0|].
  apply Z.bits_above_log2; [lia|].
  assert (Z.log2 c < n); [|lia].
  apply Z.log2_lt_pow2; lia.
Qed.

Lemma bits_bound (a n : Z) :
  0 <= n -> (forall k, n <= k -> Z.testbit a k = false) -> 0 <= a < 2 ^ n.
Proof.
  intros Hn Hhigh.
  assert (Ha : a = a mod 2 ^ n).
  { apply Z.bits_inj'. intros k Hk.
    destruct (Z_lt_ge_dec k n) as [Hlt|Hge].
    - rewrite Z.mod_pow2_bits_low by lia. reflexivity.
    - rewrite Z.mod_pow2_bits_high by lia. apply Hhigh. lia. }
  rewrite Ha. apply Z.mod_pos_bound. apply Z.pow_pos_nonneg; lia.
Qed.

(** A field masked out below bit [n] and shifted right by at least as much
    as the mask reaches is zero. *)
Lemma masked_shift_zero (x m s n : Z) :
  0 <= m < 2 ^ n -> 0 <= n <= s -> Z.shiftr (Z.land x m) s = 0.
Proof.
  intros Hm Hs. apply Z.bits_inj'. intros k Hk.
  rewrite Z.shiftr_spec, Z.land_spec, Z.bits_0 by lia.
  rewrite (const_high_bits m n (k + s)) by lia.
  apply andb_false_r.
Qed.

End BitBounds.

Section MultiFunction.

Lemma multi_function_step_2 (sel mask : Z) :
  multi_function_step sel 2 mask = Z.land mask 4294967291.
Proof.
  unfold multi_function_step.
  change (Z.shiftl 3 2) with 12. change (2 * 2) with 4.
  rewrite (masked_shift_zero sel 12 4 4) by (change (2 ^ 4) with 16; lia).
  reflexivity.
Qed.

Lemma multi_function_step_3 (sel mask : Z) :
  multi_function_step sel 3 mask = Z.land mask 4294967287.
Proof.
  unfold multi_function_step.
  change (Z.shiftl 3 3) with 24. change (3 * 2) with 6.
  rewrite (masked_shift_zero sel 24 6 5) by (change (2 ^ 5) with 32; lia).
  reflexivity.
Qed.

Lemma multi_function_step_keeps_bit_4 (sel i mask : Z) :
  0 <= i <= 3 ->
  Z.testbit (multi_function_step sel i mask) 4 = Z.testbit mask 4.
Proof.
  intros Hi. unfold multi_function_step.
  destruct (_ =? 0); [|reflexivity].
  rewrite Z.land_spec.
  assert (Hcase : i = 0 \/ i = 1 \/ i = 2 \/ i = 3) by lia.
  destruct Hcase as [->|[->|[->| ->]]]; apply andb_true_r.
Qed.

End MultiFunction.

(** C4 is not what the loop does: the field is masked with [0x03 << i] but
    shifted down by [2 * i], so only field 0 is extracted whole.  For i = 2
    and i = 3 the masked value is always shifted out, so bits 2 and 3 of
    the mask are cleared whatever the select byte holds; bit 4 is kept.
    With every field equal to 3 the loop turns the tentative mask 0x1F into
    0x13, where the veto as specified keeps 0x1F, and a probe of such a
    chip registers the device with [tcpu_mask] = 0x13. *)
Theorem multi_function_veto_as_coded :
  (forall sel mask,
     Z.testbit (multi_function_loop 4 0 sel mask) 2 = false /\
     Z.testbit (multi_function_loop 4 0 sel mask) 3 = false /\
     Z.testbit (multi_function_loop 4 0 sel mask) 4 = Z.testbit mask 4) /\
  multi_function_loop 4 0 0xFF 0x1F = 0x13 /\
  spec_multi_function_veto 0xFF 0x1F = 0x1F /\
  returned (nct7904_probe thermal_demo) = Some 0 /\
  option_map (fun w' => tcpu_mask (w_data w'))
    (final (nct7904_probe thermal_demo)) = Some 0x13.
Proof.
  split; [|repeat split; vm_compute; reflexivity].
  intros sel mask. cbn [multi_function_loop].
  change (0 + 1) with 1. change (1 + 1) with 2. change (2 + 1) with 3.
  rewrite multi_function_step_3, multi_function_step_2.
  repeat split.
  - rewrite !Z.land_spec.
    change (Z.testbit 4294967291 2) with false.
    rewrite andb_false_r. reflexivity.
  - rewrite !Z.land_spec.
    change (Z.testbit 4294967287 3) with false.
    apply andb_false_r.
  - rewrite !Z.land_spec.
    rewrite !multi_function_step_keeps_bit_4 by lia.
    change (Z.testbit 4294967291 4) with true.
    change (Z.testbit 4294967287 4) with true.
    rewrite !andb_true_r. reflexivity.
Qed.

(** ** Fan speed and voltage decoding *)

Section Decoders.

Context {B : Type} `{Platform B}.

Lemma fan_count_range (raw : Z) : 0 <= fan_count raw < 8192.
Proof.
  change 8192 with (2 ^ 13). apply bits_bound; [lia|].
  intros k Hk. unfold fan_count.
  rewrite Z.lor_spec, Z.shiftr_spec, !Z.land_spec by lia.
  rewrite (const_high_bits 0xff00 16 (k + 3))
    by (change (2 ^ 16) with 65536; lia).
  rewrite (const_high_bits 0x1f 5 k) by (change (2 ^ 5) with 32; lia).
  rewrite !andb_false_r. reflexivity.
Qed.

Lemma volt_magnitude_range (raw : Z) : 0 <= volt_magnitude raw < 2048.
Proof.
  change 2048 with (2 ^ 11). apply bits_bound; [lia|].
  intros k Hk. unfold volt_magnitude.
  rewrite Z.lor_spec, Z.shiftr_spec, !Z.land_spec by lia.
  rewrite (const_high_bits 0xff00 16 (k + 5))
    by (change (2 ^ 16) with 65536; lia).
  rewrite (const_high_bits 0x7 3 k) by (change (2 ^ 3) with 8; lia).
  rewrite !andb_false_r. reflexivity.
Qed.

(** The fan input read after a successful composite read, written out. *)
Lemma read_fan_input_eq (w w' : world B) (channel raw : Z) :
  nct7904_read_reg16 BANK_0 (FANIN1_HV_REG + channel * 2) w = Done raw w' ->
  0 <= raw ->
  nct7904_read_fan hwmon_fan_input channel w =
  if fan_count raw =? 0x1fff then Done (Val 0) w'
  else if fan_count raw =? 0 then Fault DivideByZero
  else Done (Val (1350000 / fan_count raw)) w'.
Proof.
  intros Hread Hraw.
  unfold nct7904_read_fan, mbind. rewrite Hread.
  destruct (Z.ltb_spec raw 0); [lia|].
  destruct (fan_count raw =? 0x1fff); [reflexivity|].
  unfold udiv. destruct (fan_count raw =? 0); reflexivity.
Qed.

(** C6: once the composite read has produced the raw word, the fan input
    read extracts the 13-bit count [((raw & 0xFF00) >> 3) | (raw & 0x1F)]
    and returns 0 for the count 0x1FFF and 1350000 / count otherwise; a
    count of 1350 gives 1000.  The count must not be zero for the division
    to be defined. *)
Theorem fan_input_decode (w w' : world B) (channel raw : Z) :
  nct7904_read_reg16 BANK_0 (FANIN1_HV_REG + channel * 2) w = Done raw w' ->
  0 <= raw ->
  let count := Z.lor (Z.shiftr (Z.land raw 0xff00) 3) (Z.land raw 0x1f) in
  count <> 0 ->
  nct7904_read_fan hwmon_fan_input channel w =
    Done (Val (if count =? 0x1fff then 0 else 1350000 / count)) w' /\
  0 <= count <= 0x1fff /\
  (count = 1350 ->
   nct7904_read_fan hwmon_fan_input channel w = Done (Val 1000) w').
Proof.
  intros Hread Hraw count Hcount.
  assert (Hrun : nct7904_read_fan hwmon_fan_input channel w =
                 Done (Val (if count =? 0x1fff then 0 else 1350000 / count)) w').
  { rewrite (read_fan_input_eq w w' channel raw Hread Hraw).
    change (fan_count raw) with count.
    destruct (count =? 0x1fff); [reflexivity|].
    destruct (Z.eqb_spec count 0); [contradiction|reflexivity]. }
  split; [exact Hrun|]. split.
  - pose proof (fan_count_range raw) as Hrange.
    change (fan_count raw) with count in Hrange. lia.
  - intros H1350. rewrite Hrun, H1350. reflexivity.
Qed.

(** C9: the only guard before the division is the test against 0x1FFF.
    The raw word 0 has count 0, which is not the sentinel; for a raw word
    read successfully the fan input read traps on the division exactly
    when the count is 0 and returns a value otherwise. *)
Theorem fan_input_division_guard (w w' : world B) (channel raw : Z) :
  nct7904_read_reg16 BANK_0 (FANIN1_HV_REG + channel * 2) w = Done raw w' ->
  0 <= raw ->
  (fan_count 0 = 0 /\ fan_count 0 <> 0x1fff) /\
  (fan_count raw = 0 ->
   nct7904_read_fan hwmon_fan_input channel w = Fault DivideByZero) /\
  (fan_count raw <> 0 ->
   exists rpm, nct7904_read_fan hwmon_fan_input channel w = Done (Val rpm) w').
Proof.
  intros Hread Hraw.
  rewrite (read_fan_input_eq w w' channel raw Hread Hraw).
  split; [split; [reflexivity|discriminate]|].
  split.
  - intros Hzero. rewrite Hzero. reflexivity.
  - intros Hnz. destruct (fan_count raw =? 0x1fff); [eexists; reflexivity|].
    destruct (Z.eqb_spec (fan_count raw) 0); [contradiction|].
    eexists. reflexivity.
Qed.

(** C8: once the composite read has produced the raw word, the voltage
    input read extracts the 11-bit magnitude
    [((raw & 0xFF00) >> 5) | (raw & 0x07)] and returns it times 2 when the
    physical index of the channel is below 14 and times 6 otherwise; a
    magnitude of 100 gives 200 and 600. *)
Theorem voltage_input_decode (w w' : world B) (channel index raw : Z) :
  array_get nct7904_chan_to_index channel = Some index ->
  nct7904_read_reg16 BANK_0 (VSEN1_HV_REG + index * 2) w = Done raw w' ->
  0 <= raw ->
  let magnitude := Z.lor (Z.shiftr (Z.land raw 0xff00) 5) (Z.land raw 0x7) in
  nct7904_read_in hwmon_in_input channel w =
    Done (Val (if index <? 14 then magnitude * 2 else magnitude * 6)) w' /\
  0 <= magnitude < 2048 /\
  (magnitude = 100 ->
   nct7904_read_in hwmon_in_input channel w =
     Done (Val (if index <? 14 then 200 else 600)) w').
Proof.
  intros Hindex Hread Hraw magnitude.
  assert (Hrun : nct7904_read_in hwmon_in_input channel w =
                 Done (Val (if index <? 14 then magnitude * 2
                            else magnitude * 6)) w').
  { unfold nct7904_read_in, mbind, array_read. rewrite Hindex.
    unfold mret at 1. rewrite Hread.
    destruct (Z.ltb_spec raw 0); [lia|].
    change (volt_magnitude raw) with magnitude.
    destruct (index <? 14); reflexivity. }
  split; [exact Hrun|]. split.
  - apply volt_magnitude_range.
  - intros H100. rewrite Hrun, H100. destruct (index <? 14); reflexivity.
Qed.

End Decoders.

(** The temperature decode on the two patterns of the 11-bit field that
    stand for -1 and for 4. *)
Example temperature_minus_one : sign_extend32 (volt_magnitude 0xFF07) 10 * 125 = -125.
Proof. reflexivity. Qed.

Example temperature_four : sign_extend32 (volt_magnitude 0x0004) 10 * 125 = 500.
Proof. reflexivity. Qed.

Lemma fan_input_decode_witness :
  nct7904_read_fan hwmon_fan_input 0 decode_demo =
    Done (Val 1000)
      (decode_demo_after [EvLock; EvRead 0x80 0x2A; EvRead 0x81 0x06; EvUnlock])
  /\
  nct7904_read_fan hwmon_fan_input 1 decode_demo =
    Done (Val 0)
      (decode_demo_after [EvLock; EvRead 0x82 0xFF; EvRead 0x83 0x1F; EvUnlock]).
Proof.
  split.
  - refine (proj2 (proj2 (fan_input_decode decode_demo _ 0 0x2A06 _ _ _)) _);
      vm_compute; try reflexivity; discriminate.
  - refine (proj1 (fan_input_decode decode_demo _ 1 0xFF1F _ _ _));
      vm_compute; try reflexivity; discriminate.
Defined.

Lemma fan_input_division_guard_witness :
  nct7904_read_fan hwmon_fan_input 2 decode_demo = Fault DivideByZero.
Proof.
  refine (proj1 (proj2 (fan_input_division_guard decode_demo
            (decode_demo_after
               [EvLock; EvRead 0x84 0; EvRead 0x85 0; EvUnlock]) 2 0 _ _)) _);
    vm_compute; try reflexivity; discriminate.
Defined.

Lemma voltage_input_decode_witness :
  nct7904_read_in hwmon_in_input 1 decode_demo =
    Done (Val 200)
      (decode_demo_after [EvLock; EvRead 0x40 0x0C; EvRead 0x41 0x04; EvUnlock])
  /\
  nct7904_read_in hwmon_in_input 15 decode_demo =
    Done (Val 600)
      (decode_demo_after [EvLock; EvRead 0x5C 0x0C; EvRead 0x5D 0x04; EvUnlock]).
Proof.
  split.
  - refine (proj2 (proj2
              (voltage_input_decode decode_demo _ 1 0 0x0C04 _ _ _)) _);
      vm_compute; try reflexivity; discriminate.
  - refine (proj2 (proj2
              (voltage_input_decode decode_demo _ 15 14 0x0C04 _ _ _)) _);
      vm_compute; try reflexivity; discriminate.
Defined.

(** ** PWM enable *)

Section PwmEnable.

Context {B : Type} `{Platform B}.

Lemma write_reg_events (w : world B) (bank reg v : Z) :
  0 <= reg <= 255 -> 0 <= v <= 255 ->
  exists ret w',
    nct7904_write_reg bank reg v w = Done ret w' /\
    ret <= 0 /\
    (forall c x r, In (EvWrite c x r) (events_since w (Done ret w')) ->
       (c = BANK_SEL_REG /\ x = Int.to_u8 bank) \/ (c = reg /\ x = v)) /\
    (ret = 0 ->
     events_since w (Done ret w') =
       EvLock ::
       (if Int.to_u32 (bank_sel (w_data w)) =? bank then []
        else [EvWrite BANK_SEL_REG (Int.to_u8 bank) 0]) ++
       [EvWrite reg v 0; EvUnlock]).
Proof.
  intros Hreg Hv.
  assert (Hr : Int.to_u8 reg = reg) by (apply IntFacts.to_u8_small; lia).
  assert (Hx : Int.to_u8 v = v) by (apply IntFacts.to_u8_small; lia).
  run_monad. rewrite Hr, Hx.
  change (Int.to_u8 BANK_SEL_REG) with BANK_SEL_REG.
  destruct (Int.to_u32 (bank_sel (w_data w)) =? bank);
    cbv beta iota; cbn [w_data w_bus w_trace]; bus_results.
  all: repeat match goal with
         | |- context [if ?a =? ?b then _ else _] =>
             destruct (Z.eqb_spec a b); cbv beta iota;
             cbn [w_data w_bus w_trace]; bus_results
         end.
  all: do 2 eexists; (split; [reflexivity|]); (split; [lia|]).
  all: erewrite events_since_done
    by (cbn [w_trace]; repeat rewrite <- app_assoc; cbn [app]; reflexivity).
  all: split;
    [ intros c x r Hin; cbn [In] in Hin;
      repeat match goal with
        | Hor : _ \/ _ |- _ => destruct Hor
        | Heq : _ = EvWrite _ _ _ |- _ => inversion Heq; subst; clear Heq
        | Hf : False |- _ => contradiction
        end; auto
    | intros Hz; subst; try reflexivity; try lia ].
Qed.

Lemma write_pwm_enable_eq (w : world B) (channel val snapshot : Z) :
  array_get (fan_mode (w_data w)) channel = Some snapshot ->
  nct7904_write_pwm hwmon_pwm_enable channel val w =
  if val =? 1 then
    (ret <- nct7904_write_reg BANK_3 (FANCTL1_FMR_REG + channel) 0 ;;
     mret (status ret)) w
  else if (val =? 2) && negb (snapshot =? 0) then
    (ret <- nct7904_write_reg BANK_3 (FANCTL1_FMR_REG + channel) snapshot ;;
     mret (status ret)) w
  else Done (Errno (- EINVAL)) w.
Proof.
  intros Hsnap.
  unfold nct7904_write_pwm, mbind, get_data, array_read.
  rewrite Hsnap. unfold mret.
  destruct (Z.eqb_spec val 1) as [->|Hne1]; [reflexivity|].
  destruct (Z.eqb_spec val 2) as [->|Hne2]; cbn [andb].
  - cbn [Z.ltb Z.compare orb].
    destruct (snapshot =? 0); reflexivity.
  - destruct (Z.ltb_spec val 1); [reflexivity|].
    destruct (Z.ltb_spec 2 val); [reflexivity|]. lia.
Qed.

(** C7: an enable write of anything but 1 or 2, or of 2 on a channel whose
    fan-mode snapshot is 0, returns -EINVAL and leaves the world as it was:
    the mutex is not taken and no transaction is issued.  A write of 1
    writes 0 to the mode register of the channel, a write of 2 with a
    non-zero snapshot writes the snapshot byte there: the call is the
    register write, every write it issues is the bank-3 select or that
    data write, and when it does not end in a transport error the trace is
    the critical section holding exactly that data write. *)
Theorem pwm_enable_write (w : world B) (channel val snapshot : Z) :
  0 <= channel < FANCTL_MAX ->
  array_get (fan_mode (w_data w)) channel = Some snapshot ->
  0 <= snapshot <= 255 ->
  let o := nct7904_write_pwm hwmon_pwm_enable channel val w in
  let reg := FANCTL1_FMR_REG + channel in
  let writes v :=
    o = (ret <- nct7904_write_reg BANK_3 reg v ;; mret (status ret)) w /\
    (forall c x r, In (EvWrite c x r) (events_since w o) ->
       (c = BANK_SEL_REG /\ x = BANK_3) \/ (c = reg /\ x = v)) /\
    ((exists e, e < 0 /\ returned o = Some (Errno e)) \/
     (returned o = Some (Val 0) /\
      events_since w o =
        EvLock ::
        (if Int.to_u32 (bank_sel (w_data w)) =? BANK_3 then []
         else [EvWrite BANK_SEL_REG BANK_3 0]) ++
        [EvWrite reg v 0; EvUnlock])) in
  if val =? 1 then writes 0
  else if (val =? 2) && negb (snapshot =? 0) then writes snapshot
  else o = Done (Errno (- EINVAL)) w.
Proof.
  intros Hchan Hsnap Hrange o reg writes.
  assert (Hwrites : forall v, 0 <= v <= 255 ->
            o = (ret <- nct7904_write_reg BANK_3 reg v ;; mret (status ret)) w ->
            writes v).
  { intros v Hv Ho. subst writes. cbv beta.
    split; [exact Ho|].
    destruct (write_reg_events w BANK_3 reg v) as (ret & w' & Hrun & Hle & Hw & Hz);
      [unfold reg, FANCTL1_FMR_REG, FANCTL_MAX in *; lia | exact Hv |].
    assert (Hev : events_since w o = events_since w (Done ret w')).
    { rewrite Ho. unfold mbind. rewrite Hrun. reflexivity. }
    assert (Hret : returned o = Some (status ret)).
    { rewrite Ho. unfold mbind. rewrite Hrun. reflexivity. }
    rewrite Hev, Hret. change (Int.to_u8 BANK_3) with BANK_3 in *.
    split; [exact Hw|].
    unfold status. destruct (Z.eqb_spec ret 0) as [Hz0|Hnz].
    - right. split; [reflexivity|]. apply Hz. exact Hz0.
    - left. exists ret. split; [lia|reflexivity]. }
  pose proof (write_pwm_enable_eq w channel val snapshot Hsnap) as Heq.
  fold o reg in Heq.
  destruct (val =? 1); [apply Hwrites; [lia|exact Heq]|].
  destruct ((val =? 2) && negb (snapshot =? 0));
    [apply Hwrites; [lia|exact Heq]|exact Heq].
Qed.

End PwmEnable.

Lemma pwm_enable_write_witness :
  nct7904_write_pwm hwmon_pwm_enable 1 2 pwm_demo
    = Done (Errno (- EINVAL)) pwm_demo /\
  nct7904_write_pwm hwmon_pwm_enable 0 3 pwm_demo
    = Done (Errno (- EINVAL)) pwm_demo /\
  (returned (nct7904_write_pwm hwmon_pwm_enable 0 2 pwm_demo) = Some (Val 0) /\
   events_since pwm_demo (nct7904_write_pwm hwmon_pwm_enable 0 2 pwm_demo) =
     [EvLock; EvWrite BANK_SEL_REG BANK_3 0; EvWrite 0 0x21 0; EvUnlock]) /\
  returned
    ((nct7904_write_pwm hwmon_pwm_enable 0 2 ;;;
      nct7904_read_reg BANK_3 FANCTL1_FMR_REG) pwm_demo) = Some 0x21.
Proof.
  split; [|split; [|split]].
  - refine (pwm_enable_write pwm_demo 1 2 0 _ _ _);
      first [reflexivity | unfold FANCTL_MAX; lia].
  - refine (pwm_enable_write pwm_demo 0 3 0x21 _ _ _);
      first [reflexivity | unfold FANCTL_MAX; lia].
  - assert (Hw := pwm_enable_write pwm_demo 0 2 0x21).
    cbv zeta in Hw.
    destruct Hw as (_ & _ & [(e & He & Hret)|Hok]).
    + unfold FANCTL_MAX. lia.
    + reflexivity.
    + lia.
    + vm_compute in Hret. discriminate Hret.
    + exact Hok.
  - vm_compute. reflexivity.
Defined.

(** ** Visibility *)

(** C10: the PWM visibility callback returns 0644 for the duty attribute and
    for the enable attribute whatever the driver data and the channel are,
    also through the dispatcher; the fan, voltage and temperature callbacks
    answer from a presence mask: 0 when the bit of the channel is clear,
    0444 when it is set. *)
Theorem pwm_always_visible :
  (forall data channel,
     nct7904_pwm_is_visible data hwmon_pwm_input channel = 420 /\
     nct7904_pwm_is_visible data hwmon_pwm_enable channel = 420 /\
     nct7904_is_visible data (hwmon_pwm hwmon_pwm_input) channel = Some 420 /\
     nct7904_is_visible data (hwmon_pwm hwmon_pwm_enable) channel = Some 420) /\
  (forall bs modes dts has,
     let absent := mk_data bs 0 0 0 modes dts has in
     let present := mk_data bs 0xFFF 0x1FFFFF 0x1F modes dts has in
     nct7904_fan_is_visible absent hwmon_fan_input 0 = 0 /\
     nct7904_fan_is_visible present hwmon_fan_input 0 = 292 /\
     nct7904_in_is_visible absent hwmon_in_input 1 = Some 0 /\
     nct7904_in_is_visible present hwmon_in_input 1 = Some 292 /\
     nct7904_temp_is_visible absent hwmon_temp_input 0 = 0 /\
     nct7904_temp_is_visible present hwmon_temp_input 0 = 292) /\
  mode_0644 = 420 /\ mode_0444 = 292.
Proof.
  split; [|split; [|split; reflexivity]].
  - intros data channel. repeat split; reflexivity.
  - intros bs modes dts has. repeat split; reflexivity.
Qed.

(** ** Attachment *)

Section Attachment.

Context {B : Type} `{Platform B}.

Local Abbreviation world := (world B).
Local Abbreviation M := (M B).

Lemma failed_steps_lower (tr : list event) (n k : nat) (r : Z) :
  In (k, r) (failed_steps n tr) -> (n <= k)%nat /\ r < 0.
Proof.
  revert n. induction tr as [|e tr IH]; intros n Hin; [contradiction|].
  cbn [failed_steps] in Hin.
  destruct (is_lock e).
  - apply IH in Hin. lia.
  - destruct (failure_code e) as [c|] eqn:Hc.
    + destruct Hin as [Heq|Hin]; [|apply IH; exact Hin].
      injection Heq as <- <-. split; [lia|].
      destruct e; cbn [failure_code] in Hc; try discriminate;
        destruct (Z.ltb_spec ret 0); try discriminate;
        injection Hc as <-; assumption.
    + apply IH. exact Hin.
Qed.

Lemma strict_register : strict hwmon_device_register.
Proof.
  intros w. unfold hwmon_device_register.
  do 3 eexists. split; [reflexivity|]. split; [reflexivity|].
  intros n. reflexivity.
Qed.

Lemma strict_modify (f : nct7904_data -> nct7904_data) (k : M Z) :
  strict k -> strict (modify_data f ;;; k).
Proof.
  intros Hk w. unfold mbind, modify_data.
  destruct (Hk (mk_world (f (w_data w)) (w_bus w) (w_trace w)))
    as (ret & w' & tr & Hrun & Htr & Hout).
  exists ret, w', tr. auto.
Qed.

Lemma strict_get (k : nct7904_data -> M Z) :
  (forall d, strict (k d)) -> strict (d <- get_data ;; k d).
Proof.
  intros Hk w. unfold mbind, get_data. apply Hk.
Qed.

Lemma strict_tcpu_mask_or_if (c : bool) (v : Z) (k : M Z) :
  strict k -> strict (tcpu_mask_or_if c v ;;; k).
Proof.
  intros Hk. unfold tcpu_mask_or_if. destruct c.
  - apply strict_modify. exact Hk.
  - intros w. unfold mbind, mret. apply Hk.
Qed.

Lemma strict_access_locked (bank : Z) (a : access) (k : Z -> M Z) :
  (forall ret, strict (k ret)) ->
  forall w, exists ret w' tr,
    (ret <- run_access bank a ;; if ret <? 0 then mret ret else k ret) w
      = Done ret w' /\
    w_trace w' = w_trace w ++ EvLock :: tr /\
    tail_outcome (EvLock :: tr) ret.
Proof.
  intros Hk w. unfold mbind.
  destruct (run_access_post w bank a)
    as (ret & w1 & -> & seg & Htr1 & Hlocks & Hpub & Hfail & _).
  destruct (Z.ltb_spec ret 0) as [Hneg|Hpos].
  - exists ret, w1, seg.
    split; [reflexivity|]. split; [exact Htr1|].
    intros n. cbn [failed_steps is_lock]. rewrite Hfail.
    destruct (Z.ltb_spec ret 0); [|lia].
    split; [reflexivity|]. exact Hpub.
  - destruct (Hk ret w1) as (ret' & w' & tr & Hrun & Htr & Hout).
    exists ret', w', (seg ++ tr).
    split; [exact Hrun|].
    split; [rewrite Htr, Htr1, <- app_assoc; reflexivity|].
    assert (Hp : published (EvLock :: seg ++ tr) = published tr).
    { change (EvLock :: seg ++ tr) with ((EvLock :: seg) ++ tr).
      rewrite published_app.
      change (published (EvLock :: seg)) with (published seg).
      rewrite Hpub. reflexivity. }
    intros n. rewrite Hp.
    change (EvLock :: seg ++ tr) with ((EvLock :: seg) ++ tr).
    rewrite failed_steps_app.
    cbn [failed_steps is_lock]. rewrite Hfail.
    destruct (Z.ltb_spec ret 0); [lia|]. cbn [app].
    exact (Hout (n + count_events is_lock (EvLock :: seg))%nat).
Qed.

Lemma strict_access (bank : Z) (a : access) (k : Z -> M Z) :
  (forall ret, strict (k ret)) ->
  strict (ret <- run_access bank a ;; if ret <? 0 then mret ret else k ret).
Proof.
  intros Hk w.
  destruct (strict_access_locked bank a k Hk w)
    as (ret & w' & tr & Hrun & Htr & Hout).
  exists ret, w', (EvLock :: tr). auto.
Qed.

Lemma strict_fan_mode_loop (k : M Z) (n : nat) (i : Z) :
  strict k -> strict (fan_mode_loop n i k).
Proof.
  intros Hk. revert i. induction n as [|n IH]; intros i; [exact Hk|].
  cbn [fan_mode_loop].
  apply (strict_access BANK_3 (ReadReg (FANCTL1_FMR_REG + i))).
  intros ret. apply strict_modify. apply IH.
Qed.

Lemma strict_probe_dts (k : M Z) : strict k -> strict (probe_dts k).
Proof.
  intros Hk. unfold probe_dts.
  apply strict_get. intros d.
  destruct (negb (enable_dts d =? 0)); [|exact Hk].
  apply (strict_access BANK_0 (ReadReg DTS_T_CTRL0_REG)).
  intros ret. apply strict_modify. apply strict_get. intros d'.
  destruct (negb (Z.land (enable_dts d') 2 =? 0)); [|exact Hk].
  apply (strict_access BANK_0 (ReadReg DTS_T_CTRL1_REG)).
  intros ret'. apply strict_modify. exact Hk.
Qed.

Lemma strict_probe_tail (w : world) :
  exists ret w' tr,
    probe_tail w = Done ret w' /\
    w_trace w' = w_trace w ++ EvLock :: tr /\
    tail_outcome (EvLock :: tr) ret.
Proof.
  assert (Hrest : strict (probe_dts
            (fan_mode_loop (Z.to_nat FANCTL_MAX) 0 hwmon_device_register))).
  { apply strict_probe_dts, strict_fan_mode_loop, strict_register. }
  unfold probe_tail.
  apply (strict_access_locked BANK_0 (ReadReg VT_ADC_CTRL0_REG)). intros r1.
  do 4 apply strict_tcpu_mask_or_if.
  apply (strict_access BANK_0 (ReadReg VT_ADC_CTRL2_REG)). intros r2.
  apply strict_tcpu_mask_or_if.
  apply (strict_access BANK_0 (ReadReg VT_ADC_MD_REG)). intros r3.
  apply strict_modify.
  apply (strict_access BANK_2 (ReadReg PFE_REG)). intros r4.
  cbv zeta.
  destruct (negb (Z.land r4 128 =? 0)).
  - apply strict_modify. exact Hrest.
  - apply (strict_access BANK_2 (ReadReg TSI_CTRL_REG)). intros r5.
    destruct (negb (Z.land r5 128 =? 0)).
    + apply strict_modify. exact Hrest.
    + intros w5. unfold mbind, mret. apply Hrest.
Qed.

Lemma probe_unfold :
  nct7904_probe =
  (ok <- kzalloc ;;
   if negb ok then mret (- ENOMEM)
   else
   modify_data (with_bank_sel (-1)) ;;;
   ret <- nct7904_read_reg16 BANK_0 FANIN_CTRL0_REG ;;
   if ret <? 0 then mret ret
   else
   modify_data
     (with_fanin_mask
        (Z.lor (Z.shiftr ret 8) (Z.shiftl (Z.land ret 0xff) 8))) ;;;
   ret <- nct7904_read_reg16 BANK_0 VT_ADC_CTRL0_REG ;;
   let mask := if 0 <=? ret
               then Z.lor (Z.shiftr ret 8) (Z.shiftl (Z.land ret 0xff) 8)
               else 0 in
   ret <- nct7904_read_reg BANK_0 VT_ADC_CTRL2_REG ;;
   let mask := if 0 <=? ret then Z.lor mask (Z.shiftl ret 16) else mask in
   modify_data (with_vsen_mask mask) ;;;
   probe_tail).
Proof. reflexivity. Qed.

Lemma swab16_word (hi lo : Z) :
  0 <= hi <= 255 -> 0 <= lo <= 255 ->
  swab16 (Z.lor lo (Z.shiftl hi 8)) = Z.lor hi (Z.shiftl lo 8).
Proof.
  intros Hhi Hlo. unfold swab16.
  rewrite Z.shiftr_div_pow2 by lia. change (2 ^ 8) with 256.
  rewrite word_high_byte by lia.
  change 0xff with (Z.ones 8). rewrite Z.land_ones by lia.
  change (2 ^ 8) with 256. rewrite word_low_byte by lia. reflexivity.
Qed.

(** The voltage-enable reads of probe find bank 0 cached: their critical
    sections hold the data reads alone. *)
Lemma read_reg16_cached (w : world) (bank reg : Z) :
  Int.to_u32 (bank_sel (w_data w)) = bank ->
  0 <= reg < 255 ->
  exists ret w' seg,
    nct7904_read_reg16 bank reg w = Done ret w' /\
    w_data w' = w_data w /\
    w_trace w' = w_trace w ++ EvLock :: seg /\
    count_events is_lock seg = 0%nat /\
    published seg = false /\
    (forall n, failed_steps n seg = if ret <? 0 then [(n, ret)] else []) /\
    (forall n, word_supplied reg (step_reads n n seg) =
               if 0 <=? ret then swab16 ret else 0) /\
    0 <= (if 0 <=? ret then swab16 ret else 0) <= 65535.
Proof.
  intros Hsel Hreg.
  assert (Hr0 : Int.to_u8 reg = reg) by (apply IntFacts.to_u8_small; lia).
  assert (Hr1 : Int.to_u8 (reg + 1) = reg + 1)
    by (apply IntFacts.to_u8_small; lia).
  run_monad. rewrite Hr0, Hr1, Hsel, Z.eqb_refl.
  cbv beta iota; cbn [w_data w_bus w_trace]; bus_results.
  change (0 =? 0) with true. cbv beta iota; cbn [w_data w_bus w_trace].
  bus_results.
  destruct (Z.leb_spec 0 z) as [Ha|Ha];
    cbv beta iota; cbn [w_data w_bus w_trace]; bus_results.
  1: destruct (Z.leb_spec 0 z0) as [Hb|Hb];
    cbv beta iota; cbn [w_data w_bus w_trace].
  all: do 3 eexists; (split; [reflexivity|]); (split; [reflexivity|]);
    repeat rewrite <- app_assoc; cbn [app];
    (split; [reflexivity|]); (split; [reflexivity|]);
    (split; [reflexivity|]).
  - assert (Hw : swab16 (Z.lor z0 (Z.shiftl z 8)) = Z.lor z (Z.shiftl z0 8))
      by (apply swab16_word; lia).
    pose proof (word_nonneg z z0 Ha Hb) as Hnn.
    split; [|split].
    + intros n. cbn [failed_steps is_lock failure_code].
      z_cases; try reflexivity; lia.
    + intros n. cbn [step_reads is_lock]. rewrite Nat.eqb_refl.
      cbn [word_supplied]. rewrite !Z.eqb_refl. cbn [andb].
      rewrite Hw. z_cases; try reflexivity; lia.
    + rewrite Hw. destruct (Z.leb_spec 0 (Z.lor z0 (Z.shiftl z 8))); [|lia].
      rewrite word_as_sum by lia. lia.
  - split; [|split].
    + intros n. cbn [failed_steps is_lock failure_code].
      z_cases; try reflexivity; lia.
    + intros n. cbn [step_reads is_lock]. rewrite Nat.eqb_refl.
      cbn [word_supplied]. rewrite !Z.eqb_refl. cbn [andb].
      z_cases; try reflexivity; lia.
    + destruct (Z.leb_spec 0 z0); lia.
  - split; [|split].
    + intros n. cbn [failed_steps is_lock failure_code].
      z_cases; try reflexivity; lia.
    + intros n. cbn [step_reads is_lock]. rewrite Nat.eqb_refl.
      cbn [word_supplied]. z_cases; try reflexivity; lia.
    + destruct (Z.leb_spec 0 z); lia.
Qed.

Lemma read_reg_cached (w : world) (bank reg : Z) :
  Int.to_u32 (bank_sel (w_data w)) = bank ->
  0 <= reg <= 255 ->
  exists ret w' seg,
    nct7904_read_reg bank reg w = Done ret w' /\
    w_data w' = w_data w /\
    w_trace w' = w_trace w ++ EvLock :: seg /\
    count_events is_lock seg = 0%nat /\
    published seg = false /\
    (forall n, failed_steps n seg = if ret <? 0 then [(n, ret)] else []) /\
    (forall n, byte_supplied reg (step_reads n n seg) =
               if 0 <=? ret then Z.shiftl ret 16 else 0) /\
    (ret < 0 \/ 0 <= ret <= 255).
Proof.
  intros Hsel Hreg.
  assert (Hr0 : Int.to_u8 reg = reg) by (apply IntFacts.to_u8_small; lia).
  run_monad. rewrite Hr0, Hsel, Z.eqb_refl.
  cbv beta iota; cbn [w_data w_bus w_trace].
  change (0 =? 0) with true. cbv beta iota; cbn [w_data w_bus w_trace].
  bus_results.
  do 3 eexists; (split; [reflexivity|]); (split; [reflexivity|]);
    repeat rewrite <- app_assoc; cbn [app];
    (split; [reflexivity|]); (split; [reflexivity|]);
    (split; [reflexivity|]).
  split; [|split; [|exact Hread]].
  - intros n. cbn [failed_steps is_lock failure_code].
    z_cases; try reflexivity; lia.
  - intros n. cbn [step_reads is_lock]. rewrite Nat.eqb_refl.
    cbn [byte_supplied]. rewrite Z.eqb_refl. cbn [andb]. reflexivity.
Qed.

(** The part of probe after the voltage-enable reads leaves the voltage
    mask alone. *)
Lemma keeps_register : keeps_vsen_mask hwmon_device_register.
Proof.
  intros w. unfold hwmon_device_register.
  do 3 eexists. split; [reflexivity|]. split; [reflexivity|].
  split; [reflexivity|].
  intros d c [Heq|[]]. injection Heq as <- _. reflexivity.
Qed.

Lemma keeps_modify (f : nct7904_data -> nct7904_data) (k : M Z) :
  (forall d, vsen_mask (f d) = vsen_mask d) ->
  keeps_vsen_mask k -> keeps_vsen_mask (modify_data f ;;; k).
Proof.
  intros Hf Hk w. unfold mbind, modify_data.
  destruct (Hk (mk_world (f (w_data w)) (w_bus w) (w_trace w)))
    as (ret & w' & tr & Hrun & Htr & Hkeep & Hreg).
  cbn [w_data w_trace] in *. rewrite Hf in Hkeep, Hreg.
  exists ret, w', tr. auto.
Qed.

Lemma keeps_get (k : nct7904_data -> M Z) :
  (forall d, keeps_vsen_mask (k d)) -> keeps_vsen_mask (d <- get_data ;; k d).
Proof.
  intros Hk w. unfold mbind, get_data. apply Hk.
Qed.

Lemma keeps_tcpu_mask_or_if (c : bool) (v : Z) (k : M Z) :
  keeps_vsen_mask k -> keeps_vsen_mask (tcpu_mask_or_if c v ;;; k).
Proof.
  intros Hk. unfold tcpu_mask_or_if. destruct c.
  - apply keeps_modify; [reflexivity | exact Hk].
  - intros w. unfold mbind, mret. apply Hk.
Qed.

Lemma keeps_access (bank : Z) (a : access) (k : Z -> M Z) :
  (forall ret, keeps_vsen_mask (k ret)) ->
  keeps_vsen_mask
    (ret <- run_access bank a ;; if ret <? 0 then mret ret else k ret).
Proof.
  intros Hk w. unfold mbind.
  destruct (run_access_post w bank a)
    as (ret & w1 & -> & seg & Htr1 & _ & Hpub & _ & Hdata).
  assert (Hmask : vsen_mask (w_data w1) = vsen_mask (w_data w))
    by (rewrite Hdata; reflexivity).
  assert (Hnone : forall d c, ~ In (EvRegister d c) (EvLock :: seg)).
  { intros d c [Heq|Hin]; [discriminate|].
    exact (published_no_register seg d c Hpub Hin). }
  destruct (ret <? 0).
  - exists ret, w1, (EvLock :: seg). split; [reflexivity|].
    split; [exact Htr1|]. split; [exact Hmask|].
    intros d c Hin. destruct (Hnone d c Hin).
  - destruct (Hk ret w1) as (ret' & w' & tr & Hrun & Htr & Hkeep & Hreg).
    exists ret', w', ((EvLock :: seg) ++ tr).
    split; [exact Hrun|].
    split; [rewrite Htr, Htr1, <- app_assoc; reflexivity|].
    split; [rewrite Hkeep; exact Hmask|].
    intros d c Hin. apply in_app_or in Hin. destruct Hin as [Hin|Hin].
    + destruct (Hnone d c Hin).
    + rewrite <- Hmask. exact (Hreg d c Hin).
Qed.

Lemma keeps_fan_mode_loop (k : M Z) (n : nat) (i : Z) :
  keeps_vsen_mask k -> keeps_vsen_mask (fan_mode_loop n i k).
Proof.
  intros Hk. revert i. induction n as [|n IH]; intros i; [exact Hk|].
  cbn [fan_mode_loop].
  apply (keeps_access BANK_3 (ReadReg (FANCTL1_FMR_REG + i))).
  intros ret. apply keeps_modify; [reflexivity | apply IH].
Qed.

Lemma keeps_probe_dts (k : M Z) :
  keeps_vsen_mask k -> keeps_vsen_mask (probe_dts k).
Proof.
  intros Hk. unfold probe_dts.
  apply keeps_get. intros d.
  destruct (negb (enable_dts d =? 0)); [|exact Hk].
  apply (keeps_access BANK_0 (ReadReg DTS_T_CTRL0_REG)).
  intros ret. apply keeps_modify; [reflexivity|].
  apply keeps_get. intros d'.
  destruct (negb (Z.land (enable_dts d') 2 =? 0)); [|exact Hk].
  apply (keeps_access BANK_0 (ReadReg DTS_T_CTRL1_REG)).
  intros ret'. apply keeps_modify; [reflexivity | exact Hk].
Qed.

Lemma keeps_probe_tail : keeps_vsen_mask probe_tail.
Proof.
  assert (Hrest : keeps_vsen_mask (probe_dts
            (fan_mode_loop (Z.to_nat FANCTL_MAX) 0 hwmon_device_register))).
  { apply keeps_probe_dts, keeps_fan_mode_loop, keeps_register. }
  unfold probe_tail.
  apply (keeps_access BANK_0 (ReadReg VT_ADC_CTRL0_REG)). intros r1.
  do 4 apply keeps_tcpu_mask_or_if.
  apply (keeps_access BANK_0 (ReadReg VT_ADC_CTRL2_REG)). intros r2.
  apply keeps_tcpu_mask_or_if.
  apply (keeps_access BANK_0 (ReadReg VT_ADC_MD_REG)). intros r3.
  apply keeps_modify; [reflexivity|].
  apply (keeps_access BANK_2 (ReadReg PFE_REG)). intros r4.
  cbv zeta.
  destruct (negb (Z.land r4 128 =? 0)).
  - apply keeps_modify; [reflexivity | exact Hrest].
  - apply (keeps_access BANK_2 (ReadReg TSI_CTRL_REG)). intros r5.
    destruct (negb (Z.land r5 128 =? 0)).
    + apply keeps_modify; [reflexivity | exact Hrest].
    + intros w5. unfold mbind, mret. apply Hrest.
Qed.

Lemma step_three_sections (s1 s2 s3 rest : list event) :
  count_events is_lock s1 = 0%nat ->
  count_events is_lock s2 = 0%nat ->
  count_events is_lock s3 = 0%nat ->
  let tr := (EvLock :: s1) ++ (EvLock :: s2) ++ (EvLock :: s3) ++
            EvLock :: rest in
  step_reads 2 0 tr = step_reads 2 2 s2 /\
  step_reads 3 0 tr = step_reads 3 3 s3 /\
  failed_steps 0 tr =
    failed_steps 1 s1 ++ failed_steps 2 s2 ++ failed_steps 3 s3 ++
    failed_steps 4 rest.
Proof.
  intros H1 H2 H3 tr. subst tr.
  rewrite !step_reads_app, !failed_steps_app, !count_lock_cons, H1, H2, H3.
  cbn [Nat.add step_reads failed_steps is_lock].
  rewrite (step_reads_early 2 1 s1), (step_reads_early 3 1 s1),
    (step_reads_early 3 2 s2), (step_reads_past 2 3 s3),
    (step_reads_past 2 4 rest), (step_reads_past 3 4 rest)
    by (rewrite ?H1, ?H2; lia).
  rewrite !app_nil_r. cbn [app]. auto.
Qed.

Lemma shifted_byte_low_bits (c : Z) :
  0 <= c -> Z.land (Z.shiftl c 16) 0xFFFF = 0.
Proof.
  intros Hc. change 0xFFFF with (Z.ones 16). rewrite Z.land_ones by lia.
  rewrite Z.shiftl_mul_pow2 by lia. apply Z.mod_mul.
  change (2 ^ 16) with 65536. lia.
Qed.

(** The voltage mask that probe leaves, when one of the voltage-enable
    reads has failed. *)
Lemma probe_supplied_mask (w : world) (k : nat) (r : Z) :
  In (k, r) (failed_steps 0 (events_since w (nct7904_probe w))) ->
  k = 2%nat \/ k = 3%nat ->
  exists ret w',
    nct7904_probe w = Done ret w' /\
    vsen_mask (w_data w') =
      supplied_vsen_mask (events_since w (nct7904_probe w)) /\
    (forall d c, In (EvRegister d c) (events_since w (nct7904_probe w)) ->
       vsen_mask d = supplied_vsen_mask (events_since w (nct7904_probe w))) /\
    (k = 2%nat ->
     Z.land (supplied_vsen_mask (events_since w (nct7904_probe w))) 0xFFFF
       = 0) /\
    (k = 3%nat ->
     Z.shiftr (supplied_vsen_mask (events_since w (nct7904_probe w))) 16
       = 0).
Proof.
  remember (nct7904_probe w) as o eqn:Ho.
  rewrite probe_unfold in Ho.
  unfold mbind at 1 in Ho. unfold kzalloc in Ho.
  destruct (fst (devm_kzalloc (w_bus w))); cbn [negb] in Ho;
    [|subst o; intros Hin; cbn in Hin; rewrite drop_all in Hin;
      contradiction].
  unfold mbind at 1 in Ho. unfold modify_data at 1 in Ho.
  set (w0 := mk_world _ _ _) in Ho.
  assert (Hw0 : w_trace w0 = w_trace w) by reflexivity.
  unfold mbind at 1 in Ho.
  destruct (run_access_post w0 BANK_0 (ReadReg16 FANIN_CTRL0_REG))
    as (r1 & w1 & Hrun1 & seg1 & Htr1 & Hl1 & Hp1 & Hf1 & _).
  destruct (run_access_select w0 BANK_0 (ReadReg16 FANIN_CTRL0_REG))
    as (r1' & w1'' & tr1 & Hrun1' & _ & Hsel).
  rewrite Hrun1 in Hrun1'. injection Hrun1' as <- <-.
  cbv zeta in Hsel.
  change (Int.to_u32 (bank_sel (w_data w0)) =? BANK_0) with false in Hsel.
  destruct Hsel as (_ & _ & Hfail & Hdata1).
  pose proof (write_byte_contract (w_bus w0) BANK_SEL_REG (Int.to_u8 BANK_0))
    as Hwc.
  cbn [run_access] in Hrun1. rewrite Hrun1 in Ho.
  destruct (Z.ltb_spec r1 0) as [Hneg1|Hpos1].
  { unfold mret in Ho. subst o.
    rewrite (events_since_done w w1 r1 (EvLock :: seg1))
      by (rewrite Htr1, Hw0; reflexivity).
    cbn [failed_steps is_lock]. rewrite Hf1.
    destruct (Z.ltb_spec r1 0); [|lia].
    intros [Heq|[]] [Hk|Hk]; injection Heq as <- <-; discriminate Hk. }
  assert (Hbank : bank_sel (w_data w1) = 0).
  { rewrite Hdata1.
    destruct (Z.eqb_spec
                (fst (i2c_smbus_write_byte_data (w_bus w0) BANK_SEL_REG
                        (Int.to_u8 BANK_0))) 0) as [Hz|Hnz];
      [reflexivity|].
    specialize (Hfail Hnz). lia. }
  unfold mbind at 1 in Ho. unfold modify_data at 1 in Ho.
  set (w1' := mk_world _ _ _) in Ho.
  unfold mbind at 1 in Ho.
  destruct (read_reg16_cached w1' BANK_0 VT_ADC_CTRL0_REG)
    as (r2 & w2 & seg2 & Hrun2 & Hd2 & Htr2 & Hl2 & Hp2 & Hf2 & Hs2 & Hrg2).
  { subst w1'. cbn [w_data with_fanin_mask bank_sel]. rewrite Hbank.
    reflexivity. }
  { unfold VT_ADC_CTRL0_REG. lia. }
  rewrite Hrun2 in Ho. cbv zeta in Ho.
  unfold mbind at 1 in Ho.
  destruct (read_reg_cached w2 BANK_0 VT_ADC_CTRL2_REG)
    as (r3 & w3 & seg3 & Hrun3 & Hd3 & Htr3 & Hl3 & Hp3 & Hf3 & Hs3 & Hrg3).
  { rewrite Hd2. subst w1'. cbn [w_data with_fanin_mask bank_sel].
    rewrite Hbank. reflexivity. }
  { unfold VT_ADC_CTRL2_REG. lia. }
  rewrite Hrun3 in Ho.
  unfold mbind at 1 in Ho. unfold modify_data at 1 in Ho.
  fold (swab16 r2) in Ho.
  set (w3' := mk_world _ _ _) in Ho.
  destruct (keeps_probe_tail w3') as (ret & w' & trk & Hrun & Htrk & Hkeep & Hreg).
  destruct (strict_probe_tail w3') as (ret' & w'' & tr' & Hrun' & Htr' & _).
  rewrite Hrun in Hrun'. injection Hrun' as <- <-.
  rewrite Htrk in Htr'. apply app_inv_head in Htr'. subst trk.
  rewrite Hrun in Ho. subst o.
  assert (Hall : w_trace w' =
            w_trace w ++
            (EvLock :: seg1) ++ (EvLock :: seg2) ++ (EvLock :: seg3) ++
            EvLock :: tr').
  { rewrite Htrk. subst w3'. cbn [w_trace]. rewrite Htr3, Htr2.
    subst w1'. cbn [w_trace]. rewrite Htr1, Hw0.
    rewrite <- !app_assoc. reflexivity. }
  rewrite (events_since_done w w' ret _ Hall).
  destruct (step_three_sections seg1 seg2 seg3 tr' Hl1 Hl2 Hl3)
    as (Hst2 & Hst3 & Hfs).
  unfold supplied_vsen_mask. rewrite Hst2, Hst3, Hfs, Hs2, Hs3, Hf1, Hf2, Hf3.
  destruct (Z.ltb_spec r1 0); [lia|]. rewrite app_nil_l.
  set (low := if 0 <=? r2 then swab16 r2 else 0) in *.
  assert (Hmask : vsen_mask (w_data w3') =
            Z.lor low (if 0 <=? r3 then Z.shiftl r3 16 else 0)).
  { subst w3'. cbn [w_data with_vsen_mask vsen_mask].
    destruct (0 <=? r3); [reflexivity|]. rewrite Z.lor_0_r. reflexivity. }
  intros Hin Hk.
  exists ret, w'. split; [reflexivity|].
  split; [rewrite Hkeep; exact Hmask|].
  split.
  { intros d c Hd. rewrite <- Hmask.
    assert (Hnone : forall seg, published seg = false ->
              ~ In (EvRegister d c) (EvLock :: seg)).
    { intros seg Hp [Heq|Hseg]; [discriminate|].
      exact (published_no_register seg d c Hp Hseg). }
    apply in_app_or in Hd. destruct Hd as [Hd|Hd];
      [destruct (Hnone seg1 Hp1 Hd)|].
    apply in_app_or in Hd. destruct Hd as [Hd|Hd];
      [destruct (Hnone seg2 Hp2 Hd)|].
    apply in_app_or in Hd. destruct Hd as [Hd|Hd];
      [destruct (Hnone seg3 Hp3 Hd)|].
    exact (Hreg d c Hd). }
  assert (Hlow : forall k1 c1, In (k1, c1) (failed_steps 4 tr') ->
                 (4 <= k1)%nat).
  { intros k1 c1 Hk1. apply (failed_steps_lower tr' 4 k1 c1 Hk1). }
  split.
  - intros ->.
    assert (Hr2 : r2 < 0).
    { apply in_app_or in Hin. destruct Hin as [Hin|Hin].
      - destruct (Z.ltb_spec r2 0); [assumption|contradiction].
      - apply in_app_or in Hin. destruct Hin as [Hin|Hin].
        + destruct (r3 <? 0); [|contradiction].
          destruct Hin as [Heq|[]]. discriminate Heq.
        + apply Hlow in Hin. lia. }
    subst low. destruct (Z.leb_spec 0 r2); [lia|].
    rewrite Z.lor_0_l. destruct (Z.leb_spec 0 r3); [|reflexivity].
    apply shifted_byte_low_bits. assumption.
  - intros ->.
    assert (Hr3 : r3 < 0).
    { apply in_app_or in Hin. destruct Hin as [Hin|Hin].
      - destruct (r2 <? 0); [|contradiction].
        destruct Hin as [Heq|[]]. discriminate Heq.
      - apply in_app_or in Hin. destruct Hin as [Hin|Hin].
        + destruct (Z.ltb_spec r3 0); [assumption|contradiction].
        + apply Hlow in Hin. lia. }
    destruct (Z.leb_spec 0 r3); [lia|].
    rewrite Z.lor_0_r, Z.shiftr_div_pow2 by lia.
    apply Z.div_small. change (2 ^ 16) with 65536. lia.
Qed.

(** Which failures end probe.  Steps are numbered by mutex acquisitions:
    step 1 is the fan-enable word read, steps 2 and 3 are the
    voltage-enable word read and the additional voltage control byte read,
    step 4 and the following are the later reads. *)
Lemma probe_failure_steps (w : world) (k : nat) (r : Z) :
  let o := nct7904_probe w in
  let fs := failed_steps 0 (events_since w o) in
  In (k, r) fs ->
  if (k =? 2)%nat || (k =? 3)%nat
  then published (events_since w o) = true \/
       exists k' r', (4 <= k')%nat /\ In (k', r') fs
  else returned o = Some r /\ r < 0 /\ published (events_since w o) = false.
Proof.
  cbv zeta. remember (nct7904_probe w) as o eqn:Ho.
  rewrite probe_unfold in Ho.
  unfold mbind at 1 in Ho. unfold kzalloc in Ho.
  destruct (fst (devm_kzalloc (w_bus w))); cbn [negb] in Ho;
    [|subst o; intros Hin; cbn in Hin; rewrite drop_all in Hin;
      contradiction].
  unfold mbind at 1 in Ho. unfold modify_data at 1 in Ho.
  set (w0 := mk_world _ _ _) in Ho.
  assert (Hw0 : w_trace w0 = w_trace w) by reflexivity.
  unfold mbind at 1 in Ho.
  destruct (run_access_post w0 BANK_0 (ReadReg16 FANIN_CTRL0_REG))
    as (r1 & w1 & Hrun1 & seg1 & Htr1 & Hl1 & Hp1 & Hf1 & _).
  cbn [run_access] in Hrun1. rewrite Hrun1 in Ho.
  destruct (Z.ltb_spec r1 0) as [Hneg1|Hpos1].
  { unfold mret in Ho. subst o.
    rewrite (events_since_done w w1 r1 (EvLock :: seg1))
      by (rewrite Htr1, Hw0; reflexivity).
    cbn [failed_steps is_lock returned]. rewrite Hf1.
    destruct (Z.ltb_spec r1 0); [|lia].
    intros [Heq|[]]. injection Heq as <- <-. cbn [Nat.eqb orb].
    split; [reflexivity|]. split; [assumption|exact Hp1]. }
  unfold mbind at 1 in Ho. unfold modify_data at 1 in Ho.
  set (w1' := mk_world _ _ _) in Ho.
  unfold mbind at 1 in Ho.
  destruct (run_access_post w1' BANK_0 (ReadReg16 VT_ADC_CTRL0_REG))
    as (r2 & w2 & Hrun2 & seg2 & Htr2 & Hl2 & Hp2 & Hf2 & _).
  cbn [run_access] in Hrun2. rewrite Hrun2 in Ho. cbv zeta in Ho.
  unfold mbind at 1 in Ho.
  destruct (run_access_post w2 BANK_0 (ReadReg VT_ADC_CTRL2_REG))
    as (r3 & w3 & Hrun3 & seg3 & Htr3 & Hl3 & Hp3 & Hf3 & _).
  cbn [run_access] in Hrun3. rewrite Hrun3 in Ho.
  unfold mbind at 1 in Ho. unfold modify_data at 1 in Ho.
  set (w3' := mk_world _ _ _) in Ho.
  destruct (strict_probe_tail w3') as (ret & w' & tr' & Hrun & Htr & Hout).
  rewrite Hrun in Ho. subst o.
  set (tr := EvLock :: tr') in *.
  assert (Hall : w_trace w' =
            w_trace w ++
            (EvLock :: seg1) ++ (EvLock :: seg2) ++ (EvLock :: seg3) ++ tr).
  { rewrite Htr. subst w3'. cbn [w_trace]. rewrite Htr3, Htr2.
    subst w1'. cbn [w_trace]. rewrite Htr1, Hw0.
    rewrite <- !app_assoc. reflexivity. }
  rewrite (events_since_done w w' ret _ Hall).
  cbn [returned].
  assert (Hpub : published ((EvLock :: seg1) ++ (EvLock :: seg2) ++
                            (EvLock :: seg3) ++ tr) = published tr).
  { rewrite !published_app.
    change (published (EvLock :: seg1)) with (published seg1).
    change (published (EvLock :: seg2)) with (published seg2).
    change (published (EvLock :: seg3)) with (published seg3).
    rewrite Hp1, Hp2, Hp3. reflexivity. }
  assert (Hcnt : forall seg, count_events is_lock seg = 0%nat ->
                 count_events is_lock (EvLock :: seg) = 1%nat).
  { intros seg Hseg. unfold count_events in *. cbn [List.filter is_lock length].
    rewrite Hseg. reflexivity. }
  rewrite Hpub, !failed_steps_app.
  rewrite (Hcnt seg1 Hl1), (Hcnt seg2 Hl2), (Hcnt seg3 Hl3).
  cbn [Nat.add].
  change (failed_steps 0 (EvLock :: seg1)) with (failed_steps 1 seg1).
  change (failed_steps 1 (EvLock :: seg2)) with (failed_steps 2 seg2).
  change (failed_steps 2 (EvLock :: seg3)) with (failed_steps 3 seg3).
  rewrite Hf1, Hf2, Hf3.
  destruct (Z.ltb_spec r1 0); [lia|]. cbn [app].
  specialize (Hout 3%nat).
  assert (Hlow : forall k1 c1, In (k1, c1) (failed_steps 3 tr) ->
                 (4 <= k1)%nat /\ c1 < 0).
  { intros k1 c1. subst tr. cbn [failed_steps is_lock].
    apply failed_steps_lower. }
  assert (Htail : In (k, r) (failed_steps 3 tr) ->
            ((k =? 2)%nat || (k =? 3)%nat) = false /\
            ret = r /\ r < 0 /\ published tr = false).
  { intros Hk. destruct (Hlow k r Hk) as [Hge Hr].
    split.
    { destruct (Nat.eqb_spec k 2); [lia|].
      destruct (Nat.eqb_spec k 3); [lia|]. reflexivity. }
    destruct (failed_steps 3 tr) as [|[k1 c1] [|]]; try contradiction.
    destruct Hk as [Heq|[]]. injection Heq as <- <-.
    destruct Hout as [-> Hnp]. auto. }
  assert (Hlater : forall pre,
            published tr = true \/
            exists k' r', (4 <= k')%nat /\
                          In (k', r') (pre ++ failed_steps 3 tr)).
  { intros pre. destruct (failed_steps 3 tr) as [|[k1 c1] rest] eqn:Hfs.
    - left. exact Hout.
    - right. exists k1, c1.
      destruct (Hlow k1 c1 (or_introl eq_refl)) as [Hge _].
      split; [exact Hge|]. apply in_or_app. right. left. reflexivity. }
  intros Hin.
  apply in_app_or in Hin. destruct Hin as [Hin|Hin].
  { destruct (Z.ltb_spec r2 0); [|contradiction].
    destruct Hin as [Heq|[]]. injection Heq as <- <-.
    cbn [Nat.eqb orb].
    destruct (Hlater ((if r3 <? 0 then [(3%nat, r3)] else [])))
      as [Hp|(k' & r' & Hk' & Hin')]; [left; exact Hp|].
    right. exists k', r'. split; [exact Hk'|]. right. exact Hin'. }
  apply in_app_or in Hin. destruct Hin as [Hin|Hin].
  { destruct (Z.ltb_spec r3 0); [|contradiction].
    destruct Hin as [Heq|[]]. injection Heq as <- <-.
    cbn [Nat.eqb orb].
    destruct (Hlater ((if r2 <? 0 then [(2%nat, r2)] else []) ++ [(3%nat, r3)]))
      as [Hp|(k' & r' & Hk' & Hin')]; [left; exact Hp|].
    right. exists k', r'. split; [exact Hk'|].
    rewrite <- app_assoc in Hin'. exact Hin'. }
  destruct (Htail Hin) as (-> & -> & Hr & Hp). auto.
Qed.

(** C2, as the code has it.  Steps are numbered by mutex acquisitions: step
    1 is the fan-enable word read, steps 2 and 3 are the voltage-enable
    word read (registers 0x20 and 0x21) and the additional voltage control
    byte read (register 0x22), step 4 and the following are the later
    reads.  A transaction that fails in a step other than 2 and 3 ends
    probe: probe returns the code of that failure and nothing is
    registered.  A failure in step 2 or 3 does not end probe: the device
    is registered unless a later step fails, and the voltage mask that
    probe leaves, which is also the mask of whatever it registers, is made
    of what the reads of these two steps supplied: the word of step 2 in
    bits 0..15 when both its bytes were read, the byte of step 3 in bits
    16..23 when it was read.  So bits 0..15 are zero when step 2 failed
    and the bits from 16 on are zero when step 3 failed, the other part
    being kept. *)
Theorem probe_read_failure (w : world) (k : nat) (r : Z) :
  let o := nct7904_probe w in
  let tr := events_since w o in
  let fs := failed_steps 0 tr in
  In (k, r) fs ->
  if (k =? 2)%nat || (k =? 3)%nat
  then (published tr = true \/
        exists k' r', (4 <= k')%nat /\ In (k', r') fs) /\
       exists ret w',
         o = Done ret w' /\
         vsen_mask (w_data w') = supplied_vsen_mask tr /\
         (forall d c, In (EvRegister d c) tr ->
            vsen_mask d = supplied_vsen_mask tr) /\
         (k = 2%nat -> Z.land (supplied_vsen_mask tr) 0xFFFF = 0) /\
         (k = 3%nat -> Z.shiftr (supplied_vsen_mask tr) 16 = 0)
  else returned o = Some r /\ r < 0 /\ published tr = false.
Proof.
  cbv zeta. intros Hin.
  pose proof (probe_failure_steps w k r) as Hsteps. cbv zeta in Hsteps.
  specialize (Hsteps Hin).
  destruct (Nat.eqb_spec k 2) as [Hk2|Hk2]; cbn [orb] in *.
  - split; [exact Hsteps|].
    apply (probe_supplied_mask w k r Hin). left. exact Hk2.
  - destruct (Nat.eqb_spec k 3) as [Hk3|Hk3].
    + split; [exact Hsteps|].
      apply (probe_supplied_mask w k r Hin). right. exact Hk3.
    + exact Hsteps.
Qed.



End Attachment.

Lemma probe_read_failure_witness :
  (returned (nct7904_probe attach_demo_relay_error) = Some (- EIO) /\
   - EIO < 0 /\
   published (events_since attach_demo_relay_error
                (nct7904_probe attach_demo_relay_error)) = false) /\
  (let o := nct7904_probe attach_demo_voltage_error in
   let tr := events_since attach_demo_voltage_error o in
   (published tr = true \/
    exists k' r', (4 <= k')%nat /\ In (k', r') (failed_steps 0 tr)) /\
   exists ret w',
     o = Done ret w' /\
     vsen_mask (w_data w') = supplied_vsen_mask tr /\
     (forall d c, In (EvRegister d c) tr ->
        vsen_mask d = supplied_vsen_mask tr) /\
     (2%nat = 2%nat -> Z.land (supplied_vsen_mask tr) 0xFFFF = 0) /\
     (2%nat = 3%nat -> Z.shiftr (supplied_vsen_mask tr) 16 = 0)).
Proof.
  split.
  - refine (probe_read_failure attach_demo_relay_error 4 (- EIO) _).
    vm_compute. left. reflexivity.
  - refine (probe_read_failure attach_demo_voltage_error 2 (- EIO) _).
    vm_compute. left. reflexivity.
Defined.

(** C2 as the spec words it fails: when the first byte read of the
    voltage-enable word fails with -EIO, probe goes on, returns 0 and
    registers the device, with a voltage mask that lacks the sixteen bits
    of that word (0x020000 where the chip enables 0x02FFFF). *)
Lemma probe_ignores_voltage_read_error :
  failed_steps 0
    (events_since attach_demo_voltage_error
       (nct7904_probe attach_demo_voltage_error)) = [(2%nat, - EIO)] /\
  returned (nct7904_probe attach_demo_voltage_error) = Some 0 /\
  published (events_since attach_demo_voltage_error
               (nct7904_probe attach_demo_voltage_error)) = true /\
  option_map (fun w' => vsen_mask (w_data w'))
    (final (nct7904_probe attach_demo_voltage_error)) = Some 0x020000 /\
  option_map (fun w' => vsen_mask (w_data w'))
    (final (nct7904_probe (attach_demo []))) = Some 0x02FFFF.
Proof.
  repeat split; vm_compute; reflexivity.
Qed.


(** * Further properties of the driver *)

(** ** Critical sections of the accessors *)

Ltac access_cases w bank :=
  run_monad; change (Int.to_u8 BANK_SEL_REG) with BANK_SEL_REG;
  destruct (Int.to_u32 (bank_sel (w_data w)) =? bank);
  cbv beta iota; cbn [w_data w_bus w_trace]; bus_results;
  repeat match goal with
    | |- context [if ?a =? ?b then _ else _] =>
        destruct (Z.eqb_spec a b); cbv beta iota;
        cbn [w_data w_bus w_trace]; bus_results
    | |- context [if ?a <=? ?b then _ else _] =>
        destruct (Z.leb_spec a b); cbv beta iota;
        cbn [w_data w_bus w_trace]; bus_results
    end.

Section AccessDiscipline.

Context {B : Type} `{Platform B}.

(** X1: Every call of nct7904_read_reg, nct7904_read_reg16 or nct7904_write_reg
    returns, takes the mutex first and exactly once and releases it last
    and exactly once, whether it succeeds or not.  It stops at the first
    transaction that fails: nothing is sent after it, and the value
    returned is negative exactly when a transaction failed and is then the
    code of that transaction. *)
Theorem accessor_lock_discipline (w : world B) (bank : Z) (a : access) :
  let o := run_access bank a w in
  exists ret, returned o = Some ret /\
    hd_error (events_since w o) = Some EvLock /\
    last (events_since w o) = Some EvUnlock /\
    count_events is_lock (events_since w o) = 1%nat /\
    count_events is_unlock (events_since w o) = 1%nat /\
    stops_at_failure (events_since w o) = true /\
    failed_steps 0 (events_since w o) = if ret <? 0 then [(1%nat, ret)] else [].
Proof.
  cbv zeta.
  destruct a as [reg|reg|reg val]; cbn [run_access]; access_cases w bank.
  all: eexists; (split; [reflexivity|]).
  all: erewrite events_since_done
    by (cbn [w_trace]; repeat rewrite <- app_assoc; cbn [app]; reflexivity).
  all: try match goal with
         | |- context [Z.lor ?b (Z.shiftl ?a 8)] =>
             pose proof (word_nonneg a b)
         end.
  all: cbn [hd_error last count_events List.filter is_lock is_unlock length
              stops_at_failure failure_code forallb is_transaction negb andb
              failed_steps].
  all: z_cases; try lia; cbn [forallb is_transaction negb andb];
    repeat split; reflexivity.
Qed.

Lemma run_access_in_footprint (w : world B) (bank : Z) (a : access) :
  forallb (in_footprint bank a) (events_since w (run_access bank a w)) = true.
Proof.
  destruct a as [reg|reg|reg val]; cbn [run_access]; access_cases w bank.
  all: erewrite events_since_done
    by (cbn [w_trace]; repeat rewrite <- app_assoc; cbn [app]; reflexivity).
  all: cbn [forallb in_footprint]; rewrite ?Z.eqb_refl, ?orb_true_r;
    reflexivity.
Qed.

(** X2: An accessor call touches nothing but its own registers: besides the
    mutex operations, every event is the selection of the requested bank or
    a transaction of the accessor's kind at its register (at [reg] and
    [reg + 1] for the word read).  A read accessor never writes a data
    register, and no accessor registers anything. *)
Theorem accessor_footprint (w : world B) (bank : Z) (a : access) :
  forallb (in_footprint bank a) (events_since w (run_access bank a w)) = true.
Proof. exact (run_access_in_footprint w bank a). Qed.

Lemma read_access_harmless (w : world B) (bank : Z) (a : access) :
  (forall reg val, a <> WriteReg reg val) ->
  forallb harmless (events_since w (run_access bank a w)) = true.
Proof.
  intros Hread.
  pose proof (run_access_in_footprint w bank a) as Hfp.
  rewrite forallb_forall in Hfp. apply forallb_forall. intros e He.
  specialize (Hfp e He).
  destruct a as [reg|reg|reg val]; [| |exfalso; eapply Hread; reflexivity];
    destruct e; unfold harmless;
    cbn [in_footprint is_data_write is_register negb andb] in *;
    try reflexivity; try discriminate;
    destruct (command =? BANK_SEL_REG); cbn in *;
    solve [reflexivity | discriminate].
Qed.

Lemma read_access_done (w w1 : world B) (bank ret : Z) (a : access) :
  (forall reg val, a <> WriteReg reg val) ->
  run_access bank a w = Done ret w1 ->
  exists tr, w_trace w1 = w_trace w ++ tr /\ forallb harmless tr = true.
Proof.
  intros Hread Hrun.
  pose proof (read_access_harmless w bank a Hread) as Hharm.
  destruct (run_access_post w bank a) as (ret' & w1' & Hrun' & seg & Htr & _).
  rewrite Hrun in Hrun'. injection Hrun' as <- <-.
  rewrite Hrun, (events_since_done w w1 ret _ Htr) in Hharm.
  exists (EvLock :: seg). split; [exact Htr | exact Hharm].
Qed.

Lemma quiet_bind_done {A C} (m : M B A) (k : A -> M B C) (w w' : world B)
    (c : C) :
  quiet k -> mbind m k w = Done c w' -> exists a, m w = Done a w'.
Proof.
  intros Hk. unfold mbind. destruct (m w) as [a w1|f]; [|discriminate].
  destruct (Hk a w1) as [[c' ->]|[f ->]]; [|discriminate].
  intros Heq. injection Heq as _ <-. exists a. reflexivity.
Qed.

(** X3: A read callback that returns has not changed the chip: whatever sensor
    type, attribute and channel nct7904_read is called with, when the call
    returns, with a value or with an error code, the events it has added
    to the trace write no register but the bank-select register and
    register nothing. *)
Theorem read_never_writes_data (w w' : world B) (req : hwmon_request)
    (channel : Z) (r : rv) :
  nct7904_read req channel w = Done r w' ->
  exists tr, w_trace w' = w_trace w ++ tr /\ forallb harmless tr = true.
Proof.
  assert (Hnone : forall a : rv, mret a w = Done r w' ->
            exists tr, w_trace w' = w_trace w ++ tr /\
                       forallb harmless tr = true).
  { intros a Heq. unfold mret in Heq. injection Heq as _ <-.
    exists []. rewrite app_nil_r. split; reflexivity. }
  assert (Haccess : forall bank a (k : Z -> M B rv),
            (forall reg val, a <> WriteReg reg val) ->
            quiet k ->
            mbind (run_access bank a) k w = Done r w' ->
            exists tr, w_trace w' = w_trace w ++ tr /\
                       forallb harmless tr = true).
  { intros bank a k Hread Hk Hrun.
    destruct (quiet_bind_done _ k w w' r Hk Hrun) as [ret Hacc].
    exact (read_access_done w w' bank ret a Hread Hacc). }
  destruct req as [attr|attr|attr|attr|]; cbn [nct7904_read];
    try destruct attr; try apply Hnone.
  - unfold nct7904_read_in. unfold mbind at 1. unfold array_read.
    destruct (array_get nct7904_chan_to_index channel) as [index|];
      [|discriminate].
    unfold mret at 1.
    apply (Haccess BANK_0 (ReadReg16 _)); [discriminate|].
    intros ret w1. left. destruct (ret <? 0); eexists; reflexivity.
  - unfold nct7904_read_in. unfold mbind, array_read.
    destruct (array_get nct7904_chan_to_index channel);
      [apply Hnone|discriminate].
  - unfold nct7904_read_fan.
    apply (Haccess BANK_0 (ReadReg16 _)); [discriminate|].
    intros ret w1. destruct (ret <? 0); [left; eexists; reflexivity|].
    unfold mbind. destruct (fan_count ret =? 8191);
      [left; eexists; reflexivity|].
    unfold udiv. destruct (fan_count ret =? 0);
      [right|left]; eexists; reflexivity.
  - unfold nct7904_read_pwm.
    apply (Haccess BANK_3 (ReadReg _)); [discriminate|].
    intros ret w1. left. destruct (ret <? 0); eexists; reflexivity.
  - unfold nct7904_read_pwm.
    apply (Haccess BANK_3 (ReadReg _)); [discriminate|].
    intros ret w1. left. destruct (ret <? 0); eexists; reflexivity.
  - unfold nct7904_read_temp.
    destruct (channel =? 4); [|destruct (channel <? 5)];
      (apply (Haccess BANK_0 (ReadReg16 _)); [discriminate|]);
      intros ret w1; left; destruct (ret <? 0); eexists; reflexivity.
Qed.

End AccessDiscipline.

(** The fan read of [decode_demo], whose bank is cached: its trace is the
    critical section with the two byte reads. *)
Lemma read_never_writes_data_witness :
  exists tr,
    w_trace (decode_demo_after
               [EvLock; EvRead 0x80 0x2A; EvRead 0x81 0x06; EvUnlock]) =
      w_trace decode_demo ++ tr /\
    forallb harmless tr = true.
Proof.
  apply (read_never_writes_data decode_demo
           (decode_demo_after
              [EvLock; EvRead 0x80 0x2A; EvRead 0x81 0x06; EvUnlock])
           (hwmon_fan hwmon_fan_input) 0 (Val 1000)).
  vm_compute. reflexivity.
Defined.


(** ** The bank cache against a chip *)

Section BankCacheSound.

Import SimFacts.

Lemma to_s32_small (z : Z) : 0 <= z <= 255 -> Int.to_s32 z = z.
Proof.
  intros Hz. unfold Int.to_s32.
  rewrite Z.mod_small by lia. lia.
Qed.

Lemma sim_smbus_read (w : world Sim.chip) (reg : Z) :
  exists r w',
    smbus_read reg w = Done r w' /\
    w_data w' = w_data w /\
    Sim.regs (w_bus w') = Sim.regs (w_bus w) /\
    Sim.cur_bank (w_bus w') = Sim.cur_bank (w_bus w) /\
    (r < 0 \/
     r = reg_byte (w_bus w) (Sim.cur_bank (w_bus w)) (Int.to_u8 reg)) /\
    (error_free w -> 0 <= r /\ error_free w').
Proof.
  unfold smbus_read, error_free. cbv zeta.
  cbn [i2c_smbus_read_byte_data Sim.platform].
  unfold Sim.read_byte, Sim.next_error, Sim.advance.
  destruct (Sim.script (w_bus w)) as [|e sc];
    [|destruct (Z.ltb_spec e 0)];
    do 2 eexists; (split; [reflexivity|]); cbn [w_data w_bus fst snd];
    unfold Sim.advance; cbn [Sim.regs Sim.cur_bank Sim.script];
    (split; [reflexivity|]); (split; [reflexivity|]);
    (split; [reflexivity|]);
    (split; [solve [left; assumption | right; reflexivity]|]);
    try (intros Hnil; discriminate Hnil).
  intros _. split; [apply IntFacts.to_u8_range|reflexivity].
Qed.

Lemma sim_smbus_write (w : world Sim.chip) (reg val : Z) :
  exists r w',
    smbus_write reg val w = Done r w' /\
    w_data w' = w_data w /\
    ((r < 0 /\ Sim.regs (w_bus w') = Sim.regs (w_bus w) /\
      Sim.cur_bank (w_bus w') = Sim.cur_bank (w_bus w)) \/
     (r = 0 /\
      if Int.to_u8 reg =? BANK_SEL_REG
      then Sim.regs (w_bus w') = Sim.regs (w_bus w) /\
           Sim.cur_bank (w_bus w') = Int.to_u8 val
      else Sim.regs (w_bus w') =
             <[(Sim.cur_bank (w_bus w), Int.to_u8 reg) := Int.to_u8 val]>
               (Sim.regs (w_bus w)) /\
           Sim.cur_bank (w_bus w') = Sim.cur_bank (w_bus w))) /\
    (error_free w -> r = 0 /\ error_free w').
Proof.
  unfold smbus_write, error_free. cbv zeta.
  cbn [i2c_smbus_write_byte_data Sim.platform].
  unfold Sim.write_byte, Sim.next_error, Sim.advance.
  destruct (Sim.script (w_bus w)) as [|e sc];
    [|destruct (Z.ltb_spec e 0)];
    do 2 eexists; (split; [reflexivity|]); cbn [w_data w_bus fst snd];
    (split; [reflexivity|]).
  2: { split; [|intros Hnil; discriminate Hnil].
       left. unfold Sim.advance. cbn [Sim.regs Sim.cur_bank]. auto. }
  all: split;
    [ right; (split; [reflexivity|]);
      destruct (Int.to_u8 reg =? BANK_SEL_REG);
      unfold Sim.advance; cbn [Sim.regs Sim.cur_bank]; split; reflexivity
    | try (intros Hnil; discriminate Hnil) ].
  intros _. split; [reflexivity|].
  destruct (Int.to_u8 reg =? BANK_SEL_REG); reflexivity.
Qed.

Lemma sim_bank_lock (w : world Sim.chip) (bank : Z) :
  0 <= bank <= 255 ->
  coherent w ->
  exists r w',
    nct7904_bank_lock bank w = Done r w' /\
    r <= 0 /\
    Sim.regs (w_bus w') = Sim.regs (w_bus w) /\
    coherent w' /\
    (r = 0 -> Sim.cur_bank (w_bus w') = bank /\
              bank_sel (w_data w') = bank) /\
    (error_free w -> r = 0 /\ error_free w').
Proof.
  intros Hbank Hcoh.
  assert (Hs32 := to_s32_small bank Hbank).
  assert (Hu8 : Int.to_u8 bank = bank) by (apply IntFacts.to_u8_small; lia).
  unfold nct7904_bank_lock, mutex_lock, emit, get_data.
  unfold mbind at 1 2. cbv beta iota. cbn [w_data].
  destruct (Z.eqb_spec (Int.to_u32 (bank_sel (w_data w))) bank) as [Hc|Hc].
  - do 2 eexists. split; [reflexivity|]. split; [lia|].
    split; [reflexivity|]. split; [exact Hcoh|].
    split; [|intros He; split; [reflexivity|exact He]]. intros _.
    cbn [w_data w_bus]. destruct Hcoh as [Hu|[He Hr]].
    + rewrite Hu in Hc. vm_compute in Hc. lia.
    + rewrite He in Hc. rewrite IntFacts.to_u32_small in Hc by lia.
      split; congruence.
  - unfold mbind at 1.
    destruct (sim_smbus_write
                (mk_world (w_data w) (w_bus w) (w_trace w ++ [EvLock]))
                BANK_SEL_REG bank)
      as (r & w1 & -> & Hd & Hcase & Hfree).
    cbn [w_data w_bus] in *.
    change (Int.to_u8 BANK_SEL_REG =? BANK_SEL_REG) with true in Hcase.
    cbv iota in Hcase. rewrite Hu8 in Hcase.
    destruct Hcase as [(Hneg & Hregs & Hcur)|(-> & Hregs & Hcur)].
    + destruct (Z.eqb_spec r 0); [lia|].
      unfold mbind, modify_data, mret.
      do 2 eexists. split; [reflexivity|]. split; [lia|].
      cbn [w_data w_bus]. split; [exact Hregs|].
      split; [left; reflexivity|]. split; [lia|].
      intros He. destruct (Hfree He) as [Hr0 _]. lia.
    + cbn [Z.eqb]. unfold mbind, modify_data, mret.
      do 2 eexists. split; [reflexivity|]. split; [lia|].
      cbn [w_data w_bus]. split; [exact Hregs|].
      unfold coherent. cbn [w_data w_bus bank_sel with_bank_sel].
      rewrite Hs32, Hcur. split; [right; split; [reflexivity|lia]|].
      split; [auto|]. intros He. split; [reflexivity|].
      exact (proj2 (Hfree He)).
Qed.

Lemma reg_byte_ext (c c' : Sim.chip) (bank reg : Z) :
  Sim.regs c = Sim.regs c' -> reg_byte c bank reg = reg_byte c' bank reg.
Proof. intros Hr. unfold reg_byte. rewrite Hr. reflexivity. Qed.

Lemma coherent_release (w : world Sim.chip) (d : nct7904_data)
    (c : Sim.chip) (tr : list event) :
  coherent w -> d = w_data w -> Sim.cur_bank c = Sim.cur_bank (w_bus w) ->
  coherent (mk_world d c tr).
Proof.
  intros Hcoh -> Hcur. unfold coherent in *. cbn [w_data w_bus].
  rewrite Hcur. exact Hcoh.
Qed.

Lemma run_access_sim (w : world Sim.chip) (bank : Z) (a : access) :
  0 <= bank <= 255 ->
  data_access a ->
  coherent w ->
  exists ret w',
    run_access bank a w = Done ret w' /\
    coherent w' /\
    (if ret <? 0 then Sim.regs (w_bus w') = Sim.regs (w_bus w)
     else ret = expected (w_bus w) bank a /\
          Sim.regs (w_bus w') = regs_after (w_bus w) bank a) /\
    (error_free w -> 0 <= ret /\ error_free w').
Proof.
  intros Hbank Ha Hcoh.
  destruct (sim_bank_lock w bank Hbank Hcoh)
    as (r0 & w0 & Hlock & Hr0 & Hregs0 & Hcoh0 & Hsel & Hfree0).
  assert (Hbyte : forall c b r, 0 <= reg_byte c b r <= 255)
    by (intros; apply IntFacts.to_u8_range).
  destruct a as [reg|reg|reg val]; cbn [run_access data_access] in Ha |- *;
    unfold nct7904_read_reg, nct7904_read_reg16, nct7904_write_reg;
    unfold mbind at 1; rewrite Hlock;
    unfold mbind at 1;
    (destruct (Z.eqb_spec r0 0) as [->|Hnz];
     [destruct (Hsel eq_refl) as [Hcur Hbs]
     |unfold mret at 1; unfold nct7904_bank_release, mutex_unlock, emit, mbind;
      cbv beta iota; unfold mret;
      do 2 eexists; (split; [reflexivity|]);
      (split; [apply (coherent_release w0); auto|]);
      (split; [destruct (Z.ltb_spec r0 0); [exact Hregs0|lia]|]);
      intros He; destruct (Hfree0 He); lia]).
  - destruct (sim_smbus_read w0 reg)
      as (r1 & w1 & -> & Hd1 & Hrg1 & Hcb1 & Hr1 & Hfree1).
    unfold nct7904_bank_release, mutex_unlock, emit, mbind, mret.
    cbv beta iota.
    do 2 eexists. split; [reflexivity|].
    split; [apply (coherent_release w0); auto|].
    cbn [w_bus expected regs_after].
    split; [|intros He; apply Hfree1, Hfree0, He].
    destruct Hr1 as [Hneg| ->].
    + destruct (Z.ltb_spec r1 0); [congruence|lia].
    + rewrite Hcur, (reg_byte_ext _ _ _ _ Hregs0).
      pose proof (Hbyte (w_bus w) bank (Int.to_u8 reg)).
      destruct (Z.ltb_spec (reg_byte (w_bus w) bank (Int.to_u8 reg)) 0);
        [lia|].
      split; [reflexivity|congruence].
  - unfold mbind at 1.
    destruct (sim_smbus_read w0 reg)
      as (r1 & w1 & -> & Hd1 & Hrg1 & Hcb1 & Hr1 & Hfree1).
    assert (Hcoh1 : coherent w1).
    { destruct w1. apply (coherent_release w0); auto. }
    destruct (Z.leb_spec 0 r1) as [Hpos1|Hneg1].
    + destruct Hr1 as [Hneg| ->]; [lia|].
      unfold mbind at 1.
      destruct (sim_smbus_read w1 (reg + 1))
        as (r2 & w2 & -> & Hd2 & Hrg2 & Hcb2 & Hr2 & Hfree2).
      unfold nct7904_bank_release, mutex_unlock, emit, mbind, mret.
      cbv beta iota.
      destruct (Z.leb_spec 0 r2) as [Hpos2|Hneg2].
      * destruct Hr2 as [Hneg| ->]; [lia|].
        do 2 eexists. split; [reflexivity|].
        split; [apply (coherent_release w1); auto|].
        cbn [w_bus expected regs_after].
        rewrite Hcb1, Hcur.
        rewrite (reg_byte_ext (w_bus w1) (w_bus w) bank (Int.to_u8 (reg + 1)))
          by congruence.
        rewrite (reg_byte_ext _ _ _ _ Hregs0).
        pose proof (Hbyte (w_bus w) bank (Int.to_u8 reg)).
        pose proof (Hbyte (w_bus w) bank (Int.to_u8 (reg + 1))).
        pose proof (word_nonneg (reg_byte (w_bus w) bank (Int.to_u8 reg))
                      (reg_byte (w_bus w) bank (Int.to_u8 (reg + 1)))).
        split; [|intros He; split; [lia|apply Hfree2, Hfree1, Hfree0, He]].
        match goal with
        | |- if ?r <? 0 then _ else _ => destruct (Z.ltb_spec r 0); [lia|]
        end.
        split; [reflexivity|congruence].
      * do 2 eexists. split; [reflexivity|].
        split; [apply (coherent_release w1); auto|].
        cbn [w_bus].
        split; [destruct (Z.ltb_spec r2 0); [congruence|lia]|].
        intros He. destruct (Hfree2 (proj2 (Hfree1 (proj2 (Hfree0 He))))).
        lia.
    + unfold nct7904_bank_release, mutex_unlock, emit, mbind, mret.
      cbv beta iota.
      do 2 eexists. split; [reflexivity|].
      split; [apply (coherent_release w0); auto|].
      cbn [w_bus].
      split; [destruct (Z.ltb_spec r1 0); [congruence|lia]|].
      intros He. destruct (Hfree1 (proj2 (Hfree0 He))). lia.
  - destruct (sim_smbus_write w0 reg val)
      as (r1 & w1 & -> & Hd1 & Hcase & Hfree1).
    unfold nct7904_bank_release, mutex_unlock, emit, mbind, mret.
    cbv beta iota.
    destruct (Z.eqb_spec (Int.to_u8 reg) BANK_SEL_REG); [contradiction|].
    do 2 eexists. split; [reflexivity|].
    cbn [w_bus expected regs_after].
    split; [destruct Hcase as [(_ & _ & Hcb)|(_ & _ & Hcb)];
            apply (coherent_release w0); auto|].
    split; [|intros He; destruct (Hfree1 (proj2 (Hfree0 He))); split;
             [lia|assumption]].
    destruct Hcase as [(Hneg & Hrg & Hcb)|(-> & Hrg & Hcb)].
    + destruct (Z.ltb_spec r1 0); [congruence|lia].
    + cbn [Z.ltb Z.compare]. split; [reflexivity|].
      rewrite Hrg, Hcur, Hregs0. reflexivity.
Qed.

(** X4: On the simulated chip the cache never sends an access to the wrong
    bank.  Starting from a cache that is unknown or agrees with the chip,
    any accessor call on a bank 0..255 (data writes not aimed at the
    bank-select register) leaves the cache unknown or in agreement with the
    chip; when the call fails the register file is as before, and when it
    succeeds the value returned is the content of the register of the
    REQUESTED bank (high byte at [reg] for the word read) and a write has
    changed exactly that register, whatever injected errors came before. *)
Theorem bank_cache_sound (w : world Sim.chip) (bank : Z) (a : access) :
  0 <= bank <= 255 ->
  data_access a ->
  coherent w ->
  exists ret w',
    run_access bank a w = Done ret w' /\
    coherent w' /\
    if ret <? 0 then Sim.regs (w_bus w') = Sim.regs (w_bus w)
    else ret = expected (w_bus w) bank a /\
         Sim.regs (w_bus w') = regs_after (w_bus w) bank a.
Proof.
  intros Hbank Ha Hcoh.
  destruct (run_access_sim w bank a Hbank Ha Hcoh)
    as (ret & w' & Hrun & Hcoh' & Hres & _).
  exists ret, w'. auto.
Qed.

Lemma bank_cache_sound_witness :
  returned (run_access BANK_3 (ReadReg FANCTL1_OUT_REG) pwm_demo) = Some 128 /\
  exists ret w',
    run_access BANK_3 (ReadReg FANCTL1_OUT_REG) pwm_demo = Done ret w' /\
    coherent w' /\
    if ret <? 0 then Sim.regs (w_bus w') = Sim.regs (w_bus pwm_demo)
    else ret = expected (w_bus pwm_demo) BANK_3 (ReadReg FANCTL1_OUT_REG) /\
         Sim.regs (w_bus w') =
           regs_after (w_bus pwm_demo) BANK_3 (ReadReg FANCTL1_OUT_REG).
Proof.
  split; [vm_compute; reflexivity|].
  apply (bank_cache_sound pwm_demo BANK_3 (ReadReg FANCTL1_OUT_REG)).
  - unfold BANK_3. lia.
  - exact I.
  - left. reflexivity.
Defined.

Lemma sim_write_read (w : world Sim.chip) (bank reg val : Z) :
  0 <= bank <= 255 ->
  Int.to_u8 reg <> BANK_SEL_REG ->
  coherent w -> error_free w ->
  exists w1 w2,
    nct7904_write_reg bank reg val w = Done 0 w1 /\
    nct7904_read_reg bank reg w1 = Done (Int.to_u8 val) w2.
Proof.
  intros Hbank Hreg Hcoh Hfree.
  destruct (run_access_sim w bank (WriteReg reg val) Hbank Hreg Hcoh)
    as (r1 & w1 & Hrun1 & Hcoh1 & Hres1 & Hfree1).
  destruct (Hfree1 Hfree) as [Hpos1 Hfree1'].
  destruct (Z.ltb_spec r1 0); [lia|].
  destruct Hres1 as [-> Hregs1]. cbn [expected regs_after] in Hregs1.
  destruct (run_access_sim w1 bank (ReadReg reg) Hbank I Hcoh1)
    as (r2 & w2 & Hrun2 & Hcoh2 & Hres2 & Hfree2).
  destruct (Hfree2 Hfree1') as [Hpos2 _].
  destruct (Z.ltb_spec r2 0); [lia|].
  destruct Hres2 as [-> _].
  exists w1, w2. split; [exact Hrun1|].
  cbn [run_access] in Hrun2. rewrite Hrun2. f_equal.
  cbn [expected]. unfold reg_byte. rewrite Hregs1.
  rewrite lookup_insert_eq. cbn [default]. unfold Int.to_u8.
  apply Z.mod_mod. lia.
Qed.

(** X5: Writing a duty and reading it back: on the simulated chip, with the
    cache unknown or in agreement with the chip and no transport error, a
    PWM duty write of a value 0..255 on a fan-control channel followed by a
    duty read of the same channel returns that value. *)
Theorem pwm_duty_round_trip (w : world Sim.chip) (channel val : Z) :
  coherent w -> error_free w ->
  0 <= channel < FANCTL_MAX ->
  0 <= val <= 255 ->
  returned ((nct7904_write_pwm hwmon_pwm_input channel val ;;;
             nct7904_read_pwm hwmon_pwm_input channel) w) = Some (Val val).
Proof.
  intros Hcoh Hfree Hchan Hval.
  destruct (sim_write_read w BANK_3 (FANCTL1_OUT_REG + channel) val)
    as (w1 & w2 & Hw & Hr); auto.
  { unfold BANK_3. lia. }
  { unfold FANCTL1_OUT_REG, FANCTL_MAX, BANK_SEL_REG in *.
    rewrite IntFacts.to_u8_small by lia. lia. }
  unfold nct7904_write_pwm, nct7904_read_pwm, mbind.
  destruct (Z.ltb_spec val 0); [lia|]. destruct (Z.ltb_spec 255 val); [lia|].
  cbn [orb]. rewrite Hw. unfold mret at 1. rewrite Hr.
  rewrite IntFacts.to_u8_small by lia.
  destruct (Z.ltb_spec val 0); [lia|]. reflexivity.
Qed.

Lemma pwm_duty_round_trip_witness :
  returned ((nct7904_write_pwm hwmon_pwm_input 2 255 ;;;
             nct7904_read_pwm hwmon_pwm_input 2) pwm_demo) = Some (Val 255).
Proof.
  apply (pwm_duty_round_trip pwm_demo 2 255).
  - left. reflexivity.
  - reflexivity.
  - unfold FANCTL_MAX. lia.
  - lia.
Defined.

(** X6: Switching the control mode and reading it back, under the same
    conditions.  After an enable write of 1 (manual) the enable read
    returns 1, whatever the snapshot of the channel is (the snapshot is not
    looked at).  After an enable write of 2 (automatic) on a channel whose
    snapshot is not zero the mode register holds the snapshot and the
    enable read returns 2. *)
Theorem pwm_enable_round_trip (w : world Sim.chip) (channel : Z) :
  coherent w -> error_free w ->
  0 <= channel < FANCTL_MAX ->
  returned ((nct7904_write_pwm hwmon_pwm_enable channel 1 ;;;
             nct7904_read_pwm hwmon_pwm_enable channel) w) = Some (Val 1) /\
  (forall snapshot,
     array_get (fan_mode (w_data w)) channel = Some snapshot ->
     0 < snapshot <= 255 ->
     returned ((nct7904_write_pwm hwmon_pwm_enable channel 2 ;;;
                nct7904_read_reg BANK_3 (FANCTL1_FMR_REG + channel)) w)
       = Some snapshot /\
     returned ((nct7904_write_pwm hwmon_pwm_enable channel 2 ;;;
                nct7904_read_pwm hwmon_pwm_enable channel) w)
       = Some (Val 2)).
Proof.
  intros Hcoh Hfree Hchan.
  assert (Hbank : 0 <= BANK_3 <= 255) by (unfold BANK_3; lia).
  assert (Hreg : Int.to_u8 (FANCTL1_FMR_REG + channel) <> BANK_SEL_REG).
  { unfold FANCTL1_FMR_REG, FANCTL_MAX, BANK_SEL_REG in *.
    rewrite IntFacts.to_u8_small by lia. lia. }
  split.
  - destruct (sim_write_read w BANK_3 (FANCTL1_FMR_REG + channel) 0
                Hbank Hreg Hcoh Hfree) as (wm & wm' & Hwm & Hrm).
    change (Int.to_u8 0) with 0 in Hrm.
    assert (Hman : nct7904_write_pwm hwmon_pwm_enable channel 1 w =
              mbind (nct7904_write_reg BANK_3 (FANCTL1_FMR_REG + channel) 0)
                (fun ret => mret (status ret)) w).
    { reflexivity. }
    unfold mbind in Hman. rewrite Hwm in Hman.
    unfold mret in Hman. cbn [status Z.eqb] in Hman.
    unfold nct7904_read_pwm, mbind. rewrite Hman, Hrm. reflexivity.
  - intros snapshot Hsnap Hrange.
    destruct (sim_write_read w BANK_3 (FANCTL1_FMR_REG + channel) snapshot
                Hbank Hreg Hcoh Hfree) as (wa & wa' & Hwa & Hra).
    rewrite IntFacts.to_u8_small in Hra by lia.
    pose proof (write_pwm_enable_eq w channel 2 snapshot Hsnap) as Hauto.
    cbn [Z.eqb Pos.eqb andb] in Hauto.
    destruct (Z.eqb_spec snapshot 0) as [Hz|Hnz]; [lia|].
    cbn [negb] in Hauto.
    unfold mbind in Hauto. rewrite Hwa in Hauto.
    unfold mret in Hauto. cbn [status Z.eqb] in Hauto.
    unfold nct7904_read_pwm.
    unfold mbind. rewrite Hauto, Hra.
    destruct (Z.ltb_spec snapshot 0); [lia|].
    destruct (Z.eqb_spec snapshot 0); [lia|].
    split; reflexivity.
Qed.

(** On [pwm_demo] channel 1 has the snapshot 0 and channel 0 the snapshot
    0x21. *)
Lemma pwm_enable_round_trip_witness :
  returned ((nct7904_write_pwm hwmon_pwm_enable 1 1 ;;;
             nct7904_read_pwm hwmon_pwm_enable 1) pwm_demo) = Some (Val 1) /\
  returned ((nct7904_write_pwm hwmon_pwm_enable 0 2 ;;;
             nct7904_read_reg BANK_3 (FANCTL1_FMR_REG + 0)) pwm_demo)
    = Some 0x21 /\
  returned ((nct7904_write_pwm hwmon_pwm_enable 0 2 ;;;
             nct7904_read_pwm hwmon_pwm_enable 0) pwm_demo) = Some (Val 2).
Proof.
  split.
  - refine (proj1 (pwm_enable_round_trip pwm_demo 1 _ _ _)).
    + left. reflexivity.
    + reflexivity.
    + unfold FANCTL_MAX. lia.
  - refine (proj2 (pwm_enable_round_trip pwm_demo 0 _ _ _) 0x21 _ _).
    + left. reflexivity.
    + reflexivity.
    + unfold FANCTL_MAX. lia.
    + reflexivity.
    + lia.
Defined.

End BankCacheSound.

(** ** PWM duty writes *)

Section PwmDuty.

Context {B : Type} `{Platform B}.


End PwmDuty.


(** ** Temperature inputs *)

Section Temperature.

Context {B : Type} `{Platform B}.

Lemma sign_extend32_11 (m : Z) :
  0 <= m < 2048 -> sign_extend32 m 10 = signed11 m.
Proof.
  intros Hm. unfold sign_extend32, signed11. cbv zeta.
  change (31 - 10) with 21.
  rewrite IntFacts.to_u32_small by lia.
  rewrite Z.shiftl_mul_pow2, Z.shiftr_div_pow2 by lia.
  change (2 ^ 21) with 2097152.
  unfold Int.to_s32.
  destruct (Z.ltb_spec m 1024) as [Hlt|Hge].
  - rewrite Z.mod_small by lia.
    replace (m * 2097152 + 2147483648 - 2147483648) with (m * 2097152) by lia.
    apply Z.div_mul. lia.
  - replace (m * 2097152 + 2147483648)
      with ((m - 1024) * 2097152 + 1 * 4294967296) by lia.
    rewrite Z.mod_add by lia. rewrite Z.mod_small by lia.
    replace ((m - 1024) * 2097152 - 2147483648)
      with ((m - 2048) * 2097152) by lia.
    apply Z.div_mul. lia.
Qed.

(** X8: The temperature read takes the 11-bit field of the raw word as a
    two's-complement number and returns it times 125: field values
    0..1023 give 0..127875 millidegrees, field values 1024..2047 give
    -128000..-125.  Channel 4 is read from the local-diode pair, channels
    below 4 from the thermal pairs at stride 4, channels from 5 on from the
    digital-sensor pairs at stride 2. *)
Theorem temperature_input_decode (w w' : world B) (channel raw : Z) :
  nct7904_read_reg16 BANK_0 (temp_register channel) w = Done raw w' ->
  0 <= raw ->
  let field := Z.lor (Z.shiftr (Z.land raw 0xff00) 5) (Z.land raw 0x7) in
  nct7904_read_temp hwmon_temp_input channel w =
    Done (Val ((if field <? 1024 then field else field - 2048) * 125)) w' /\
  -128000 <= (if field <? 1024 then field else field - 2048) * 125 <= 127875.
Proof.
  intros Hread Hraw field.
  pose proof (volt_magnitude_range raw) as Hrange.
  change (volt_magnitude raw) with field in Hrange.
  split; [|destruct (Z.ltb_spec field 1024); lia].
  unfold nct7904_read_temp, mbind.
  unfold temp_register in Hread.
  assert (Hsel : (if channel =? 4
                  then nct7904_read_reg16 BANK_0 LTD_HV_REG
                  else if channel <? 5
                       then nct7904_read_reg16 BANK_0
                              (TEMP_CH1_HV_REG + channel * 4)
                       else nct7904_read_reg16 BANK_0
                              (T_CPU1_HV_REG + (channel - 5) * 2)) w
                 = Done raw w').
  { destruct (channel =? 4); [exact Hread|].
    destruct (channel <? 5); exact Hread. }
  rewrite Hsel. destruct (Z.ltb_spec raw 0); [lia|].
  change (volt_magnitude raw) with field.
  rewrite sign_extend32_11 by exact Hrange. reflexivity.
Qed.

Lemma events_bind_total {A C} (m : M B A) (k : A -> M B C) (w : world B) :
  (forall a w1, exists c, k a w1 = Done c w1) ->
  events_since w (mbind m k w) = events_since w (m w).
Proof.
  intros Hk. unfold mbind. destruct (m w) as [a w1|f]; [|reflexivity].
  destruct (Hk a w1) as [c ->]. reflexivity.
Qed.

Lemma read_temp_events (w : world B) (channel : Z) :
  events_since w (nct7904_read_temp hwmon_temp_input channel w) =
  events_since w (nct7904_read_reg16 BANK_0 (temp_register channel) w).
Proof.
  unfold nct7904_read_temp. rewrite events_bind_total.
  - unfold temp_register. destruct (channel =? 4); [reflexivity|].
    destruct (channel <? 5); reflexivity.
  - intros ret w1. destruct (ret <? 0); eexists; reflexivity.
Qed.

Lemma read_in_events (w : world B) (channel index : Z) :
  array_get nct7904_chan_to_index channel = Some index ->
  events_since w (nct7904_read_in hwmon_in_input channel w) =
  events_since w (nct7904_read_reg16 BANK_0 (VSEN1_HV_REG + index * 2) w).
Proof.
  intros Hindex. unfold nct7904_read_in. unfold mbind at 1.
  unfold array_read. rewrite Hindex. unfold mret at 1.
  apply events_bind_total.
  intros ret w1. destruct (ret <? 0); eexists; reflexivity.
Qed.

(** X9: The thermal channels share their registers with voltage inputs: for
    c = 0..3 a read of temperature channel c and a read of voltage channel
    2c + 2 send the same transactions (the register pair of voltage index
    2c + 1, the first being the one the source notes as VSEN2). *)
Theorem thermal_channel_aliases_voltage (w : world B) (c : Z) :
  0 <= c <= 3 ->
  events_since w (nct7904_read_temp hwmon_temp_input c w) =
  events_since w (nct7904_read_in hwmon_in_input (2 * c + 2) w).
Proof.
  intros Hc.
  assert (Hcase : c = 0 \/ c = 1 \/ c = 2 \/ c = 3) by lia.
  rewrite read_temp_events.
  destruct Hcase as [->|[->|[->| ->]]].
  - rewrite (read_in_events w _ 1) by reflexivity. reflexivity.
  - rewrite (read_in_events w _ 3) by reflexivity. reflexivity.
  - rewrite (read_in_events w _ 5) by reflexivity. reflexivity.
  - rewrite (read_in_events w _ 7) by reflexivity. reflexivity.
Qed.

Lemma chan_to_index_values (channel index : Z) :
  array_get nct7904_chan_to_index channel = Some index ->
  0 <= index <= 20 /\ index <> 17.
Proof.
  unfold array_get. destruct (channel <? 0); [discriminate|].
  intros Hlook. apply list_elem_of_lookup_2, list_elem_of_In in Hlook.
  cbn [In nct7904_chan_to_index] in Hlook.
  repeat (destruct Hlook as [<-|Hlook]; [lia|]). contradiction.
Qed.

(** X10: No voltage read touches the local-diode registers: whatever channel
    and attribute nct7904_read_in is called with, it never reads register
    0x62 or 0x63, the pair that temperature channel 4 is read from (the
    channel table skips physical index 17). *)
Theorem voltage_never_reads_local_diode (w : world B)
    (attr : hwmon_in_attributes) (channel c r : Z) :
  In (EvRead c r) (events_since w (nct7904_read_in attr channel w)) ->
  c <> LTD_HV_REG /\ c <> LTD_HV_REG + 1.
Proof.
  intros Hin.
  destruct (array_get nct7904_chan_to_index channel) as [index|] eqn:Hindex.
  - destruct (chan_to_index_values channel index Hindex) as [Hrange Hne].
    destruct attr.
    + rewrite (read_in_events w channel index Hindex) in Hin.
      pose proof (run_access_in_footprint w BANK_0
                    (ReadReg16 (VSEN1_HV_REG + index * 2))) as Hfp.
      rewrite forallb_forall in Hfp. specialize (Hfp _ Hin).
      cbn [in_footprint] in Hfp.
      unfold VSEN1_HV_REG, LTD_HV_REG in *.
      rewrite !IntFacts.to_u8_small in Hfp by lia.
      apply orb_true_iff in Hfp. rewrite !Z.eqb_eq in Hfp. lia.
    + unfold nct7904_read_in, mbind, array_read in Hin.
      rewrite Hindex in Hin. unfold mret in Hin.
      cbn [events_since] in Hin. rewrite drop_all in Hin. contradiction.
  - unfold nct7904_read_in, mbind, array_read in Hin.
    rewrite Hindex in Hin. contradiction.
Qed.

End Temperature.

Lemma temperature_input_decode_witness :
  nct7904_read_temp hwmon_temp_input 1 temp_demo =
    Done (Val (-125))
      (mk_world (w_data temp_demo) (w_bus temp_demo)
         [EvLock; EvRead 0x46 0xFF; EvRead 0x47 0x07; EvUnlock]).
Proof.
  refine (proj1 (temperature_input_decode temp_demo
                   (mk_world (w_data temp_demo) (w_bus temp_demo)
                      [EvLock; EvRead 0x46 0xFF; EvRead 0x47 0x07; EvUnlock])
                   1 0xFF07 _ _)).
  - vm_compute. reflexivity.
  - lia.
Defined.

Lemma voltage_never_reads_local_diode_witness :
  0x40 <> LTD_HV_REG /\ 0x40 <> LTD_HV_REG + 1.
Proof.
  refine (voltage_never_reads_local_diode decode_demo hwmon_in_input 1
            0x40 0x0C _).
  vm_compute. right. left. reflexivity.
Defined.

Lemma thermal_channel_aliases_voltage_witness :
  events_since decode_demo (nct7904_read_temp hwmon_temp_input 0 decode_demo) =
  events_since decode_demo (nct7904_read_in hwmon_in_input 2 decode_demo).
Proof.
  apply (thermal_channel_aliases_voltage decode_demo 0). lia.
Defined.

(** ** Visibility and the presence masks *)

Section Visibility.

Lemma land_bit_eqb (m i : Z) :
  0 <= i -> (Z.land m (Z.shiftl 1 i) =? 0) = negb (Z.testbit m i).
Proof.
  intros Hi. rewrite Z.shiftl_1_l.
  destruct (Z.testbit m i) eqn:Hbit; cbn [negb].
  - apply Z.eqb_neq. intros Hz.
    assert (Hb : Z.testbit (Z.land m (2 ^ i)) i = true).
    { rewrite Z.land_spec, Hbit, Z.pow2_bits_true by lia. reflexivity. }
    rewrite Hz, Z.bits_0 in Hb. discriminate.
  - apply Z.eqb_eq. apply Z.bits_inj'. intros n Hn.
    rewrite Z.land_spec, Z.bits_0, Z.pow2_bits_eqb by lia.
    destruct (Z.eqb_spec i n) as [->|Hne]; [rewrite Hbit|];
      auto using andb_false_r.
Qed.

(** X11: An input attribute is visible exactly when its presence bit is set,
    on the channels that nct7904_info declares (where the shifts of the
    source stay inside the word).  For fan channels 0..7 the fan callback
    answers 0444 when bit [channel] of the fan mask is set and 0 otherwise;
    for temperature channels 0..8 the temperature callback looks at bit
    [channel] of the CPU mask for channels below 5 and at bit [channel - 5]
    of the digital-sensor mask from channel 5 on; for voltage channels
    0..20 the voltage callback looks at the bit of the mapped physical
    index and never shows channel 0. *)
Theorem visibility_is_presence_bit (d : nct7904_data) (channel : Z) :
  (declared (hwmon_fan hwmon_fan_input) channel ->
   nct7904_fan_is_visible d hwmon_fan_input channel =
     (if Z.testbit (fanin_mask d) channel then 292 else 0)) /\
  (declared (hwmon_temp hwmon_temp_input) channel ->
   nct7904_temp_is_visible d hwmon_temp_input channel =
     (if (if channel <? 5 then Z.testbit (tcpu_mask d) channel
          else Z.testbit (has_dts d) (channel - 5))
      then 292 else 0)) /\
  (declared (hwmon_in hwmon_in_input) channel ->
   exists index,
     array_get nct7904_chan_to_index channel = Some index /\
     nct7904_in_is_visible d hwmon_in_input channel =
       Some (if (0 <? channel) && Z.testbit (vsen_mask d) index
             then 292 else 0)).
Proof.
  unfold declared, declared_channels.
  split; [|split]; intros Hchan.
  - unfold nct7904_fan_is_visible. rewrite land_bit_eqb by lia.
    rewrite negb_involutive. reflexivity.
  - unfold nct7904_temp_is_visible, BIT.
    destruct (Z.ltb_spec channel 5).
    + rewrite land_bit_eqb by lia. rewrite negb_involutive. reflexivity.
    + rewrite land_bit_eqb by lia. rewrite negb_involutive. reflexivity.
  - destruct (array_get nct7904_chan_to_index channel) as [index|] eqn:Hindex.
    + exists index. split; [reflexivity|].
      unfold nct7904_in_is_visible, BIT. rewrite Hindex.
      destruct (chan_to_index_values channel index Hindex) as [Hrange _].
      rewrite land_bit_eqb by lia. rewrite negb_involutive. reflexivity.
    + exfalso. unfold array_get in Hindex.
      destruct (Z.ltb_spec channel 0); [lia|].
      apply lookup_ge_None in Hindex.
      change (length nct7904_info_in) with 21%nat in Hchan.
      change (length nct7904_chan_to_index) with 21%nat in Hindex. lia.
Qed.

(** Fan channel 2 with the mask 0x05, the local diode (temperature channel
    4) with the mask 0x10, and voltage channel 18, whose physical index is
    19, with only bit 19 of the mask set. *)
Lemma visibility_is_presence_bit_witness :
  nct7904_fan_is_visible (mk_data 0 0x05 0 0 [] 0 0) hwmon_fan_input 2 =
    (if Z.testbit 0x05 2 then 292 else 0) /\
  nct7904_temp_is_visible (mk_data 0 0 0 0x10 [] 0 0) hwmon_temp_input 4 =
    (if Z.testbit 0x10 4 then 292 else 0) /\
  exists index,
    array_get nct7904_chan_to_index 18 = Some index /\
    nct7904_in_is_visible (mk_data 0 0 0x080000 0 [] 0 0) hwmon_in_input 18 =
      Some (if (0 <? 18) && Z.testbit 0x080000 index then 292 else 0).
Proof.
  split; [|split].
  - refine (proj1 (visibility_is_presence_bit
                     (mk_data 0 0x05 0 0 [] 0 0) 2) _).
    vm_compute. split; [discriminate | reflexivity].
  - refine (proj1 (proj2 (visibility_is_presence_bit
                            (mk_data 0 0 0 0x10 [] 0 0) 4)) _).
    vm_compute. split; [discriminate | reflexivity].
  - refine (proj2 (proj2 (visibility_is_presence_bit
                            (mk_data 0 0 0x080000 0 [] 0 0) 18)) _).
    vm_compute. split; [discriminate | reflexivity].
Defined.

(** X12: Bit 17 of the voltage mask, the slot of the local diode among the
    physical indices, is never looked at: flipping it changes the
    visibility of no voltage channel, for any attribute and any channel,
    in or out of the table. *)
Theorem voltage_visibility_ignores_bit_17 (d : nct7904_data)
    (attr : hwmon_in_attributes) (channel : Z) :
  nct7904_in_is_visible
    (with_vsen_mask (Z.lxor (vsen_mask d) (BIT 17)) d) attr channel =
  nct7904_in_is_visible d attr channel.
Proof.
  unfold nct7904_in_is_visible.
  destruct (array_get nct7904_chan_to_index channel) as [index|] eqn:Hindex;
    [|reflexivity].
  destruct (chan_to_index_values channel index Hindex) as [Hrange Hne].
  destruct attr; [|reflexivity].
  cbn [vsen_mask with_vsen_mask]. unfold BIT.
  rewrite !land_bit_eqb by lia.
  rewrite Z.lxor_spec, Z.shiftl_1_l, Z.pow2_bits_false by lia.
  rewrite xorb_false_r. reflexivity.
Qed.

End Visibility.

(** ** Array bounds on the declared channels *)

Section Bounds.

Context {B : Type} `{Platform B}.

Lemma access_then_no_out_of_bounds {C} (bank : Z) (a : access)
    (k : Z -> M B C) (w : world B) :
  (forall ret w1, k ret w1 <> Fault OutOfBounds) ->
  mbind (run_access bank a) k w <> Fault OutOfBounds.
Proof.
  intros Hk. unfold mbind.
  destruct (run_access_post w bank a) as (ret & w1 & -> & _).
  apply Hk.
Qed.

(** X13: For every channel that nct7904_info declares, no callback indexes an
    array out of bounds: the visibility callback has a result, and the
    read and write callbacks never fault on an array access, given the
    four fan-mode bytes that attachment stores.  (The voltage table has
    one entry per declared voltage channel, the fan-mode array one per
    declared PWM channel.) *)
Theorem declared_channels_in_bounds (w : world B) (req : hwmon_request)
    (channel val : Z) :
  declared req channel ->
  length (fan_mode (w_data w)) = Z.to_nat FANCTL_MAX ->
  nct7904_is_visible (w_data w) req channel <> None /\
  nct7904_read req channel w <> Fault OutOfBounds /\
  nct7904_write req channel val w <> Fault OutOfBounds.
Proof.
  intros Hdecl Hlen. unfold declared in Hdecl.
  assert (Hpure : forall (C : Type) (c : C) (w1 : world B),
            mret c w1 <> Fault OutOfBounds) by (intros; discriminate).
  destruct req as [attr|attr|attr|attr|];
    cbn [declared_channels nct7904_info_in nct7904_info_fan nct7904_info_pwm
           nct7904_info_temp length] in Hdecl;
    cbn [nct7904_is_visible nct7904_read nct7904_write];
    try (repeat split; discriminate).
  - assert (Hlook : exists index,
              array_get nct7904_chan_to_index channel = Some index).
    { unfold array_get. destruct (Z.ltb_spec channel 0); [lia|].
      apply lookup_lt_is_Some_2. cbn [length nct7904_chan_to_index]. lia. }
    destruct Hlook as [index Hindex].
    split; [unfold nct7904_in_is_visible; rewrite Hindex; discriminate|].
    split; [|discriminate].
    unfold nct7904_read_in. unfold mbind at 1. unfold array_read.
    rewrite Hindex. unfold mret at 1.
    destruct attr; [|discriminate].
    apply (access_then_no_out_of_bounds BANK_0 (ReadReg16 _)).
    intros ret w1. destruct (ret <? 0); discriminate.
  - split; [discriminate|]. split; [|discriminate].
    unfold nct7904_read_fan. destruct attr; [|discriminate].
    apply (access_then_no_out_of_bounds BANK_0 (ReadReg16 _)).
    intros ret w1. destruct (ret <? 0); [discriminate|].
    unfold mbind. destruct (fan_count ret =? 8191); [discriminate|].
    unfold udiv. destruct (fan_count ret =? 0); discriminate.
  - split; [discriminate|].
    assert (Hmode : exists snapshot,
              array_get (fan_mode (w_data w)) channel = Some snapshot).
    { unfold array_get. destruct (Z.ltb_spec channel 0); [lia|].
      apply lookup_lt_is_Some_2. rewrite Hlen. unfold FANCTL_MAX. lia. }
    destruct Hmode as [snapshot Hsnap].
    split.
    + unfold nct7904_read_pwm. destruct attr; try discriminate;
        apply (access_then_no_out_of_bounds BANK_3 (ReadReg _));
        intros ret w1; destruct (ret <? 0); discriminate.
    + destruct attr; [| |discriminate].
      * unfold nct7904_write_pwm.
        destruct ((val <? 0) || (255 <? val)); [discriminate|].
        apply (access_then_no_out_of_bounds BANK_3 (WriteReg _ _)).
        intros ret w1. discriminate.
      * rewrite (write_pwm_enable_eq w channel val snapshot Hsnap).
        destruct (val =? 1);
          [apply (access_then_no_out_of_bounds BANK_3 (WriteReg _ _));
           intros ret w1; discriminate|].
        destruct ((val =? 2) && negb (snapshot =? 0)); [|discriminate].
        apply (access_then_no_out_of_bounds BANK_3 (WriteReg _ _)).
        intros ret w1. discriminate.
  - split; [discriminate|]. split; [|discriminate].
    unfold nct7904_read_temp. destruct attr; [|discriminate].
    unfold mbind.
    assert (Hacc : forall reg, exists ret w1,
              nct7904_read_reg16 BANK_0 reg w = Done ret w1).
    { intros reg.
      destruct (run_access_post w BANK_0 (ReadReg16 reg))
        as (ret & w1 & Hrun & _). eauto. }
    destruct (channel =? 4); [|destruct (channel <? 5)];
      match goal with
      | |- context [nct7904_read_reg16 BANK_0 ?reg w] =>
          destruct (Hacc reg) as (ret & w1 & ->)
      end; destruct (ret <? 0); discriminate.
Qed.

End Bounds.

Lemma declared_channels_in_bounds_witness :
  nct7904_is_visible (w_data pwm_demo) (hwmon_in hwmon_in_input) 20 <> None /\
  nct7904_read (hwmon_in hwmon_in_input) 20 pwm_demo <> Fault OutOfBounds /\
  nct7904_write (hwmon_in hwmon_in_input) 20 0 pwm_demo <> Fault OutOfBounds.
Proof.
  apply (declared_channels_in_bounds pwm_demo (hwmon_in hwmon_in_input) 20 0).
  - unfold declared. cbn. lia.
  - reflexivity.
Defined.

(** ** What attachment stores *)

Section AttachData.

Context {B : Type} `{Platform B}.

Lemma run_access_range (w : world B) (bank : Z) (a : access) :
  exists ret w',
    run_access bank a w = Done ret w' /\
    (ret < 0 \/ 0 <= ret <= access_bound a).
Proof.
  destruct a as [reg|reg|reg val]; cbn [run_access access_bound];
    access_cases w bank.
  all: do 2 eexists; (split; [reflexivity|]).
  all: try match goal with
         | |- context [Z.lor ?b (Z.shiftl ?a 8)] =>
             rewrite (word_as_sum a b) by lia
         end.
  all: lia.
Qed.

Lemma unpublished_register_post (Q : nct7904_data -> Prop)
    (tr : list event) :
  published tr = false -> register_post Q tr.
Proof.
  intros Hpub d r Hin. unfold published in Hpub.
  assert (Hex : existsb is_register tr = true).
  { apply existsb_exists. exists (EvRegister d r). split; [exact Hin|].
    reflexivity. }
  congruence.
Qed.

Lemma register_post_app (Q : nct7904_data -> Prop) (tr1 tr2 : list event) :
  register_post Q tr1 -> register_post Q tr2 -> register_post Q (tr1 ++ tr2).
Proof.
  intros H1 H2 d r Hin. apply in_app_or in Hin.
  destruct Hin; [eapply H1|eapply H2]; eassumption.
Qed.

Lemma attaches_ret (Q P : nct7904_data -> Prop) (r : Z) :
  attaches (B := B) Q P (mret r).
Proof.
  intros w _. exists r, w, []. split; [reflexivity|].
  split; [rewrite app_nil_r; reflexivity|]. intros d r' [].
Qed.

Lemma attaches_weaken (Q P P' : nct7904_data -> Prop) (m : M B Z) :
  (forall d, P d -> P' d) -> attaches Q P' m -> attaches Q P m.
Proof. intros Himp Hm w Hw. apply Hm, Himp, Hw. Qed.

Lemma attaches_register (Q P : nct7904_data -> Prop) :
  (forall d, P d -> Q d) -> attaches Q P hwmon_device_register.
Proof.
  intros Himp w Hw. unfold hwmon_device_register.
  do 3 eexists. split; [reflexivity|]. split; [reflexivity|].
  intros d r [Heq|[]]. injection Heq as <- _. apply Himp, Hw.
Qed.

Lemma attaches_modify (Q P P' : nct7904_data -> Prop)
    (f : nct7904_data -> nct7904_data) (k : M B Z) :
  (forall d, P d -> P' (f d)) ->
  attaches Q P' k -> attaches Q P (modify_data f ;;; k).
Proof.
  intros Hf Hk w Hw. unfold mbind, modify_data.
  apply (Hk (mk_world (f (w_data w)) (w_bus w) (w_trace w))).
  apply Hf, Hw.
Qed.

Lemma attaches_get (Q P : nct7904_data -> Prop) (k : nct7904_data -> M B Z) :
  (forall d0, P d0 -> attaches Q (fun d => d = d0) (k d0)) ->
  attaches Q P (d <- get_data ;; k d).
Proof.
  intros Hk w Hw. unfold mbind, get_data.
  apply (Hk (w_data w) Hw w). reflexivity.
Qed.

Lemma attaches_access_any (Q P : nct7904_data -> Prop) (bank : Z)
    (a : access) (k : Z -> M B Z) :
  bank_blind P ->
  (forall ret, ret < 0 \/ 0 <= ret <= access_bound a -> attaches Q P (k ret)) ->
  attaches Q P (ret <- run_access bank a ;; k ret).
Proof.
  intros Hblind Hk w Hw. unfold mbind.
  destruct (run_access_range w bank a) as (ret & w1 & Hrun & Hrange).
  destruct (run_access_post w bank a)
    as (ret' & w1' & Hrun' & seg & Htr1 & _ & Hpub & _ & Hdata).
  rewrite Hrun in Hrun'. injection Hrun' as <- <-.
  rewrite Hrun.
  destruct (Hk ret Hrange w1) as (r & w' & tr & Hk1 & Htr & Hpost).
  { rewrite Hdata. apply Hblind, Hw. }
  exists r, w', ((EvLock :: seg) ++ tr).
  split; [exact Hk1|].
  split; [rewrite Htr, Htr1, <- app_assoc; reflexivity|].
  apply register_post_app; [|exact Hpost].
  apply unpublished_register_post. exact Hpub.
Qed.

Lemma attaches_access (Q P : nct7904_data -> Prop) (bank : Z)
    (a : access) (k : Z -> M B Z) :
  bank_blind P ->
  (forall ret, 0 <= ret <= access_bound a -> attaches Q P (k ret)) ->
  attaches Q P
    (ret <- run_access bank a ;; if ret <? 0 then mret ret else k ret).
Proof.
  intros Hblind Hk. apply attaches_access_any; [exact Hblind|].
  intros ret Hrange. destruct (Z.ltb_spec ret 0); [apply attaches_ret|].
  apply Hk. lia.
Qed.

Lemma lor_fits (n a b : Z) :
  0 <= n -> 0 <= a < 2 ^ n -> 0 <= b < 2 ^ n -> 0 <= Z.lor a b < 2 ^ n.
Proof.
  intros Hn Ha Hb. apply bits_bound; [exact Hn|]. intros k Hk.
  rewrite Z.lor_spec, (const_high_bits a n k), (const_high_bits b n k)
    by lia.
  reflexivity.
Qed.

Lemma land_fits (n a b : Z) :
  0 <= n -> 0 <= a < 2 ^ n -> 0 <= Z.land a b < 2 ^ n.
Proof.
  intros Hn Ha. apply bits_bound; [exact Hn|]. intros k Hk.
  rewrite Z.land_spec, (const_high_bits a n k) by lia.
  reflexivity.
Qed.

Lemma low_byte_range (x : Z) : 0 <= Z.land x 0xff <= 255.
Proof.
  rewrite Z.land_comm.
  pose proof (land_fits 8 0xff x) as Hf. change (2 ^ 8) with 256 in Hf. lia.
Qed.

Lemma low_nibble_range (x : Z) : 0 <= Z.land x 0xF <= 15.
Proof.
  rewrite Z.land_comm.
  pose proof (land_fits 4 0xF x) as Hf. change (2 ^ 4) with 16 in Hf. lia.
Qed.

Lemma swab16_range (ret : Z) :
  0 <= ret <= 65535 -> 0 <= swab16 ret < 2 ^ 16.
Proof.
  intros Hret. unfold swab16. apply lor_fits; [lia| |].
  - rewrite Z.shiftr_div_pow2 by lia. change (2 ^ 8) with 256.
    change (2 ^ 16) with 65536.
    pose proof (Z.div_pos ret 256). 
    assert (ret / 256 < 256) by (apply Z.div_lt_upper_bound; lia). lia.
  - rewrite Z.shiftl_mul_pow2 by lia. change (2 ^ 8) with 256.
    change (2 ^ 16) with 65536.
    pose proof (low_byte_range ret). lia.
Qed.

Lemma vsen_mask_range (ret2 ret3 : Z) :
  ret2 < 0 \/ 0 <= ret2 <= 65535 ->
  ret3 < 0 \/ 0 <= ret3 <= 255 ->
  let mask := if 0 <=? ret2 then swab16 ret2 else 0 in
  0 <= (if 0 <=? ret3 then Z.lor mask (Z.shiftl ret3 16) else mask) < 2 ^ 24.
Proof.
  intros H2 H3 mask.
  assert (Hmask : 0 <= mask < 2 ^ 24).
  { subst mask. change (2 ^ 24) with 16777216.
    destruct (Z.leb_spec 0 ret2); [|lia].
    pose proof (swab16_range ret2) as Hs. change (2 ^ 16) with 65536 in Hs.
    lia. }
  destruct (Z.leb_spec 0 ret3); [|exact Hmask].
  apply lor_fits; [lia|exact Hmask|].
  rewrite Z.shiftl_mul_pow2 by lia.
  change (2 ^ 16) with 65536. change (2 ^ 24) with 16777216. lia.
Qed.

Lemma multi_function_loop_fits (n : nat) (i sel mask : Z) :
  0 <= mask < 2 ^ 5 -> 0 <= multi_function_loop n i sel mask < 2 ^ 5.
Proof.
  revert i mask. induction n as [|n IH]; intros i mask Hmask; [exact Hmask|].
  cbn [multi_function_loop]. apply IH.
  unfold multi_function_step. destruct (_ =? 0); [|exact Hmask].
  apply land_fits; [lia|exact Hmask].
Qed.

Lemma attached_zeroed : attached_data zeroed_data.
Proof.
  constructor; cbn; try lia; auto.
  repeat constructor; lia.
Qed.

Lemma attached_bank_blind : bank_blind attached_data.
Proof. intros d v [? ? ? ? ? ? ? ? ?]. constructor; assumption. Qed.

Lemma attached_with_fanin (d : nct7904_data) (v : Z) :
  attached_data d -> 0 <= v < 2 ^ 16 -> attached_data (with_fanin_mask v d).
Proof. intros [? ? ? ? ? ? ? ? ?] Hv. constructor; assumption. Qed.

Lemma attached_with_vsen (d : nct7904_data) (v : Z) :
  attached_data d -> 0 <= v < 2 ^ 24 -> attached_data (with_vsen_mask v d).
Proof. intros [? ? ? ? ? ? ? ? ?] Hv. constructor; assumption. Qed.

Lemma attached_with_tcpu (d : nct7904_data) (v : Z) :
  attached_data d -> 0 <= v < 2 ^ 5 -> attached_data (with_tcpu_mask v d).
Proof. intros [? ? ? ? ? ? ? ? ?] Hv. constructor; assumption. Qed.

Lemma attached_with_fan_mode (d : nct7904_data) (i : nat) (v : Z) :
  attached_data d -> 0 <= v <= 255 ->
  attached_data (with_fan_mode (<[i := v]> (fan_mode d)) d).
Proof.
  intros [Hlen Hbytes ? ? ? ? ? ? ?] Hv. constructor; try assumption;
    cbn [fan_mode with_fan_mode].
  - rewrite length_insert. exact Hlen.
  - apply Forall_insert; assumption.
Qed.

Lemma attached_with_enable (d : nct7904_data) (e : Z) :
  attached_data d -> has_dts d = 0 -> e = 1 \/ e = 3 ->
  attached_data (with_enable_dts e d).
Proof.
  intros [? ? ? ? ? ? ? ? ?] Hz He. constructor; try assumption;
    cbn [enable_dts has_dts with_enable_dts].
  - lia.
  - intros; exact Hz.
  - intros _. rewrite Hz. change (2 ^ 4) with 16. lia.
Qed.

Lemma attached_with_has_dts (d : nct7904_data) (v : Z) :
  attached_data d -> enable_dts d <> 0 ->
  0 <= v <= 255 -> (enable_dts d = 1 -> v < 16) ->
  attached_data (with_has_dts v d).
Proof.
  intros [? ? ? ? ? ? ? ? ?] He Hv Hp. constructor; try assumption;
    cbn [enable_dts has_dts with_has_dts].
  - change (2 ^ 8) with 256. lia.
  - intros; contradiction.
Qed.

Lemma attaches_tcpu_mask_or_if (Q P : nct7904_data -> Prop) (c : bool)
    (v : Z) (k : M B Z) :
  (forall d, P d -> P (with_tcpu_mask (Z.lor (tcpu_mask d) v) d)) ->
  attaches Q P k -> attaches Q P (tcpu_mask_or_if c v ;;; k).
Proof.
  intros Hf Hk. unfold tcpu_mask_or_if. destruct c.
  - apply (attaches_modify Q P P); assumption.
  - intros w Hw. unfold mbind, mret. apply Hk, Hw.
Qed.

Lemma stage_bank_blind (F e : Z) : bank_blind (probe_stage F e).
Proof.
  intros d v (Ha & Hf & He & Hh).
  split; [apply attached_bank_blind; exact Ha|].
  split; [exact Hf|]. split; [exact He|exact Hh].
Qed.

Lemma stage_tcpu_or (F e v : Z) (d : nct7904_data) :
  0 <= v < 2 ^ 5 ->
  probe_stage F e d ->
  probe_stage F e (with_tcpu_mask (Z.lor (tcpu_mask d) v) d).
Proof.
  intros Hv (Ha & Hf & He & Hh).
  split; [|split; [exact Hf|split; [exact He|exact Hh]]].
  apply attached_with_tcpu; [exact Ha|].
  apply lor_fits; [lia|apply Ha|exact Hv].
Qed.

Lemma done_bank_blind (F : Z) : bank_blind (probe_done F).
Proof.
  intros d v (Ha & Hf). split; [apply attached_bank_blind; exact Ha|exact Hf].
Qed.

Lemma attaches_fan_mode_loop (F : Z) (n : nat) (i : Z) :
  0 <= i ->
  attaches (probe_done F) (probe_done F)
    (fan_mode_loop n i hwmon_device_register).
Proof.
  revert i. induction n as [|n IH]; intros i Hi.
  - apply attaches_register. auto.
  - cbn [fan_mode_loop].
    apply (attaches_access _ _ BANK_3 (ReadReg (FANCTL1_FMR_REG + i)));
      [apply done_bank_blind|].
    intros ret Hret. cbn [access_bound] in Hret.
    apply (attaches_modify _ _ (probe_done F)); [|apply IH; lia].
    intros d (Ha & Hf). split; [|exact Hf].
    apply attached_with_fan_mode; [exact Ha|apply IntFacts.to_u8_range].
Qed.

Lemma attaches_probe_dts (F e : Z) :
  attaches (probe_done F) (probe_stage F e)
    (probe_dts (fan_mode_loop (Z.to_nat FANCTL_MAX) 0 hwmon_device_register)).
Proof.
  pose proof (attaches_fan_mode_loop F (Z.to_nat FANCTL_MAX) 0 (Z.le_refl 0))
    as Hloop.
  unfold probe_dts. apply attaches_get. intros d0 (Ha0 & Hf0 & He0 & Hh0).
  destruct (Z.eqb_spec (enable_dts d0) 0) as [Hz|Hnz]; cbn [negb].
  - apply (attaches_weaken _ _ (probe_done F)); [|exact Hloop].
    intros d ->. split; assumption.
  - apply (attaches_weaken _ _ (probe_stage F e));
      [intros d ->; exact (conj Ha0 (conj Hf0 (conj He0 Hh0)))|].
    apply (attaches_access _ _ BANK_0 (ReadReg DTS_T_CTRL0_REG));
      [apply stage_bank_blind|].
    intros ret Hret.
    set (P1 := fun d => probe_done F d /\ enable_dts d = e /\
                        has_dts d = Z.land ret 0xF).
    apply (attaches_modify _ _ P1).
    { intros d (Ha & Hf & He & Hh). subst P1. cbv beta.
      pose proof (low_nibble_range ret).
      split; [split; [|exact Hf]|split; [exact He|reflexivity]].
      apply attached_with_has_dts; [exact Ha|congruence|lia|lia]. }
    apply attaches_get. intros d1 (Hd1 & He1 & Hh1).
    destruct (Z.eqb_spec (Z.land (enable_dts d1) 2) 0) as [Hbit|Hbit];
      cbn [negb].
    + apply (attaches_weaken _ _ (probe_done F)); [|exact Hloop].
      intros d ->. exact Hd1.
    + assert (He3 : e = 3).
      { destruct Hd1 as [Ha1 _]. destruct (ad_enable_dts _ Ha1) as [E|[E|E]];
          rewrite E in Hbit; try (exfalso; apply Hbit; reflexivity).
        congruence. }
      apply (attaches_weaken _ _ P1);
        [intros d ->; subst P1; cbv beta; auto|].
      apply (attaches_access _ _ BANK_0 (ReadReg DTS_T_CTRL1_REG)).
      { intros d v (Hd & He' & Hh'). subst P1. cbv beta.
        split; [apply done_bank_blind; exact Hd|]. auto. }
      intros ret' Hret'.
      apply (attaches_modify _ _ (probe_done F)); [|exact Hloop].
      intros d ((Ha & Hf) & He' & Hh'). split; [|exact Hf].
      apply attached_with_has_dts; [exact Ha|lia|apply IntFacts.to_u8_range|].
      lia.
Qed.

Lemma attaches_probe_tail (F : Z) :
  attaches (probe_done F) (probe_stage F 0) probe_tail.
Proof.
  assert (Hblind := stage_bank_blind F 0).
  assert (Hor : forall v, 0 <= v < 2 ^ 5 -> forall d,
            probe_stage F 0 d ->
            probe_stage F 0 (with_tcpu_mask (Z.lor (tcpu_mask d) v) d)).
  { intros v Hv d. apply stage_tcpu_or. exact Hv. }
  unfold probe_tail.
  apply (attaches_access _ _ BANK_0 (ReadReg VT_ADC_CTRL0_REG));
    [exact Hblind|]. intros r1 _.
  apply attaches_tcpu_mask_or_if; [apply Hor; change (2 ^ 5) with 32; lia|].
  apply attaches_tcpu_mask_or_if; [apply Hor; change (2 ^ 5) with 32; lia|].
  apply attaches_tcpu_mask_or_if; [apply Hor; change (2 ^ 5) with 32; lia|].
  apply attaches_tcpu_mask_or_if; [apply Hor; change (2 ^ 5) with 32; lia|].
  apply (attaches_access _ _ BANK_0 (ReadReg VT_ADC_CTRL2_REG));
    [exact Hblind|]. intros r2 _.
  apply attaches_tcpu_mask_or_if; [apply Hor; change (2 ^ 5) with 32; lia|].
  apply (attaches_access _ _ BANK_0 (ReadReg VT_ADC_MD_REG));
    [exact Hblind|]. intros r3 _.
  apply (attaches_modify _ _ (probe_stage F 0)).
  { intros d (Ha & Hf & He & Hh).
    split; [|split; [exact Hf|split; [exact He|exact Hh]]].
    apply attached_with_tcpu; [exact Ha|].
    apply multi_function_loop_fits. apply Ha. }
  apply (attaches_access _ _ BANK_2 (ReadReg PFE_REG)); [exact Hblind|].
  intros r4 _. cbv zeta.
  destruct (negb (Z.land r4 128 =? 0)).
  - apply (attaches_modify _ _ (probe_stage F 1));
      [|apply attaches_probe_dts].
    intros d (Ha & Hf & He & Hh).
    split; [|split; [exact Hf|split; [reflexivity|exact Hh]]].
    apply attached_with_enable; auto.
  - apply (attaches_access _ _ BANK_2 (ReadReg TSI_CTRL_REG));
      [exact Hblind|]. intros r5 _.
    destruct (negb (Z.land r5 128 =? 0)).
    + apply (attaches_modify _ _ (probe_stage F 3));
        [|apply attaches_probe_dts].
      intros d (Ha & Hf & He & Hh).
      split; [|split; [exact Hf|split; [reflexivity|exact Hh]]].
      apply attached_with_enable; auto.
    + intros w Hw. unfold mbind, mret. exact (attaches_probe_dts F 0 w Hw).
Qed.

(** The first critical section of probe: the fan-enable word, read with
    nothing cached. *)
Lemma read_reg16_from_unknown (w : world B) (bank reg : Z) :
  0 <= reg < 255 -> 0 <= bank <= 255 ->
  bank_sel (w_data w) = -1 ->
  exists ret w' tr,
    nct7904_read_reg16 bank reg w = Done ret w' /\
    w_trace w' = w_trace w ++ tr /\
    published tr = false /\
    w_data w' = with_bank_sel (bank_sel (w_data w')) (w_data w) /\
    (ret < 0 \/
     exists hi lo,
       tr = [EvLock; EvWrite BANK_SEL_REG bank 0;
             EvRead reg hi; EvRead (reg + 1) lo; EvUnlock] /\
       0 <= hi <= 255 /\ 0 <= lo <= 255 /\
       ret = Z.lor lo (Z.shiftl hi 8)).
Proof.
  intros Hreg Hbank Hunk.
  assert (Hr0 : Int.to_u8 reg = reg) by (apply IntFacts.to_u8_small; lia).
  assert (Hr1 : Int.to_u8 (reg + 1) = reg + 1)
    by (apply IntFacts.to_u8_small; lia).
  assert (Hb : Int.to_u8 bank = bank) by (apply IntFacts.to_u8_small; lia).
  run_monad. rewrite Hr0, Hr1, Hb, Hunk.
  change (Int.to_u8 BANK_SEL_REG) with BANK_SEL_REG.
  change (Int.to_u32 (-1)) with Int.UINT_MAX.
  destruct (Z.eqb_spec Int.UINT_MAX bank);
    [unfold Int.UINT_MAX in *; lia|].
  cbv beta iota; cbn [w_data w_bus w_trace]; bus_results.
  repeat match goal with
         | |- context [if ?a =? ?b then _ else _] =>
             destruct (Z.eqb_spec a b); cbv beta iota;
             cbn [w_data w_bus w_trace]; bus_results
         | |- context [if ?a <=? ?b then _ else _] =>
             destruct (Z.leb_spec a b); cbv beta iota;
             cbn [w_data w_bus w_trace]; bus_results
         end.
  all: do 3 eexists; (split; [reflexivity|]);
    repeat rewrite <- app_assoc; cbn [app];
    (split; [reflexivity|]); (split; [reflexivity|]);
    (split; [reflexivity|]).
  all: try (left; lia).
  right. do 2 eexists. subst. repeat split; try reflexivity; lia.
Qed.

(** What probe registers, with the bytes its first two reads returned. *)
Lemma probe_attach (w : world B) :
  exists ret w' tr,
    nct7904_probe w = Done ret w' /\
    w_trace w' = w_trace w ++ tr /\
    forall d r, In (EvRegister d r) tr ->
      exists a b rest,
        tr = [EvLock; EvWrite BANK_SEL_REG BANK_0 0;
              EvRead FANIN_CTRL0_REG a; EvRead FANIN_CTRL1_REG b; EvUnlock]
             ++ rest /\
        0 <= a <= 255 /\ 0 <= b <= 255 /\
        probe_done (Z.lor a (Z.shiftl b 8)) d.
Proof.
  rewrite probe_unfold. unfold mbind at 1. unfold kzalloc.
  destruct (fst (devm_kzalloc (w_bus w))); cbn [negb].
  2: { unfold mret. do 3 eexists. split; [reflexivity|].
       split; [cbn [w_trace]; rewrite app_nil_r; reflexivity|].
       intros d r []. }
  unfold mbind at 1. unfold modify_data at 1.
  set (w0 := mk_world _ _ _).
  assert (Hw0 : w_trace w0 = w_trace w) by reflexivity.
  assert (Hd0 : w_data w0 = with_bank_sel (-1) zeroed_data) by reflexivity.
  unfold mbind at 1.
  destruct (read_reg16_from_unknown w0 BANK_0 FANIN_CTRL0_REG)
    as (r1 & w1 & tr1 & Hrun1 & Htr1 & Hpub1 & Hdata1 & Hres1);
    [unfold FANIN_CTRL0_REG; lia | unfold BANK_0; lia | reflexivity |].
  rewrite Hrun1.
  destruct (Z.ltb_spec r1 0) as [Hneg|Hpos].
  { unfold mret. exists r1, w1, tr1. split; [reflexivity|].
    split; [rewrite Htr1, Hw0; reflexivity|].
    intros d r Hin. exfalso.
    apply (unpublished_register_post (fun _ => False) tr1 Hpub1 d r Hin). }
  destruct Hres1 as [Hneg|(a & b & Htr1e & Ha & Hb & Hr1)]; [lia|].
  set (F := Z.lor a (Z.shiftl b 8)).
  assert (HF : swab16 r1 = F) by (rewrite Hr1; apply swab16_word; assumption).
  unfold mbind at 1. unfold modify_data at 1.
  fold (swab16 r1). rewrite HF.
  set (w1' := mk_world _ _ _).
  assert (Hstage : probe_stage F 0 (w_data w1')).
  { subst w1'. cbn [w_data]. rewrite Hdata1, Hd0.
    split; [|repeat split].
    apply attached_with_fanin.
    - apply attached_bank_blind, attached_bank_blind, attached_zeroed.
    - rewrite <- HF. apply swab16_range. rewrite Hr1, word_as_sum by lia.
      lia. }
  assert (Hrest : attaches (probe_done F) (probe_stage F 0)
            (ret <- nct7904_read_reg16 BANK_0 VT_ADC_CTRL0_REG ;;
             let mask := if 0 <=? ret then swab16 ret else 0 in
             ret3 <- nct7904_read_reg BANK_0 VT_ADC_CTRL2_REG ;;
             let mask := if 0 <=? ret3 then Z.lor mask (Z.shiftl ret3 16)
                         else mask in
             modify_data (with_vsen_mask mask) ;;; probe_tail)).
  { apply (attaches_access_any _ _ BANK_0 (ReadReg16 VT_ADC_CTRL0_REG));
      [apply stage_bank_blind|]. intros r2 Hr2. cbv zeta.
    apply (attaches_access_any _ _ BANK_0 (ReadReg VT_ADC_CTRL2_REG));
      [apply stage_bank_blind|]. intros r3 Hr3.
    apply (attaches_modify _ _ (probe_stage F 0));
      [|apply attaches_probe_tail].
    intros d (Had & Hf & He & Hh).
    split; [|split; [exact Hf|split; [exact He|exact Hh]]].
    apply attached_with_vsen; [exact Had|].
    apply (vsen_mask_range r2 r3); assumption. }
  destruct (Hrest w1' Hstage) as (ret & w' & tr & Hrun & Htr & Hpost).
  unfold swab16 in Hrun. rewrite Hrun.
  exists ret, w', (tr1 ++ tr).
  split; [reflexivity|].
  split.
  { rewrite Htr. subst w1'. cbn [w_trace]. rewrite Htr1, Hw0.
    rewrite <- app_assoc. reflexivity. }
  intros d r Hin. exists a, b, tr.
  split; [rewrite Htr1e; reflexivity|].
  split; [exact Ha|]. split; [exact Hb|].
  apply in_app_or in Hin. destruct Hin as [Hin|Hin].
  - exfalso.
    apply (unpublished_register_post (fun _ => False) tr1 Hpub1 d r Hin).
  - apply (Hpost d r Hin).
Qed.

(** X14: Whatever the chip answers, the data that probe registers is
    consistent: four fan-mode bytes, a fan mask of 16 bits, a voltage mask
    of 24 bits, a CPU-temperature mask of 5 bits, a digital-sensor mode
    that is 0 (off), 1 (PECI) or 3 (TSI), and digital-sensor presence bits
    that are all clear when the mode is off and confined to the low four
    bits in PECI mode. *)
Theorem probe_registers_consistent_data (w : world B) (d : nct7904_data)
    (r : Z) :
  In (EvRegister d r) (events_since w (nct7904_probe w)) ->
  attached_data d.
Proof.
  destruct (probe_attach w) as (ret & w' & tr & Hrun & Htr & Hpost).
  rewrite Hrun, (events_since_done w w' ret tr Htr).
  intros Hin. destruct (Hpost d r Hin) as (a & b & rest & _ & _ & _ & Hd).
  apply Hd.
Qed.

(** X15: The fan mask undoes the byte order of the word read.  When probe
    registers a device, its trace starts with the read of the fan-enable
    registers 0x24 and 0x25, and the registered fan mask has the byte of
    0x24 in bits 0..7 and the byte of 0x25 in bits 8..15: fan channel i,
    for i = 0..7, is visible exactly when bit i of register 0x24 was
    set. *)
Theorem probe_fan_mask_from_enable_bytes (w : world B) (d : nct7904_data)
    (r : Z) :
  In (EvRegister d r) (events_since w (nct7904_probe w)) ->
  exists a b rest,
    events_since w (nct7904_probe w) =
      [EvLock; EvWrite BANK_SEL_REG BANK_0 0;
       EvRead FANIN_CTRL0_REG a; EvRead FANIN_CTRL1_REG b; EvUnlock]
      ++ rest /\
    fanin_mask d = Z.lor a (Z.shiftl b 8) /\
    forall i, 0 <= i < 8 ->
      nct7904_fan_is_visible d hwmon_fan_input i =
        if Z.testbit a i then 292 else 0.
Proof.
  destruct (probe_attach w) as (ret & w' & tr & Hrun & Htr & Hpost).
  rewrite Hrun, (events_since_done w w' ret tr Htr).
  intros Hin.
  destruct (Hpost d r Hin) as (a & b & rest & Htre & Ha & Hb & _ & Hmask).
  exists a, b, rest. split; [exact Htre|]. split; [exact Hmask|].
  intros i Hi. unfold nct7904_fan_is_visible.
  rewrite land_bit_eqb, negb_involutive by lia.
  rewrite Hmask, Z.lor_spec, Z.shiftl_spec_low by lia.
  rewrite orb_false_r. reflexivity.
Qed.

End AttachData.

Lemma probe_registers_consistent_data_witness :
  attached_data thermal_demo_registered.
Proof.
  apply (probe_registers_consistent_data thermal_demo
           thermal_demo_registered 0).
  vm_compute. do 41 right. left. reflexivity.
Defined.

Lemma probe_fan_mask_from_enable_bytes_witness :
  exists a b rest,
    events_since thermal_demo (nct7904_probe thermal_demo) =
      [EvLock; EvWrite BANK_SEL_REG BANK_0 0;
       EvRead FANIN_CTRL0_REG a; EvRead FANIN_CTRL1_REG b; EvUnlock]
      ++ rest /\
    fanin_mask thermal_demo_registered = Z.lor a (Z.shiftl b 8) /\
    forall i, 0 <= i < 8 ->
      nct7904_fan_is_visible thermal_demo_registered hwmon_fan_input i =
        if Z.testbit a i then 292 else 0.
Proof.
  apply (probe_fan_mask_from_enable_bytes thermal_demo
           thermal_demo_registered 0).
  vm_compute. do 41 right. left. reflexivity.
Defined.

(** ** Identification *)

Section Identification.

Context {B : Type} `{Platform B}.

Ltac detect_cases :=
  unfold nct7904_detect, mbind, smbus_read, mret;
  cbv beta iota zeta; cbn [w_data w_bus w_trace negb];
  change (Int.to_u8 VENDOR_ID_REG) with VENDOR_ID_REG;
  change (Int.to_u8 CHIP_ID_REG) with CHIP_ID_REG;
  change (Int.to_u8 DEVICE_ID_REG) with DEVICE_ID_REG;
  change (Int.to_u8 BANK_SEL_REG) with BANK_SEL_REG;
  bus_results;
  repeat match goal with
    | |- context [if negb (?a =? ?b) then _ else _] =>
        destruct (Z.eqb_spec a b); cbn [negb]; cbv beta iota;
        cbn [w_data w_bus w_trace]; bus_results
    end.

(** X17: Identification only reads, and reads in a fixed order.  Without the
    SMBus capabilities nothing is sent.  Otherwise the vendor, chip, device
    and bank-select registers are read in that order and the reading stops
    at the first mismatch: the trace is the vendor read alone when the
    vendor byte is not 0x50, the vendor and chip reads when the chip byte
    is not 0xC5, the first three reads when the high nibble of the device
    byte is not 5, and all four reads otherwise; no mutex is taken, nothing
    is written.  The result is 0 with the type name "nct7904" exactly when
    all four were read and matched, bits 3..7 of the bank-select byte being
    clear; in every other case it is -ENODEV and the type name is left
    alone. *)
Theorem detect_reads_in_order (w : world B) (functionality : bool) :
  let o := nct7904_detect functionality w in
  exists ret name, returned o = Some (ret, name) /\
    forallb is_read (events_since w o) = true /\
    read_commands (events_since w o) `prefix_of` detect_reads /\
    (functionality = false -> events_since w o = []) /\
    (functionality = true ->
     (exists vendor,
        events_since w o = [EvRead VENDOR_ID_REG vendor] /\
        vendor <> NUVOTON_ID) \/
     (exists chip,
        events_since w o =
          [EvRead VENDOR_ID_REG NUVOTON_ID; EvRead CHIP_ID_REG chip] /\
        chip <> NCT7904_ID) \/
     (exists dev,
        events_since w o =
          [EvRead VENDOR_ID_REG NUVOTON_ID; EvRead CHIP_ID_REG NCT7904_ID;
           EvRead DEVICE_ID_REG dev] /\
        Z.land dev 0xf0 <> 0x50) \/
     (exists dev sel,
        events_since w o =
          [EvRead VENDOR_ID_REG NUVOTON_ID; EvRead CHIP_ID_REG NCT7904_ID;
           EvRead DEVICE_ID_REG dev; EvRead BANK_SEL_REG sel] /\
        Z.land dev 0xf0 = 0x50)) /\
    (ret = 0 \/ ret = - ENODEV) /\
    name = (if ret =? 0 then Some "nct7904"%string else None) /\
    (ret = 0 <->
     functionality = true /\
     exists dev sel,
       events_since w o =
         [EvRead VENDOR_ID_REG NUVOTON_ID; EvRead CHIP_ID_REG NCT7904_ID;
          EvRead DEVICE_ID_REG dev; EvRead BANK_SEL_REG sel] /\
       Z.land dev 0xf0 = 0x50 /\ Z.land sel 0xf8 = 0).
Proof.
  cbv zeta. destruct functionality.
  2: { unfold nct7904_detect, mret. cbn [negb returned events_since].
       rewrite drop_all. do 2 eexists. split; [reflexivity|].
       split; [reflexivity|]. split; [eexists; reflexivity|].
       split; [reflexivity|]. split; [discriminate|].
       split; [right; reflexivity|].
       split; [reflexivity|].
       split; [discriminate|]. intros [Hf _]. discriminate Hf. }
  detect_cases.
  all: do 2 eexists; (split; [reflexivity|]).
  all: erewrite events_since_done
    by (cbn [w_trace]; repeat rewrite <- app_assoc; cbn [app]; reflexivity).
  all: split; [reflexivity|].
  all: split; [eexists; reflexivity|].
  all: split; [discriminate|].
  all: split;
    [ intros _; subst;
      first
        [ left; eexists; split; [reflexivity | assumption]
        | right; left; eexists; split; [reflexivity | assumption]
        | right; right; left; eexists; split; [reflexivity | assumption]
        | right; right; right; do 2 eexists;
          split; [reflexivity | assumption] ]
    | ].
  all: split; [first [left; reflexivity | right; reflexivity]|].
  all: split; [reflexivity|].
  all: split;
    [ first [ discriminate
            | intros _; split; [reflexivity|]; subst;
              do 2 eexists; split; [reflexivity|]; split; assumption ]
    | first [ reflexivity
            | intros (_ & dev & sel & Hev & Hd & Hs);
              injection Hev; intros; subst; congruence ] ].
Qed.

Lemma errno_never_matches (r : Z) :
  -160 <= r < 0 ->
  r <> NUVOTON_ID /\ r <> NCT7904_ID /\
  Z.land r 0xf0 <> 0x50 /\ Z.land r 0xf8 <> 0.
Proof.
  intros Hr.
  assert (Hall : forallb
            (fun n => let x := - Z.of_nat n in
                      negb (x =? NUVOTON_ID) && negb (x =? NCT7904_ID) &&
                      negb (Z.land x 0xf0 =? 0x50) &&
                      negb (Z.land x 0xf8 =? 0))
            (seq 1 160) = true) by (vm_compute; reflexivity).
  rewrite forallb_forall in Hall.
  specialize (Hall (Z.to_nat (- r))).
  assert (Hin : In (Z.to_nat (- r)) (seq 1 160)) by (apply in_seq; lia).
  specialize (Hall Hin). cbv zeta in Hall.
  rewrite Z2Nat.id, Z.opp_involutive in Hall by lia.
  repeat (apply andb_true_iff in Hall; destruct Hall as [Hall ?]).
  repeat match goal with
         | Hb : negb (_ =? _) = true |- _ =>
             apply negb_true_iff, Z.eqb_neq in Hb
         end.
  auto.
Qed.

(** X18: A transport error is never taken for a match: when any of the reads
    of identification fails with a code between -160 and -1 (the values of
    errno.h lie there), the result is -ENODEV and the type name
    is left alone. *)
Theorem detect_rejects_failed_reads (w : world B) (functionality : bool)
    (c r : Z) :
  In (EvRead c r) (events_since w (nct7904_detect functionality w)) ->
  -160 <= r < 0 ->
  returned (nct7904_detect functionality w) = Some (- ENODEV, None).
Proof.
  destruct functionality.
  2: { unfold nct7904_detect, mret. cbn [negb returned events_since].
       rewrite drop_all. intros []. }
  detect_cases.
  all: erewrite events_since_done
    by (cbn [w_trace]; repeat rewrite <- app_assoc; cbn [app]; reflexivity).
  all: try reflexivity.
  intros Hin Hr. exfalso. cbn [In] in Hin.
  destruct (errno_never_matches r Hr) as (Hv & Hc & Hd & Hs).
  repeat match goal with
         | Hor : _ \/ _ |- _ => destruct Hor
         | Heq : EvRead _ _ = EvRead _ _ |- _ =>
             injection Heq; intros; subst; clear Heq
         | Hf : False |- _ => contradiction
         end; congruence.
Qed.

End Identification.

Lemma detect_rejects_failed_reads_witness :
  returned (nct7904_detect true (id_demo [0; 0; - EIO]))
    = Some (- ENODEV, None).
Proof.
  apply (detect_rejects_failed_reads (id_demo [0; 0; - EIO]) true
           DEVICE_ID_REG (- EIO)).
  - vm_compute. right. right. left. reflexivity.
  - unfold EIO. lia.
Defined.

Example detect_accepts_the_chip :
  returned (nct7904_detect true (id_demo [])) = Some (0, Some "nct7904"%string).
Proof. vm_compute. reflexivity. Qed.

(** ** Results of the callbacks *)

Section CallbackResults.

Context {B : Type} `{Platform B}.

Lemma access_then_value {C} (bank : Z) (a : access) (k : Z -> M B C)
    (w : world B) (c : C) :
  returned (mbind (run_access bank a) k w) = Some c ->
  exists ret w1,
    (ret < 0 \/ 0 <= ret <= access_bound a) /\
    returned (k ret w1) = Some c.
Proof.
  unfold mbind.
  destruct (run_access_range w bank a) as (ret & w1 & -> & Hrange).
  intros Hk. exists ret, w1. auto.
Qed.

(** X19: A value read from a sensor lies in the range of its decoding: 0..12282
    millivolts for a voltage (an 11-bit magnitude times 2 or 6),
    0..1350000 RPM for a fan, -128000..127875 millidegrees for a
    temperature, 0..255 for a PWM duty, and 1 or 2 for the PWM mode. *)
Theorem read_value_in_range (w : world B) (req : hwmon_request)
    (channel v : Z) :
  returned (nct7904_read req channel w) = Some (Val v) ->
  value_in_range req v.
Proof.
  destruct req as [attr|attr|attr|attr|]; cbn [nct7904_read value_in_range];
    try destruct attr; try discriminate.
  - unfold nct7904_read_in. unfold mbind at 1. unfold array_read.
    destruct (array_get nct7904_chan_to_index channel) as [index|];
      [|discriminate].
    unfold mret at 1. intros Hret.
    apply (access_then_value BANK_0 (ReadReg16 _)) in Hret.
    destruct Hret as (ret & w1 & Hrange & Hk).
    destruct (Z.ltb_spec ret 0); [discriminate|].
    injection Hk as <-. pose proof (volt_magnitude_range ret).
    destruct (index <? 14); lia.
  - unfold nct7904_read_in, mbind, array_read.
    destruct (array_get nct7904_chan_to_index channel); discriminate.
  - unfold nct7904_read_fan. intros Hret.
    apply (access_then_value BANK_0 (ReadReg16 _)) in Hret.
    destruct Hret as (ret & w1 & Hrange & Hk).
    destruct (Z.ltb_spec ret 0); [discriminate|].
    unfold mbind in Hk. pose proof (fan_count_range ret) as Hcnt.
    destruct (fan_count ret =? 8191); [injection Hk as <-; lia|].
    unfold udiv in Hk.
    destruct (Z.eqb_spec (fan_count ret) 0); [discriminate|].
    injection Hk as <-. split.
    + apply Z.div_pos; lia.
    + apply Z.div_le_upper_bound; lia.
  - unfold nct7904_read_pwm. intros Hret.
    apply (access_then_value BANK_3 (ReadReg _)) in Hret.
    destruct Hret as (ret & w1 & Hrange & Hk). cbn [access_bound] in Hrange.
    destruct (Z.ltb_spec ret 0); [discriminate|].
    injection Hk as <-. lia.
  - unfold nct7904_read_pwm. intros Hret.
    apply (access_then_value BANK_3 (ReadReg _)) in Hret.
    destruct Hret as (ret & w1 & Hrange & Hk).
    destruct (Z.ltb_spec ret 0); [discriminate|].
    injection Hk as <-. destruct (ret =? 0); auto.
  - unfold nct7904_read_temp. intros Hret.
    assert (Hacc : exists ret w1, 0 <= ret /\
              returned (mret (B := B)
                          (Val (sign_extend32 (volt_magnitude ret) 10 * 125))
                          w1) = Some (Val v)).
    { destruct (channel =? 4); [|destruct (channel <? 5)];
        apply (access_then_value BANK_0 (ReadReg16 _)) in Hret;
        destruct Hret as (ret & w1 & Hrange & Hk);
        (destruct (Z.ltb_spec ret 0); [discriminate|]);
        exists ret, w1; auto. }
    destruct Hacc as (ret & w1 & Hpos & Hk). injection Hk as <-.
    pose proof (volt_magnitude_range ret) as Hm.
    rewrite sign_extend32_11 by exact Hm.
    unfold signed11. destruct (Z.ltb_spec (volt_magnitude ret) 1024); lia.
Qed.

Lemma access_error_propagates (bank : Z) (a : access) (k : Z -> M B rv)
    (w : world B) (n : nat) (e : Z) :
  (forall ret w1, ret < 0 -> k ret w1 = Done (Errno ret) w1) ->
  quiet k ->
  In (n, e) (failed_steps 0 (events_since w (mbind (run_access bank a) k w))) ->
  returned (mbind (run_access bank a) k w) = Some (Errno e).
Proof.
  intros Herr Hquiet. unfold mbind.
  destruct (run_access_post w bank a)
    as (ret & w1 & -> & seg & Htr & _ & _ & Hfail & _).
  destruct (Hquiet ret w1) as [[c Hk]|[f Hk]]; rewrite Hk;
    [|intros []].
  rewrite (events_since_done w w1 c (EvLock :: seg) Htr).
  cbn [failed_steps is_lock]. rewrite Hfail.
  destruct (Z.ltb_spec ret 0) as [Hneg|Hpos]; [|intros []].
  intros [Heq|[]]. injection Heq as _ <-.
  rewrite (Herr ret w1 Hneg) in Hk. injection Hk as <-. reflexivity.
Qed.

Lemma no_events_no_failure {A} (w : world B) (a : A) (n : nat) (e : Z) :
  ~ In (n, e) (failed_steps 0 (events_since w (mret a w))).
Proof.
  unfold mret. cbn [events_since]. rewrite drop_all. intros [].
Qed.

(** X20: A read never hides a transport error: whenever a transaction of a
    read callback fails, the callback returns the code of that
    transaction, never a value. *)
Theorem read_propagates_errors (w : world B) (req : hwmon_request)
    (channel : Z) (n : nat) (e : Z) :
  In (n, e) (failed_steps 0 (events_since w (nct7904_read req channel w))) ->
  returned (nct7904_read req channel w) = Some (Errno e).
Proof.
  destruct req as [attr|attr|attr|attr|]; cbn [nct7904_read];
    try destruct attr;
    try (intros Hin; exfalso; exact (no_events_no_failure w _ n e Hin)).
  - unfold nct7904_read_in. unfold mbind at 1 3. unfold array_read.
    destruct (array_get nct7904_chan_to_index channel) as [index|];
      [|intros []].
    unfold mret at 1 4.
    apply (access_error_propagates BANK_0 (ReadReg16 _)).
    + intros ret w1 Hneg. destruct (Z.ltb_spec ret 0); [reflexivity|lia].
    + intros ret w1. left. destruct (ret <? 0); eexists; reflexivity.
  - unfold nct7904_read_in, mbind, array_read.
    destruct (array_get nct7904_chan_to_index channel); [|intros []].
    intros Hin. exfalso. exact (no_events_no_failure w _ n e Hin).
  - unfold nct7904_read_fan.
    apply (access_error_propagates BANK_0 (ReadReg16 _)).
    + intros ret w1 Hneg. destruct (Z.ltb_spec ret 0); [reflexivity|lia].
    + intros ret w1. destruct (ret <? 0); [left; eexists; reflexivity|].
      unfold mbind. destruct (fan_count ret =? 8191);
        [left; eexists; reflexivity|].
      unfold udiv. destruct (fan_count ret =? 0);
        [right|left]; eexists; reflexivity.
  - unfold nct7904_read_pwm.
    apply (access_error_propagates BANK_3 (ReadReg _)).
    + intros ret w1 Hneg. destruct (Z.ltb_spec ret 0); [reflexivity|lia].
    + intros ret w1. left. destruct (ret <? 0); eexists; reflexivity.
  - unfold nct7904_read_pwm.
    apply (access_error_propagates BANK_3 (ReadReg _)).
    + intros ret w1 Hneg. destruct (Z.ltb_spec ret 0); [reflexivity|lia].
    + intros ret w1. left. destruct (ret <? 0); eexists; reflexivity.
  - unfold nct7904_read_temp.
    destruct (channel =? 4); [|destruct (channel <? 5)];
      apply (access_error_propagates BANK_0 (ReadReg16 _));
      try (intros ret w1 Hneg; destruct (Z.ltb_spec ret 0);
           [reflexivity|lia]);
      intros ret w1; left; destruct (ret <? 0); eexists; reflexivity.
Qed.

(** X21: A write never hides a transport error either: whenever a
    transaction of a write callback fails, the callback returns the code of
    that transaction. *)
Theorem write_propagates_errors (w : world B) (req : hwmon_request)
    (channel val : Z) (n : nat) (e : Z) :
  In (n, e)
     (failed_steps 0 (events_since w (nct7904_write req channel val w))) ->
  returned (nct7904_write req channel val w) = Some (Errno e).
Proof.
  assert (Hstatus : forall ret (w1 : world B), ret < 0 ->
            mret (status ret) w1 = Done (Errno ret) w1).
  { intros ret w1 Hneg. unfold status.
    destruct (Z.eqb_spec ret 0); [lia|reflexivity]. }
  assert (Hquiet : quiet (B := B) (fun ret => mret (status ret))).
  { intros ret w1. left. eexists. reflexivity. }
  destruct req as [attr|attr|attr|attr|]; cbn [nct7904_write];
    try (intros Hin; exfalso; exact (no_events_no_failure w _ n e Hin)).
  destruct attr.
  - unfold nct7904_write_pwm.
    destruct ((val <? 0) || (255 <? val));
      [intros Hin; exfalso; exact (no_events_no_failure w _ n e Hin)|].
    apply (access_error_propagates BANK_3 (WriteReg _ _)); assumption.
  - destruct (array_get (fan_mode (w_data w)) channel) as [snapshot|]
      eqn:Hsnap.
    + rewrite (write_pwm_enable_eq w channel val snapshot Hsnap).
      destruct (val =? 1);
        [apply (access_error_propagates BANK_3 (WriteReg _ _)); assumption|].
      destruct ((val =? 2) && negb (snapshot =? 0));
        [apply (access_error_propagates BANK_3 (WriteReg _ _)); assumption|].
      intros Hin. exfalso. exact (no_events_no_failure w _ n e Hin).
    + unfold nct7904_write_pwm, mbind, get_data, array_read.
      rewrite Hsnap.
      destruct ((val <? 1) || (2 <? val)); cbv beta iota.
      * unfold mret. cbn [events_since]. rewrite drop_all. intros [].
      * destruct (val =? 2); cbv beta iota.
        -- unfold raise. intros [].
        -- unfold mret at 1 2 5 6. cbv beta iota.
           apply (access_error_propagates BANK_3 (WriteReg _ _)); assumption.
  - intros Hin. exfalso. exact (no_events_no_failure w _ n e Hin).
Qed.

End CallbackResults.

Lemma read_value_in_range_witness :
  value_in_range (hwmon_fan hwmon_fan_input) 1000.
Proof.
  apply (read_value_in_range decode_demo (hwmon_fan hwmon_fan_input) 0 1000).
  vm_compute. reflexivity.
Defined.

(** A chip whose next transaction fails with -EIO. *)
Lemma read_propagates_errors_witness :
  returned (nct7904_read (hwmon_fan hwmon_fan_input) 0 bank_demo_fail)
    = Some (Errno (- EIO)).
Proof.
  apply (read_propagates_errors bank_demo_fail (hwmon_fan hwmon_fan_input) 0
           1%nat (- EIO)).
  vm_compute. left. reflexivity.
Defined.

Lemma write_propagates_errors_witness :
  returned (nct7904_write (hwmon_pwm hwmon_pwm_input) 0 10 bank_demo_fail)
    = Some (Errno (- EIO)).
Proof.
  apply (write_propagates_errors bank_demo_fail (hwmon_pwm hwmon_pwm_input)
           0 10 1%nat (- EIO)).
  vm_compute. left. reflexivity.
Defined.

(** ** How attachment ends *)

Section AttachOutcome.

Context {B : Type} `{Platform B}.

Lemma ending_after (seg tr : list event) (ret : Z) (w' : world B) :
  published seg = false -> ending tr ret w' -> ending (seg ++ tr) ret w'.
Proof.
  intros Hseg [[Hneg Hpub]|(pre & -> & Hpre & Hle)].
  - left. split; [exact Hneg|]. rewrite published_app, Hseg, Hpub.
    reflexivity.
  - right. exists (seg ++ pre). split; [apply app_assoc|].
    split; [|exact Hle]. rewrite published_app, Hseg, Hpre. reflexivity.
Qed.

Lemma finishes_abort (ret : Z) : ret < 0 -> finishes (B := B) (mret ret).
Proof.
  intros Hneg w. exists ret, w, []. split; [reflexivity|].
  split; [rewrite app_nil_r; reflexivity|]. left. auto.
Qed.

Lemma finishes_register : finishes hwmon_device_register.
Proof.
  intros w. unfold hwmon_device_register.
  do 3 eexists. split; [reflexivity|]. split; [reflexivity|].
  right. exists []. cbn [w_data app]. split; [reflexivity|].
  split; [reflexivity|]. apply register_contract.
Qed.

Lemma finishes_modify (f : nct7904_data -> nct7904_data) (k : M B Z) :
  finishes k -> finishes (modify_data f ;;; k).
Proof.
  intros Hk w. unfold mbind, modify_data.
  exact (Hk (mk_world (f (w_data w)) (w_bus w) (w_trace w))).
Qed.

Lemma finishes_get (k : nct7904_data -> M B Z) :
  (forall d, finishes (k d)) -> finishes (d <- get_data ;; k d).
Proof. intros Hk w. unfold mbind, get_data. exact (Hk (w_data w) w). Qed.

Lemma finishes_tcpu_mask_or_if (c : bool) (v : Z) (k : M B Z) :
  finishes k -> finishes (tcpu_mask_or_if c v ;;; k).
Proof.
  intros Hk. unfold tcpu_mask_or_if. destruct c.
  - apply finishes_modify. exact Hk.
  - intros w. unfold mbind, mret. exact (Hk w).
Qed.

Lemma finishes_access_any (bank : Z) (a : access) (k : Z -> M B Z) :
  (forall ret, finishes (k ret)) ->
  finishes (ret <- run_access bank a ;; k ret).
Proof.
  intros Hk w. unfold mbind.
  destruct (run_access_post w bank a)
    as (ret & w1 & -> & seg & Htr1 & _ & Hpub & _ & _).
  destruct (Hk ret w1) as (r & w' & tr & Hrun & Htr & Hend).
  exists r, w', ((EvLock :: seg) ++ tr).
  split; [exact Hrun|].
  split; [rewrite Htr, Htr1, <- app_assoc; reflexivity|].
  apply ending_after; [exact Hpub|exact Hend].
Qed.

Lemma finishes_access (bank : Z) (a : access) (k : Z -> M B Z) :
  (forall ret, finishes (k ret)) ->
  finishes (ret <- run_access bank a ;; if ret <? 0 then mret ret else k ret).
Proof.
  intros Hk. apply finishes_access_any. intros ret.
  destruct (Z.ltb_spec ret 0); [apply finishes_abort; assumption|apply Hk].
Qed.

Lemma finishes_fan_mode_loop (k : M B Z) (n : nat) (i : Z) :
  finishes k -> finishes (fan_mode_loop n i k).
Proof.
  intros Hk. revert i. induction n as [|n IH]; intros i; [exact Hk|].
  cbn [fan_mode_loop].
  apply (finishes_access BANK_3 (ReadReg (FANCTL1_FMR_REG + i))).
  intros ret. apply finishes_modify. apply IH.
Qed.

Lemma finishes_probe_dts (k : M B Z) : finishes k -> finishes (probe_dts k).
Proof.
  intros Hk. unfold probe_dts.
  apply finishes_get. intros d.
  destruct (negb (enable_dts d =? 0)); [|exact Hk].
  apply (finishes_access BANK_0 (ReadReg DTS_T_CTRL0_REG)).
  intros ret. apply finishes_modify. apply finishes_get. intros d'.
  destruct (negb (Z.land (enable_dts d') 2 =? 0)); [|exact Hk].
  apply (finishes_access BANK_0 (ReadReg DTS_T_CTRL1_REG)).
  intros ret'. apply finishes_modify. exact Hk.
Qed.

Lemma finishes_probe_tail : finishes probe_tail.
Proof.
  assert (Hrest : finishes (probe_dts
            (fan_mode_loop (Z.to_nat FANCTL_MAX) 0 hwmon_device_register))).
  { apply finishes_probe_dts, finishes_fan_mode_loop, finishes_register. }
  unfold probe_tail.
  apply (finishes_access BANK_0 (ReadReg VT_ADC_CTRL0_REG)). intros r1.
  do 4 apply finishes_tcpu_mask_or_if.
  apply (finishes_access BANK_0 (ReadReg VT_ADC_CTRL2_REG)). intros r2.
  apply finishes_tcpu_mask_or_if.
  apply (finishes_access BANK_0 (ReadReg VT_ADC_MD_REG)). intros r3.
  apply finishes_modify.
  apply (finishes_access BANK_2 (ReadReg PFE_REG)). intros r4.
  cbv zeta.
  destruct (negb (Z.land r4 128 =? 0)).
  - apply finishes_modify. exact Hrest.
  - apply (finishes_access BANK_2 (ReadReg TSI_CTRL_REG)). intros r5.
    destruct (negb (Z.land r5 128 =? 0)).
    + apply finishes_modify. exact Hrest.
    + intros w5. unfold mbind, mret. exact (Hrest w5).
Qed.

Lemma finishes_probe : finishes nct7904_probe.
Proof.
  rewrite probe_unfold. intros w. unfold mbind at 1. unfold kzalloc.
  destruct (fst (devm_kzalloc (w_bus w))); cbn [negb].
  2: { unfold mret. do 3 eexists. split; [reflexivity|].
       split; [cbn [w_trace]; rewrite app_nil_r; reflexivity|].
       left. split; [unfold ENOMEM; lia|reflexivity]. }
  assert (Hrest : finishes
            (modify_data (with_bank_sel (-1)) ;;;
             ret <- nct7904_read_reg16 BANK_0 FANIN_CTRL0_REG ;;
             if ret <? 0 then mret ret
             else
             modify_data
               (with_fanin_mask
                  (Z.lor (Z.shiftr ret 8) (Z.shiftl (Z.land ret 0xff) 8))) ;;;
             ret <- nct7904_read_reg16 BANK_0 VT_ADC_CTRL0_REG ;;
             let mask := if 0 <=? ret
                         then Z.lor (Z.shiftr ret 8)
                                (Z.shiftl (Z.land ret 0xff) 8)
                         else 0 in
             ret <- nct7904_read_reg BANK_0 VT_ADC_CTRL2_REG ;;
             let mask := if 0 <=? ret then Z.lor mask (Z.shiftl ret 16)
                         else mask in
             modify_data (with_vsen_mask mask) ;;;
             probe_tail)).
  { apply finishes_modify.
    apply (finishes_access BANK_0 (ReadReg16 FANIN_CTRL0_REG)). intros r1.
    apply finishes_modify.
    apply (finishes_access_any BANK_0 (ReadReg16 VT_ADC_CTRL0_REG)).
    intros r2. cbv zeta.
    apply (finishes_access_any BANK_0 (ReadReg VT_ADC_CTRL2_REG)).
    intros r3. apply finishes_modify. apply finishes_probe_tail. }
  destruct (Hrest (mk_world zeroed_data (snd (devm_kzalloc (w_bus w)))
                     (w_trace w)))
    as (ret & w' & tr & Hrun & Htr & Hend).
  exists ret, w', tr. auto.
Qed.

(** X16: Probe always returns, and never a positive value.  It returns 0
    exactly when it has called the hwmon registration and that returned 0.
    A registration, when there is one, is the last thing probe does, is
    done once, hands over the driver data as probe leaves it, and its
    result is what probe returns; otherwise the result is negative and
    nothing has been registered. *)
Theorem probe_outcome (w : world B) :
  let o := nct7904_probe w in
  exists ret w',
    o = Done ret w' /\ ret <= 0 /\
    ((ret < 0 /\ published (events_since w o) = false) \/
     (exists pre,
        events_since w o = pre ++ [EvRegister (w_data w') ret] /\
        published pre = false)) /\
    (ret = 0 <->
     exists d, In (EvRegister d 0) (events_since w o)).
Proof.
  cbv zeta. destruct (finishes_probe w) as (ret & w' & tr & Hrun & Htr & Hend).
  rewrite Hrun, (events_since_done w w' ret tr Htr).
  exists ret, w'. split; [reflexivity|].
  destruct Hend as [[Hneg Hpub]|(pre & -> & Hpre & Hle)].
  - split; [lia|]. split; [left; auto|].
    split; [lia|]. intros [d Hin]. exfalso.
    apply (unpublished_register_post (fun _ => False) tr Hpub d 0 Hin).
  - split; [exact Hle|]. split; [right; exists pre; auto|].
    split.
    + intros ->. exists (w_data w'). apply in_or_app. right. left.
      reflexivity.
    + intros [d Hin]. apply in_app_or in Hin. destruct Hin as [Hin|Hin].
      * exfalso.
        apply (unpublished_register_post (fun _ => False) pre Hpre d 0 Hin).
      * destruct Hin as [Heq|[]]. injection Heq as _ <-. reflexivity.
Qed.

End AttachOutcome.
